(** * SmartCrop Pakistan: the numeric pipeline of [ml-pipeline]

    A shallow embedding of [ml-pipeline/satellite_processor.py] and
    [ml-pipeline/models/yield_predictor.py], and the properties of the
    indices, the health zones, the health score, the time-series encoder
    and the yield forecast.

    Number model.  Python's [float] and numpy's [float64] are idealised as
    exact rationals [Q]: a literal such as [0.2] or [1e-10] denotes the
    decimal it spells, arithmetic is exact, and there is neither [nan] nor
    [inf].  A division whose divisor is zero has no value in this model: it
    is a fault ([DivisionFault]).  A division by a literal constant other
    than zero is written [/].  Rounding error of binary floating point is
    outside the model, and so is the square root, which [np.std] needs: the
    definitions that use it take it as the section variable [sqrt].

    Raster model.  A numpy array is the row-major list of its pixels; two
    arrays have the same shape when their lists have the same length, and an
    elementwise operation on arrays of different shapes raises.  A scalar
    operand is broadcast with [map]; broadcasting of a one-element array is
    not modelled (the bands of a scene have identical dimensions).

    State model.  [yield_predictor.py] draws from numpy's global random
    generator and reads the clock.  Both are explicit in [World], which the
    functions that use them thread through. *)

From Stdlib Require Import String Ascii.
From Stdlib Require Import QArith Qround Qminmax Qabs Lqa Lia ZArith List Bool.
Import ListNotations.

Open Scope Q_scope.

(** ** Failures *)

Inductive error : Set :=
| ValueError      (* shapes that cannot be broadcast, an empty reduction *)
| IndexError      (* an index or a boolean mask that does not fit the array *)
| DivisionFault   (* a division by zero *)
| KeyError.       (* a dict lookup on an absent key *)

Inductive result (A : Type) : Type :=
| Ok (a : A)
| Raise (e : error).

Arguments Ok {A} a.
Arguments Raise {A} e.

Definition bind {A B : Type} (m : result A) (k : A -> result B) : result B :=
  match m with
  | Ok a => k a
  | Raise e => Raise e
  end.

Notation "x <- m ;; k" := (bind m (fun x => k))
  (at level 61, m at next level, right associativity).

(** ** The world outside the arguments

    numpy's global generator is a sequence of standard normal deviates and a
    cursor into it; the clock gives the current day. *)

Record World : Type := {
  gauss : nat -> Q;
  cursor : nat;
  today : Z
}.

(** Computations that may read and advance the world, and may fail. *)
Definition M (A : Type) : Type := World -> result A * World.

Definition ret {A : Type} (a : A) : M A := fun w => (Ok a, w).

Definition lift {A : Type} (r : result A) : M A := fun w => (r, w).

Definition bindM {A B : Type} (m : M A) (k : A -> M B) : M B :=
  fun w =>
    match m w with
    | (Ok a, w') => k a w'
    | (Raise e, w') => (Raise e, w')
    end.

Notation "x <~ m ;; k" := (bindM m (fun x => k))
  (at level 61, m at next level, right associativity).

(** [datetime.now()], as a day number. *)
Definition datetime_now : M Z := fun w => (Ok (today w), w).

(** ** Python builtins *)

Module py.

(** Rounding of [y] to the nearest integer, a tie going to the even one. *)
Definition round_half_even (y : Q) : Z :=
  let f := Qfloor y in
  match ((y - inject_Z f) ?= 0.5)%Q with
  | Lt => f
  | Gt => (f + 1)%Z
  | Eq => if Z.even f then f else (f + 1)%Z
  end.

(** [round(x, ndigits)] on a float. *)
Definition round (x : Q) (ndigits : nat) : Q :=
  let scale := inject_Z (10 ^ Z.of_nat ndigits) in
  inject_Z (round_half_even (x * scale)) / scale.

(** [int(x)] on a float: truncation toward zero. *)
Definition int (x : Q) : Z := Z.quot (Qnum x) (Zpos (Qden x)).

(** [range(0, stop, step)] for a positive [step]. *)
Definition range_step (stop step : Z) : list Z :=
  map (fun k => (step * Z.of_nat k)%Z)
      (seq 0 (Z.to_nat ((stop + step - 1) / step))).

Definition lower_ascii (c : ascii) : ascii :=
  let n := nat_of_ascii c in
  if ((65 <=? n) && (n <=? 90))%nat then ascii_of_nat (n + 32) else c.

(** [str.lower()], on ASCII text. *)
Fixpoint lower (s : string) : string :=
  match s with
  | EmptyString => EmptyString
  | String c s' => String (lower_ascii c) (lower s')
  end.

(** [d\[k\]] on a dict held as an association list. *)
Fixpoint getitem {K V : Type} (eqb : K -> K -> bool) (d : list (K * V)) (k : K)
  : result V :=
  match d with
  | [] => Raise KeyError
  | (k', v) :: d' => if eqb k' k then Ok v else getitem eqb d' k
  end.

(** [d.get(k, default)]. *)
Definition get {K V : Type} (eqb : K -> K -> bool) (d : list (K * V)) (k : K)
           (default : V) : V :=
  match getitem eqb d k with
  | Ok v => v
  | Raise _ => default
  end.

End py.

(** ** The numpy operations the pipeline uses *)

Module np.

Definition Qltb (x y : Q) : bool := negb (Qle_bool y x).

(** [x / y] on scalars. *)
Definition divide (x y : Q) : result Q :=
  if Qeq_bool y 0 then Raise DivisionFault else Ok (x / y).

(** An elementwise binary operation on two arrays. *)
Fixpoint elementwise {A B C : Type} (f : A -> B -> result C)
         (xs : list A) (ys : list B) : result (list C) :=
  match xs, ys with
  | [], [] => Ok []
  | x :: xs', y :: ys' =>
      z <- f x y ;;
      zs <- elementwise f xs' ys' ;;
      Ok (z :: zs)
  | _, _ => Raise ValueError
  end.

Definition add (xs ys : list Q) : result (list Q) :=
  elementwise (fun x y => Ok (x + y)) xs ys.

Definition subtract (xs ys : list Q) : result (list Q) :=
  elementwise (fun x y => Ok (x - y)) xs ys.

Definition true_divide (xs ys : list Q) : result (list Q) :=
  elementwise divide xs ys.

Definition logical_and (xs ys : list bool) : result (list bool) :=
  elementwise (fun x y => Ok (x && y)) xs ys.

Definition logical_or (xs ys : list bool) : result (list bool) :=
  elementwise (fun x y => Ok (x || y)) xs ys.

Definition logical_not (xs : list bool) : list bool := map negb xs.

(** [xs < c] and [xs > c] against a scalar. *)
Definition less (xs : list Q) (c : Q) : list bool :=
  map (fun x => Qltb x c) xs.

Definition greater (xs : list Q) (c : Q) : list bool :=
  map (fun x => Qltb c x) xs.

(** [np.where(cond, c, xs)] with a scalar [c]. *)
Fixpoint where_ {A : Type} (cond : list bool) (c : A) (xs : list A)
  : result (list A) :=
  match cond, xs with
  | [], [] => Ok []
  | b :: cond', x :: xs' =>
      zs <- where_ cond' c xs' ;;
      Ok ((if b then c else x) :: zs)
  | _, _ => Raise ValueError
  end.

(** [xs\[mask\] = v]: assignment through a boolean mask. *)
Fixpoint setitem_mask {A : Type} (xs : list A) (mask : list bool) (v : A)
  : result (list A) :=
  match xs, mask with
  | [], [] => Ok []
  | x :: xs', b :: mask' =>
      zs <- setitem_mask xs' mask' v ;;
      Ok ((if b then v else x) :: zs)
  | _, _ => Raise IndexError
  end.

(** [xs\[mask\]]: selection through a boolean mask. *)
Fixpoint getitem_mask {A : Type} (xs : list A) (mask : list bool)
  : result (list A) :=
  match xs, mask with
  | [], [] => Ok []
  | x :: xs', b :: mask' =>
      zs <- getitem_mask xs' mask' ;;
      Ok (if b then x :: zs else zs)
  | _, _ => Raise IndexError
  end.

(** [np.clip(x, lo, hi)] is [minimum(maximum(x, lo), hi)]. *)
Definition clip1 (x lo hi : Q) : Q := Qmin (Qmax x lo) hi.

Definition clip (xs : list Q) (lo hi : Q) : list Q :=
  map (fun x => clip1 x lo hi) xs.

Definition zeros (n : nat) : list Q := repeat 0 n.

Definition zeros_like {A : Type} (xs : list A) : list Z :=
  map (fun _ => 0%Z) xs.

Definition ones_like {A : Type} (xs : list A) : list bool :=
  map (fun _ => true) xs.

Definition any (xs : list bool) : bool := existsb (fun b => b) xs.

Definition size {A : Type} (xs : list A) : Z := Z.of_nat (length xs).

Definition sum (xs : list Q) : Q := fold_left Qplus xs 0.

(** [np.sum(zones == k)]: the number of entries equal to [k]. *)
Definition count_equal (zs : list Z) (k : Z) : Z :=
  Z.of_nat (length (filter (fun z => Z.eqb z k) zs)).

(** [np.mean]; without [nan] in the model, [np.nanmean] is the same. *)
Definition mean (xs : list Q) : result Q :=
  divide (sum xs) (inject_Z (size xs)).

Definition max (xs : list Q) : result Q :=
  match xs with
  | [] => Raise ValueError
  | x :: xs' => Ok (fold_left Qmax xs' x)
  end.

Definition min (xs : list Q) : result Q :=
  match xs with
  | [] => Raise ValueError
  | x :: xs' => Ok (fold_left Qmin xs' x)
  end.

(** [np.diff]: the differences of consecutive entries. *)
Fixpoint diff (xs : list Q) : list Q :=
  match xs with
  | x :: (y :: _) as xs' => (y - x) :: diff xs'
  | _ => []
  end.

(** [xs\[0\]] and [xs\[-1\]]. *)
Definition first (xs : list Q) : result Q :=
  match xs with
  | [] => Raise IndexError
  | x :: _ => Ok x
  end.

Definition last (xs : list Q) : result Q :=
  match xs with
  | [] => Raise IndexError
  | x :: xs' => Ok (List.last xs' x)
  end.

Section WithSqrt.

Variable sqrt : Q -> Q.

(** [np.std] (and [np.nanstd]): the root of the mean squared deviation. *)
Definition std (xs : list Q) : result Q :=
  m <- mean xs ;;
  v <- mean (map (fun x => (x - m) * (x - m)) xs) ;;
  Ok (sqrt v).

End WithSqrt.

(** [np.random.normal(loc, scale)]: the next deviate of the global
    generator, scaled and shifted; the generator moves on. *)
Definition random_normal (loc scale : Q) : M Q :=
  fun w =>
    (Ok (loc + scale * gauss w (cursor w)),
     {| gauss := gauss w; cursor := S (cursor w); today := today w |}).

End np.

(** ** [satellite_processor.py] *)

Module SatelliteProcessor.

(** The bands of a scene and its optional cloud mask; the acquisition
    metadata (date, source, resolution, CRS, bounds) plays no part in the
    computations. *)
Record SatelliteImage : Type := {
  farm_id : Z;
  blue : option (list Q);
  green : list Q;
  red : list Q;
  nir : list Q;
  swir : option (list Q);
  cloud_mask : option (list bool)
}.

Record VegetationIndices : Type := {
  ndvi : list Q;
  ndwi : list Q;
  savi : list Q;
  evi : option (list Q);
  ndvi_mean : Q;
  ndvi_std : Q;
  ndwi_mean : Q;
  ndwi_std : Q;
  savi_mean : Q
}.

(** The [stats] dict of [classify_health_zones]; its four keys are fixed. *)
Record ZoneStats : Type := {
  critical_percent : Q;
  stressed_percent : Q;
  moderate_percent : Q;
  healthy_percent : Q
}.

(** Soil adjustment factor for SAVI. *)
Definition SAVI_L : Q := 0.5.

(** EVI coefficients. *)
Definition EVI_G : Q := 2.5.
Definition EVI_C1 : Q := 6.0.
Definition EVI_C2 : Q := 7.5.
Definition EVI_L : Q := 1.0.

(** [denominator == 0]. *)
Definition is_zero (xs : list Q) : list bool :=
  map (fun d => Qeq_bool d 0) xs.

Definition compute_ndvi (nir red : list Q) : result (list Q) :=
  denominator <- np.add nir red ;;
  denominator <- np.where_ (is_zero denominator) 1e-10 denominator ;;
  numerator <- np.subtract nir red ;;
  ndvi <- np.true_divide numerator denominator ;;
  Ok (np.clip ndvi (-1.0) 1.0).

Definition compute_ndwi (nir green : list Q) : result (list Q) :=
  denominator <- np.add green nir ;;
  denominator <- np.where_ (is_zero denominator) 1e-10 denominator ;;
  numerator <- np.subtract green nir ;;
  ndwi <- np.true_divide numerator denominator ;;
  Ok (np.clip ndwi (-1.0) 1.0).

Definition compute_savi (nir red : list Q) (L : option Q)
  : result (list Q) :=
  let L := match L with None => SAVI_L | Some l => l end in
  denominator <- np.add nir red ;;
  let denominator := map (fun d => d + L) denominator in
  denominator <- np.where_ (is_zero denominator) 1e-10 denominator ;;
  numerator <- np.subtract nir red ;;
  quotient <- np.true_divide numerator denominator ;;
  let savi := map (fun q => q * (1 + L)) quotient in
  Ok (np.clip savi (-1.0) 1.0).

Definition compute_evi (nir red blue : list Q) : result (list Q) :=
  let c1_red := map (fun r => EVI_C1 * r) red in
  let c2_blue := map (fun b => EVI_C2 * b) blue in
  denominator <- np.add nir c1_red ;;
  denominator <- np.subtract denominator c2_blue ;;
  let denominator := map (fun d => d + EVI_L) denominator in
  denominator <- np.where_ (is_zero denominator) 1e-10 denominator ;;
  numerator <- np.subtract nir red ;;
  let numerator := map (fun n => EVI_G * n) numerator in
  evi <- np.true_divide numerator denominator ;;
  Ok (np.clip evi (-1.0) 1.0).

(** [float(np.sum(zones == k) / total_pixels * 100)]. *)
Definition zone_percent (zones : list Z) (k : Z) (total_pixels : Z)
  : result Q :=
  share <- np.divide (inject_Z (np.count_equal zones k))
                     (inject_Z total_pixels) ;;
  Ok (share * 100).

Definition classify_health_zones (ndvi ndwi : list Q)
  : result (list Z * ZoneStats) :=
  let zones := np.zeros_like ndvi in
  critical_mask <- np.logical_or (np.less ndvi 0.2) (np.less ndwi (-0.2)) ;;
  zones <- np.setitem_mask zones critical_mask 0%Z ;;
  low <- np.logical_or (np.less ndvi 0.4) (np.less ndwi 0) ;;
  stressed_mask <- np.logical_and (np.logical_not critical_mask) low ;;
  zones <- np.setitem_mask zones stressed_mask 1%Z ;;
  not_low <- np.logical_and (np.logical_not critical_mask)
                            (np.logical_not stressed_mask) ;;
  moderate_mask <- np.logical_and not_low (np.less ndvi 0.6) ;;
  zones <- np.setitem_mask zones moderate_mask 2%Z ;;
  healthy_mask <- np.logical_and not_low (np.logical_not moderate_mask) ;;
  zones <- np.setitem_mask zones healthy_mask 3%Z ;;
  let total_pixels := np.size zones in
  critical <- zone_percent zones 0 total_pixels ;;
  stressed <- zone_percent zones 1 total_pixels ;;
  moderate <- zone_percent zones 2 total_pixels ;;
  healthy <- zone_percent zones 3 total_pixels ;;
  Ok (zones, {| critical_percent := critical;
                stressed_percent := stressed;
                moderate_percent := moderate;
                healthy_percent := healthy |}).

Definition compute_health_score (indices : VegetationIndices) : Q :=
  let ndvi_score := np.clip1 ((ndvi_mean indices - 0.2) / 0.6 * 100) 0 100 in
  let ndwi_score := np.clip1 ((ndwi_mean indices + 0.2) / 0.6 * 100) 0 100 in
  let health_score := 0.7 * ndvi_score + 0.3 * ndwi_score in
  py.round health_score 1.

Section WithSqrt.

Variable sqrt : Q -> Q.

(** [float(stat(xs\[valid_mask\])) if valid_mask.any() else 0.0]. *)
Definition masked_stat (stat : list Q -> result Q) (xs : list Q)
           (valid_mask : list bool) : result Q :=
  if np.any valid_mask then
    selected <- np.getitem_mask xs valid_mask ;;
    stat selected
  else Ok 0.0.

Definition process_image (image : SatelliteImage) : result VegetationIndices :=
  let mask := match cloud_mask image with
              | Some m => m
              | None => np.ones_like (red image)
              end in
  ndvi <- compute_ndvi (nir image) (red image) ;;
  ndwi <- compute_ndwi (nir image) (green image) ;;
  savi <- compute_savi (nir image) (red image) None ;;
  evi <- match blue image with
         | Some b => e <- compute_evi (nir image) (red image) b ;; Ok (Some e)
         | None => Ok None
         end ;;
  in_range_low <- np.logical_and mask (np.greater ndvi (-1)) ;;
  valid_mask <- np.logical_and in_range_low (np.less ndvi 1) ;;
  ndvi_mean <- masked_stat np.mean ndvi valid_mask ;;
  ndvi_std <- masked_stat (np.std sqrt) ndvi valid_mask ;;
  ndwi_mean <- masked_stat np.mean ndwi valid_mask ;;
  ndwi_std <- masked_stat (np.std sqrt) ndwi valid_mask ;;
  savi_mean <- masked_stat np.mean savi valid_mask ;;
  Ok {| ndvi := ndvi; ndwi := ndwi; savi := savi; evi := evi;
        ndvi_mean := ndvi_mean; ndvi_std := ndvi_std;
        ndwi_mean := ndwi_mean; ndwi_std := ndwi_std;
        savi_mean := savi_mean |}.

End WithSqrt.

End SatelliteProcessor.

(** ** [models/yield_predictor.py] *)

(** Major crops in Pakistan. *)
Inductive CropType : Set := WHEAT | RICE | COTTON | SUGARCANE | MAIZE.

Definition CropType_eqb (a b : CropType) : bool :=
  match a, b with
  | WHEAT, WHEAT | RICE, RICE | COTTON, COTTON
  | SUGARCANE, SUGARCANE | MAIZE, MAIZE => true
  | _, _ => false
  end.

(** Input features for yield prediction; dates are day numbers. *)
Module FarmFeatures.

Record t : Type := {
  farm_id : Z;
  crop_type : CropType;
  area_hectares : Q;
  ndvi_series : list Q;
  current_ndvi : Q;
  current_ndwi : Q;
  current_savi : Q;
  avg_temperature : Q;
  total_rainfall_mm : Q;
  humidity_percent : Q;
  soil_ph : Q;
  soil_nitrogen : Q;
  soil_phosphorus : Q;
  soil_potassium : Q;
  irrigation_type : string;
  fertilizer_applied_kg : Q;
  planting_date : Z;
  district : string;
  province : string
}.

End FarmFeatures.

(** One entry of [PAKISTAN_YIELDS]: the yield statistics of a crop, in
    tons per hectare. *)
Module CropStats.

Record t : Type := {
  national_avg : Q;
  punjab_avg : Q;
  sindh_avg : Q;
  optimal : Q;
  min : Q
}.

End CropStats.

Definition PAKISTAN_YIELDS : list (CropType * CropStats.t) :=
  [ (WHEAT, {| CropStats.national_avg := 3.1; CropStats.punjab_avg := 3.3;
               CropStats.sindh_avg := 2.8; CropStats.optimal := 5.0;
               CropStats.min := 1.5 |});
    (RICE, {| CropStats.national_avg := 2.8; CropStats.punjab_avg := 2.5;
              CropStats.sindh_avg := 3.2; CropStats.optimal := 4.5;
              CropStats.min := 1.2 |});
    (COTTON, {| CropStats.national_avg := 0.8; CropStats.punjab_avg := 0.85;
                CropStats.sindh_avg := 0.75; CropStats.optimal := 1.5;
                CropStats.min := 0.3 |});
    (SUGARCANE, {| CropStats.national_avg := 55.0; CropStats.punjab_avg := 58.0;
                   CropStats.sindh_avg := 52.0; CropStats.optimal := 80.0;
                   CropStats.min := 30.0 |});
    (MAIZE, {| CropStats.national_avg := 5.5; CropStats.punjab_avg := 5.8;
               CropStats.sindh_avg := 4.5; CropStats.optimal := 8.0;
               CropStats.min := 2.5 |}) ].

Inductive Impact : Set := positive | negative.

(** An entry of [key_factors]: the English text and the value the message
    quotes (the source formats it with two decimals). *)
Record KeyFactor : Type := {
  factor : string;
  value : Q;
  impact : Impact;
  message_en : string
}.

(** Yield prediction result. *)
Module YieldPrediction.

Record t : Type := {
  crop_type : CropType;
  predicted_yield_tons_per_hectare : Q;
  confidence_interval : Q * Q;
  confidence_percent : Q;
  feature_importance : list (string * Q);
  key_factors : list KeyFactor;
  district_average : Q;
  province_average : Q;
  national_average : Q;
  percentile : Z
}.

End YieldPrediction.

(** An entry of the list [predict_timeseries] returns. *)
Record TimeseriesPoint : Type := {
  days_from_now : Z;
  date : Z;
  predicted_yield : Q;
  confidence : Q
}.

Module LSTMTimeSeriesEncoder.

Section WithSqrt.

Variable sqrt : Q -> Q.

Definition encode (ndvi_series : list Q) : result (list Q) :=
  let series := ndvi_series in
  if (length series <? 3)%nat then Ok (np.zeros 8)
  else
    mean <- np.mean series ;;
    std <- np.std sqrt series ;;
    peak <- np.max series ;;
    trough <- np.min series ;;
    final <- np.last series ;;
    initial <- np.first series ;;
    avg_change <- np.mean (np.diff series) ;;
    max_change <- np.max (np.diff series) ;;
    Ok [mean; std; peak; trough; final - initial; final; avg_change;
        max_change].

End WithSqrt.

End LSTMTimeSeriesEncoder.

Module XGBoostYieldModel.

(** The names of the entries of the feature vector, in order. *)
Definition feature_names : list string :=
  [ "ndvi_mean"; "ndvi_std"; "ndvi_max"; "ndvi_min";
    "ndvi_trend"; "ndvi_current"; "ndvi_avg_change"; "ndvi_max_change";
    "current_ndwi"; "current_savi";
    "temperature"; "rainfall"; "humidity";
    "soil_ph"; "soil_n"; "soil_p"; "soil_k";
    "area_hectares"; "fertilizer_kg";
    "irrigation_canal"; "irrigation_tubewell"; "irrigation_rainfed";
    "days_since_planting" ]%string.

Definition irrigation_factors : list (string * Q) :=
  [ ("canal"%string, 1.0); ("tubewell"%string, 0.95);
    ("rainfed"%string, 0.7) ].

Section WithSqrt.

Variable sqrt : Q -> Q.

(** Prepare feature vector from farm data. *)
Definition prepare_features (farm : FarmFeatures.t) : M (list Q) :=
  ndvi_features <~
    lift (LSTMTimeSeriesEncoder.encode sqrt (FarmFeatures.ndvi_series farm)) ;;
  let irrigation := FarmFeatures.irrigation_type farm in
  let irrigation_canal := if String.eqb irrigation "canal" then 1 else 0 in
  let irrigation_tubewell :=
    if String.eqb irrigation "tubewell" then 1 else 0 in
  let irrigation_rainfed := if String.eqb irrigation "rainfed" then 1 else 0 in
  now <~ datetime_now ;;
  let days_since_planting := (now - FarmFeatures.planting_date farm)%Z in
  ret (ndvi_features
       ++ [FarmFeatures.current_ndwi farm; FarmFeatures.current_savi farm]
       ++ [FarmFeatures.avg_temperature farm;
           FarmFeatures.total_rainfall_mm farm;
           FarmFeatures.humidity_percent farm]
       ++ [FarmFeatures.soil_ph farm; FarmFeatures.soil_nitrogen farm;
           FarmFeatures.soil_phosphorus farm;
           FarmFeatures.soil_potassium farm]
       ++ [FarmFeatures.area_hectares farm;
           FarmFeatures.fertilizer_applied_kg farm]
       ++ [irrigation_canal; irrigation_tubewell; irrigation_rainfed]
       ++ [inject_Z days_since_planting]).

End WithSqrt.

Section WithYields.

(** The module-level dict [PAKISTAN_YIELDS], as the call finds it. *)
Variable yields : list (CropType * CropStats.t).

(** Predict yield in tons/hectare. *)
Definition predict (farm : FarmFeatures.t) : M Q :=
  stats <~ lift (py.getitem CropType_eqb yields
                            (FarmFeatures.crop_type farm)) ;;
  let base_yield := CropStats.national_avg stats in
  let optimal_yield := CropStats.optimal stats in
  let min_yield := CropStats.min stats in
  let ndvi_factor :=
    np.clip1 ((FarmFeatures.current_ndvi farm - 0.3) / 0.4) 0 1 in
  let water_factor :=
    np.clip1 ((FarmFeatures.current_ndwi farm + 0.2) / 0.5) 0 1 in
  let irrigation_factor :=
    py.get String.eqb irrigation_factors
           (FarmFeatures.irrigation_type farm) 0.8 in
  let combined_factor :=
    0.5 * ndvi_factor + 0.3 * water_factor + 0.2 * irrigation_factor in
  let yield_range := optimal_yield - min_yield in
  let predicted := min_yield + combined_factor * yield_range in
  noise <~ np.random_normal 0 0.05 ;;
  let predicted := predicted * (1 + noise) in
  ret (np.clip1 predicted min_yield optimal_yield).

End WithYields.

End XGBoostYieldModel.

Module YieldPredictor.

Definition feature_importance : list (string * Q) :=
  [ ("NDVI Index"%string, 0.35); ("Water Availability"%string, 0.25);
    ("Weather Conditions"%string, 0.15); ("Soil Quality"%string, 0.10);
    ("Irrigation Type"%string, 0.10);
    ("Management Practices"%string, 0.05) ].

(** The entries of [key_factors], in the order the source appends them. *)
Definition key_factors (farm : FarmFeatures.t) : list KeyFactor :=
  let current_ndvi := FarmFeatures.current_ndvi farm in
  let current_ndwi := FarmFeatures.current_ndwi farm in
  (if Qle_bool 0.6 current_ndvi then
     [ {| factor := "NDVI Index"; value := current_ndvi; impact := positive;
          message_en := "Excellent vegetation health" |} ]
   else if np.Qltb current_ndvi 0.4 then
     [ {| factor := "NDVI Index"; value := current_ndvi; impact := negative;
          message_en := "Low vegetation health - needs attention" |} ]
   else [])
  ++ (if np.Qltb current_ndwi 0.1 then
        [ {| factor := "Water Stress"; value := current_ndwi;
             impact := negative;
             message_en := "Water stress detected - increase irrigation" |} ]
      else []).

Section WithYields.

Variable yields : list (CropType * CropStats.t).

(** Generate yield prediction with confidence intervals. *)
Definition predict (farm : FarmFeatures.t) : M YieldPrediction.t :=
  predicted_yield <~ XGBoostYieldModel.predict yields farm ;;
  let std_error := 0.15 * predicted_yield in
  let ci_low := predicted_yield - 1.96 * std_error in
  let ci_high := predicted_yield + 1.96 * std_error in
  crop_stats <~ lift (py.getitem CropType_eqb yields
                                 (FarmFeatures.crop_type farm)) ;;
  let national_avg := CropStats.national_avg crop_stats in
  let province := py.lower (FarmFeatures.province farm) in
  let province_avg :=
    if String.eqb province "punjab" then CropStats.punjab_avg crop_stats
    else if String.eqb province "sindh" then CropStats.sindh_avg crop_stats
    else national_avg in
  position <~ lift (np.divide (predicted_yield - CropStats.min crop_stats)
                              (CropStats.optimal crop_stats
                               - CropStats.min crop_stats)) ;;
  let percentile := py.int (np.clip1 (position * 100) 0 100) in
  ret {| YieldPrediction.crop_type := FarmFeatures.crop_type farm;
         YieldPrediction.predicted_yield_tons_per_hectare :=
           py.round predicted_yield 2;
         YieldPrediction.confidence_interval :=
           (py.round ci_low 2, py.round ci_high 2);
         YieldPrediction.confidence_percent := 85.0;
         YieldPrediction.feature_importance := feature_importance;
         YieldPrediction.key_factors := key_factors farm;
         YieldPrediction.district_average := province_avg * 0.95;
         YieldPrediction.province_average := province_avg;
         YieldPrediction.national_average := national_avg;
         YieldPrediction.percentile := percentile |}.

(** The body of the loop of [predict_timeseries], over the days left. *)
Fixpoint timeseries_loop (current_yield : Q) (days : list Z)
  : M (list TimeseriesPoint) :=
  match days with
  | [] => ret []
  | day :: days' =>
      let growth_factor := 1 + 0.01 * (inject_Z day / 7) in
      noise <~ np.random_normal 0 0.02 ;;
      now <~ datetime_now ;;
      let point :=
        {| days_from_now := day;
           date := (now + day)%Z;
           predicted_yield :=
             py.round (current_yield * growth_factor * (1 + noise)) 2;
           confidence := 85 - inject_Z day * 0.5 |} in
      points <~ timeseries_loop current_yield days' ;;
      ret (point :: points)
  end.

(** Predict yield evolution over time. *)
Definition predict_timeseries (farm : FarmFeatures.t) (days_ahead : Z)
  : M (list TimeseriesPoint) :=
  current_yield <~ XGBoostYieldModel.predict yields farm ;;
  timeseries_loop current_yield (py.range_step days_ahead 7).

End WithYields.

End YieldPredictor.

(** ** The specification's formulas

    The definitions of this module follow the words of the specification,
    not the code; the theorems below compare the two. *)

Module Spec.

(** "Clamped to [lo, hi]". *)
Definition clamp (x lo hi : Q) : Q :=
  if Qlt_le_dec x lo then lo else if Qlt_le_dec hi x then hi else x.

(** The negligible positive epsilon that stands in for a zero denominator. *)
Definition epsilon : Q := 1e-10.

(** "Any pixel whose denominator would be exactly zero is computed using a
    denominator replaced by epsilon." *)
Definition denominator_or_epsilon (d : Q) : Q :=
  if Qeq_dec d 0 then epsilon else d.

Definition NDVI (nir red : Q) : Q :=
  clamp ((nir - red) / denominator_or_epsilon (nir + red)) (-1) 1.

Definition NDWI (green nir : Q) : Q :=
  clamp ((green - nir) / denominator_or_epsilon (green + nir)) (-1) 1.

Definition SAVI (L nir red : Q) : Q :=
  clamp ((nir - red) / denominator_or_epsilon (nir + red + L) * (1 + L))
        (-1) 1.

Definition EVI (nir red blue : Q) : Q :=
  clamp (2.5 * (nir - red)
         / denominator_or_epsilon (nir + 6.0 * red - 7.5 * blue + 1.0))
        (-1) 1.

(** A formula applied to every pixel of two or three rasters. *)
Definition pixelwise2 {A : Type} (f : Q -> Q -> A) (xs ys : list Q) : list A :=
  map (fun p => f (fst p) (snd p)) (combine xs ys).

Definition pixelwise3 {A : Type} (f : Q -> Q -> Q -> A) (xs ys zs : list Q)
  : list A :=
  map (fun p => f (fst p) (fst (snd p)) (snd (snd p)))
      (combine xs (combine ys zs)).

(** Two rasters that agree pixel by pixel. *)
Definition same_raster (xs ys : list Q) : Prop := Forall2 Qeq xs ys.

Definition in_index_range (x : Q) : Prop := -1 <= x <= 1.

(** The four health zones and their codes in the zone map. *)
Inductive Zone : Set := critical | stressed | moderate | healthy.

Definition zone_code (z : Zone) : Z :=
  match z with
  | critical => 0
  | stressed => 1
  | moderate => 2
  | healthy => 3
  end.

Definition Zone_eqb (a b : Zone) : bool := Z.eqb (zone_code a) (zone_code b).

Definition lt (x y : Q) : bool := if Qlt_le_dec x y then true else false.

(** The classification policy, in its priority order. *)
Definition zone_of (ndvi ndwi : Q) : Zone :=
  if lt ndvi 0.2 || lt ndwi (-0.2) then critical
  else if lt ndvi 0.4 || lt ndwi 0 then stressed
  else if lt ndvi 0.6 then moderate
  else healthy.

(** The rule of each zone, as the policy words it: its own condition, and
    none of the conditions before it. *)
Definition rule (z : Zone) (ndvi ndwi : Q) : Prop :=
  match z with
  | critical => ndvi < 0.2 \/ ndwi < -0.2
  | stressed => ~ (ndvi < 0.2 \/ ndwi < -0.2) /\ (ndvi < 0.4 \/ ndwi < 0)
  | moderate =>
      ~ (ndvi < 0.2 \/ ndwi < -0.2) /\ ~ (ndvi < 0.4 \/ ndwi < 0)
      /\ ndvi < 0.6
  | healthy =>
      ~ (ndvi < 0.2 \/ ndwi < -0.2) /\ ~ (ndvi < 0.4 \/ ndwi < 0)
      /\ ~ ndvi < 0.6
  end.

(** The number of pixels of the two rasters that fall in zone [z]. *)
Definition zone_pixels (z : Zone) (ndvi ndwi : list Q) : nat :=
  length (filter (fun p => Zone_eqb (zone_of (fst p) (snd p)) z)
                 (combine ndvi ndwi)).

(** (pixels in zone) / (total pixels in the raster) * 100. *)
Definition zone_share (z : Zone) (ndvi ndwi : list Q) : Q :=
  inject_Z (Z.of_nat (zone_pixels z ndvi ndwi))
  / inject_Z (Z.of_nat (length ndvi)) * 100.

(** The health score: the weighted sum of the two normalised means,
    rounded to one decimal. *)
Definition health_score (mean_ndvi mean_ndwi : Q) : Q :=
  let ndvi_score := clamp ((mean_ndvi - 0.2) / 0.6 * 100) 0 100 in
  let ndwi_score := clamp ((mean_ndwi + 0.2) / 0.6 * 100) 0 100 in
  py.round (0.7 * ndvi_score + 0.3 * ndwi_score) 1.

(** The statistics of the time-series summary, in closed form. *)
Definition total (xs : list Q) : Q := fold_right Qplus 0 xs.

Definition mean (xs : list Q) : Q :=
  total xs / inject_Z (Z.of_nat (length xs)).

(** The mean squared deviation from the mean; the standard deviation is its
    square root. *)
Definition variance (xs : list Q) : Q :=
  mean (map (fun x => (x - mean xs) * (x - mean xs)) xs).

Definition is_max (m : Q) (xs : list Q) : Prop :=
  In m xs /\ Forall (fun x => x <= m) xs.

Definition is_min (m : Q) (xs : list Q) : Prop :=
  In m xs /\ Forall (fun x => m <= x) xs.

(** The consecutive differences [x1 - x0; x2 - x1; ...]. *)
Definition differences (xs : list Q) : list Q :=
  map (fun p => snd p - fst p) (combine xs (tl xs)).

(** A pixel counts for the index statistics when the mask keeps it and its
    NDVI lies strictly inside (-1, 1). *)
Definition valid_pixel (kept : bool) (ndvi : Q) : bool :=
  kept && lt (-1) ndvi && lt ndvi 1.

(** The values of [xs] at the valid pixels. *)
Fixpoint valid_values (mask : list bool) (ndvi xs : list Q) : list Q :=
  match mask, ndvi, xs with
  | m :: mask', v :: ndvi', x :: xs' =>
      if valid_pixel m v then x :: valid_values mask' ndvi' xs'
      else valid_values mask' ndvi' xs'
  | _, _, _ => []
  end.

(** A statistic over the valid pixels: 0.0 when there is none. *)
Definition is_statistic (stat : Q -> list Q -> Prop) (s : Q) (xs : list Q)
  : Prop :=
  match xs with
  | [] => s = 0.0
  | _ :: _ => stat s xs
  end.

Definition is_mean (s : Q) (xs : list Q) : Prop := s == mean xs.

Definition is_std (sqrt : Q -> Q) (s : Q) (xs : list Q) : Prop :=
  exists v, s = sqrt v /\ v == variance xs.

(** The point yield estimate. *)
Definition ndvi_factor (farm : FarmFeatures.t) : Q :=
  clamp ((FarmFeatures.current_ndvi farm - 0.3) / 0.4) 0 1.

Definition water_factor (farm : FarmFeatures.t) : Q :=
  clamp ((FarmFeatures.current_ndwi farm + 0.2) / 0.5) 0 1.

Definition irrigation_factor (farm : FarmFeatures.t) : Q :=
  let irrigation := FarmFeatures.irrigation_type farm in
  if String.eqb irrigation "canal" then 1.0
  else if String.eqb irrigation "tubewell" then 0.95
  else if String.eqb irrigation "rainfed" then 0.7
  else 0.8.

Definition combined (farm : FarmFeatures.t) : Q :=
  0.5 * ndvi_factor farm + 0.3 * water_factor farm
  + 0.2 * irrigation_factor farm.

(** min_yield + combined * (optimal_yield - min_yield), clamped to
    [min_yield, optimal_yield]. *)
Definition point_estimate (stats : CropStats.t) (farm : FarmFeatures.t) : Q :=
  clamp (CropStats.min stats
         + combined farm * (CropStats.optimal stats - CropStats.min stats))
        (CropStats.min stats) (CropStats.optimal stats).

(** The same estimate, scaled by (1 + noise) before it is clamped. *)
Definition noisy_estimate (stats : CropStats.t) (farm : FarmFeatures.t)
           (noise : Q) : Q :=
  clamp ((CropStats.min stats
          + combined farm * (CropStats.optimal stats - CropStats.min stats))
         * (1 + noise))
        (CropStats.min stats) (CropStats.optimal stats).

End Spec.

(** ** Auxiliary definitions of the proofs *)

(** The denominator the index computations divide by. *)
Definition guard (d : Q) : Q := if Qeq_bool d 0 then 1e-10 else d.

(** The soil adjustment [compute_savi] uses for its argument [L]. *)
Definition savi_L (L : option Q) : Q :=
  match L with None => SatelliteProcessor.SAVI_L | Some l => l end.

(** The zone code the four masked assignments leave at pixel [p], whose
    NDVI is [v p] and whose NDWI is [w p]. *)
Definition zone_view {P : Type} (v w : P -> Q) (p : P) : Z :=
  Spec.zone_code (Spec.zone_of (v p) (w p)).

(** NDVI, NDWI and SAVI (with the default [L]) of one pixel, as the code
    computes them. *)
Definition pixel_ndvi (nir red : Q) : Q :=
  np.clip1 ((nir - red) / guard (nir + red)) (-1.0) 1.0.

Definition pixel_ndwi (nir green : Q) : Q :=
  np.clip1 ((green - nir) / guard (green + nir)) (-1.0) 1.0.

Definition pixel_savi (nir red : Q) : Q :=
  np.clip1 ((nir - red) / guard (nir + red + savi_L None)
            * (1 + savi_L None)) (-1.0) 1.0.

(** The mask [process_image] works with: the cloud mask of the image, or
    all pixels when it has none. *)
Definition mask_of (image : SatelliteProcessor.SatelliteImage) : list bool :=
  match SatelliteProcessor.cloud_mask image with
  | Some m => m
  | None => np.ones_like (SatelliteProcessor.red image)
  end.

(** The bands and the mask of the image have one shape. *)
Definition well_shaped (image : SatelliteProcessor.SatelliteImage) : Prop :=
  length (SatelliteProcessor.red image)
  = length (SatelliteProcessor.nir image)
  /\ length (SatelliteProcessor.green image)
     = length (SatelliteProcessor.nir image)
  /\ match SatelliteProcessor.blue image with
     | Some b => length b = length (SatelliteProcessor.nir image)
     | None => True
     end
  /\ match SatelliteProcessor.cloud_mask image with
     | Some m => length m = length (SatelliteProcessor.nir image)
     | None => True
     end.

(** The world after one draw from the generator. *)
Definition advance (w : World) : World :=
  {| gauss := gauss w; cursor := S (cursor w); today := today w |}.

(** The noise [XGBoostYieldModel.predict] draws in world [w]. *)
Definition drawn_noise (w : World) : Q := 0 + 0.05 * gauss w (cursor w).

(** The farm with another area. *)
Definition with_area (farm : FarmFeatures.t) (area : Q) : FarmFeatures.t :=
  {| FarmFeatures.farm_id := FarmFeatures.farm_id farm;
     FarmFeatures.crop_type := FarmFeatures.crop_type farm;
     FarmFeatures.area_hectares := area;
     FarmFeatures.ndvi_series := FarmFeatures.ndvi_series farm;
     FarmFeatures.current_ndvi := FarmFeatures.current_ndvi farm;
     FarmFeatures.current_ndwi := FarmFeatures.current_ndwi farm;
     FarmFeatures.current_savi := FarmFeatures.current_savi farm;
     FarmFeatures.avg_temperature := FarmFeatures.avg_temperature farm;
     FarmFeatures.total_rainfall_mm := FarmFeatures.total_rainfall_mm farm;
     FarmFeatures.humidity_percent := FarmFeatures.humidity_percent farm;
     FarmFeatures.soil_ph := FarmFeatures.soil_ph farm;
     FarmFeatures.soil_nitrogen := FarmFeatures.soil_nitrogen farm;
     FarmFeatures.soil_phosphorus := FarmFeatures.soil_phosphorus farm;
     FarmFeatures.soil_potassium := FarmFeatures.soil_potassium farm;
     FarmFeatures.irrigation_type := FarmFeatures.irrigation_type farm;
     FarmFeatures.fertilizer_applied_kg :=
       FarmFeatures.fertilizer_applied_kg farm;
     FarmFeatures.planting_date := FarmFeatures.planting_date farm;
     FarmFeatures.district := FarmFeatures.district farm;
     FarmFeatures.province := FarmFeatures.province farm |}.

(** ** Sample inputs *)

Module Sample.

(** A canal-irrigated wheat farm in Punjab, of area [area]. *)
Definition wheat_farm (area : Q) : FarmFeatures.t :=
  {| FarmFeatures.farm_id := 1;
     FarmFeatures.crop_type := WHEAT;
     FarmFeatures.area_hectares := area;
     FarmFeatures.ndvi_series := [0.45; 0.48; 0.52; 0.55; 0.58];
     FarmFeatures.current_ndvi := 0.5;
     FarmFeatures.current_ndwi := 0.05;
     FarmFeatures.current_savi := 0.58;
     FarmFeatures.avg_temperature := 22.0;
     FarmFeatures.total_rainfall_mm := 150.0;
     FarmFeatures.humidity_percent := 65.0;
     FarmFeatures.soil_ph := 7.2;
     FarmFeatures.soil_nitrogen := 180;
     FarmFeatures.soil_phosphorus := 25;
     FarmFeatures.soil_potassium := 150;
     FarmFeatures.irrigation_type := "canal";
     FarmFeatures.fertilizer_applied_kg := 150;
     FarmFeatures.planting_date := 0;
     FarmFeatures.district := "Faisalabad";
     FarmFeatures.province := "Punjab" |}.

(** A generator whose deviates alternate between 1 and -1. *)
Definition alternating : World :=
  {| gauss := fun k => if Nat.even k then 1 else -1; cursor := 0;
     today := 0 |}.

(** A generator whose deviates are all 1, at two different positions and
    days. *)
Definition steady (position : nat) (day : Z) : World :=
  {| gauss := fun _ => 1; cursor := position; today := day |}.

(** A scene of three pixels, the second under cloud. *)
Definition scene : SatelliteProcessor.SatelliteImage :=
  {| SatelliteProcessor.farm_id := 1;
     SatelliteProcessor.blue := Some [0.1; 0.12; 0.1];
     SatelliteProcessor.green := [0.2; 0.2; 0.15];
     SatelliteProcessor.red := [0.15; 0.1; 0.2];
     SatelliteProcessor.nir := [0.5; 0.6; 0.3];
     SatelliteProcessor.swir := None;
     SatelliteProcessor.cloud_mask := Some [true; false; true] |}.

Definition nir_band : list Q := [0.5; 0; 0.3].
Definition red_band : list Q := [0.15; 0; 0.2].
Definition green_band : list Q := [0.2; 0; 0.15].
Definition blue_band : list Q := [0.1; 0; 0.1].

Definition ndvi_raster : list Q := [0.538; 0.1; 0.7; 0.5].
Definition ndwi_raster : list Q := [0.1; 0.1; 0.1; -0.1].

Definition short_series : list Q := [0.4; 0.5].
Definition series : list Q := [0.4; 0.5; 0.6; 0.5].

Definition indices_with (mean_ndvi mean_ndwi : Q)
  : SatelliteProcessor.VegetationIndices :=
  {| SatelliteProcessor.ndvi := []; SatelliteProcessor.ndwi := [];
     SatelliteProcessor.savi := []; SatelliteProcessor.evi := None;
     SatelliteProcessor.ndvi_mean := mean_ndvi;
     SatelliteProcessor.ndvi_std := 0;
     SatelliteProcessor.ndwi_mean := mean_ndwi;
     SatelliteProcessor.ndwi_std := 0;
     SatelliteProcessor.savi_mean := 0 |}.

End Sample.

(** ** Further auxiliary definitions and sample inputs *)

(** The image with another cloud mask. *)
Definition with_mask (image : SatelliteProcessor.SatelliteImage)
           (mask : option (list bool)) : SatelliteProcessor.SatelliteImage :=
  {| SatelliteProcessor.farm_id := SatelliteProcessor.farm_id image;
     SatelliteProcessor.blue := SatelliteProcessor.blue image;
     SatelliteProcessor.green := SatelliteProcessor.green image;
     SatelliteProcessor.red := SatelliteProcessor.red image;
     SatelliteProcessor.nir := SatelliteProcessor.nir image;
     SatelliteProcessor.swir := SatelliteProcessor.swir image;
     SatelliteProcessor.cloud_mask := mask |}.

(** The four inputs [XGBoostYieldModel.predict] reads. *)
Definition same_predictors (f1 f2 : FarmFeatures.t) : Prop :=
  FarmFeatures.crop_type f1 = FarmFeatures.crop_type f2
  /\ FarmFeatures.current_ndvi f1 = FarmFeatures.current_ndvi f2
  /\ FarmFeatures.current_ndwi f1 = FarmFeatures.current_ndwi f2
  /\ FarmFeatures.irrigation_type f1 = FarmFeatures.irrigation_type f2.

(** Rasters compared pixel by pixel. *)
Definition raster_le (xs ys : list Q) : Prop := Forall2 Qle xs ys.

Definition in_unit_interval (x : Q) : Prop := 0 <= x <= 1.

Module Scenario.

(** A rain-fed rice farm in Sindh with poor indices and no history. *)
Definition rice_farm : FarmFeatures.t :=
  {| FarmFeatures.farm_id := 2;
     FarmFeatures.crop_type := RICE;
     FarmFeatures.area_hectares := 1.5;
     FarmFeatures.ndvi_series := [];
     FarmFeatures.current_ndvi := 0.35;
     FarmFeatures.current_ndwi := 0.05;
     FarmFeatures.current_savi := 0.3;
     FarmFeatures.avg_temperature := 31.0;
     FarmFeatures.total_rainfall_mm := 40.0;
     FarmFeatures.humidity_percent := 40.0;
     FarmFeatures.soil_ph := 8.1;
     FarmFeatures.soil_nitrogen := 90;
     FarmFeatures.soil_phosphorus := 12;
     FarmFeatures.soil_potassium := 100;
     FarmFeatures.irrigation_type := "rainfed";
     FarmFeatures.fertilizer_applied_kg := 60;
     FarmFeatures.planting_date := 10;
     FarmFeatures.district := "Larkana";
     FarmFeatures.province := "SINDH" |}.

(** The same farm with better indices. *)
Definition greener_rice_farm : FarmFeatures.t :=
  {| FarmFeatures.farm_id := 2;
     FarmFeatures.crop_type := RICE;
     FarmFeatures.area_hectares := 1.5;
     FarmFeatures.ndvi_series := [];
     FarmFeatures.current_ndvi := 0.55;
     FarmFeatures.current_ndwi := 0.15;
     FarmFeatures.current_savi := 0.3;
     FarmFeatures.avg_temperature := 31.0;
     FarmFeatures.total_rainfall_mm := 40.0;
     FarmFeatures.humidity_percent := 40.0;
     FarmFeatures.soil_ph := 8.1;
     FarmFeatures.soil_nitrogen := 90;
     FarmFeatures.soil_phosphorus := 12;
     FarmFeatures.soil_potassium := 100;
     FarmFeatures.irrigation_type := "rainfed";
     FarmFeatures.fertilizer_applied_kg := 60;
     FarmFeatures.planting_date := 10;
     FarmFeatures.district := "Larkana";
     FarmFeatures.province := "SINDH" |}.

(** The same farm under canal irrigation. *)
Definition canal_rice_farm : FarmFeatures.t :=
  {| FarmFeatures.farm_id := 2;
     FarmFeatures.crop_type := RICE;
     FarmFeatures.area_hectares := 1.5;
     FarmFeatures.ndvi_series := [];
     FarmFeatures.current_ndvi := 0.35;
     FarmFeatures.current_ndwi := 0.05;
     FarmFeatures.current_savi := 0.3;
     FarmFeatures.avg_temperature := 31.0;
     FarmFeatures.total_rainfall_mm := 40.0;
     FarmFeatures.humidity_percent := 40.0;
     FarmFeatures.soil_ph := 8.1;
     FarmFeatures.soil_nitrogen := 90;
     FarmFeatures.soil_phosphorus := 12;
     FarmFeatures.soil_potassium := 100;
     FarmFeatures.irrigation_type := "canal";
     FarmFeatures.fertilizer_applied_kg := 60;
     FarmFeatures.planting_date := 10;
     FarmFeatures.district := "Larkana";
     FarmFeatures.province := "SINDH" |}.

(** A world whose generator gives the deviates -30, 2, -1, 0, 0, ... *)
Definition stormy : World :=
  {| gauss := fun k =>
       match k with
       | O => -30
       | S O => 2
       | S (S O) => -1
       | _ => 0
       end;
     cursor := 0; today := 200 |}.

(** The sample scene with a mask that is False at every pixel. *)
Definition overcast : SatelliteProcessor.SatelliteImage :=
  with_mask Sample.scene (Some [false; false; false]).

Definition reflectance_nir : list Q := [0.5; 0; 1; 0.2].
Definition reflectance_red : list Q := [0.15; 0; 0; 0.6].
Definition reflectance_green : list Q := [0.2; 0; 0.1; 0.3].

Definition better_ndvi_raster : list Q := [0.6; 0.25; 0.7; 0.5].
Definition better_ndwi_raster : list Q := [0.1; 0.1; 0.2; 0.05].

End Scenario.

(** * Properties *)

(** ** Numbers and arrays *)

Lemma Qltb_lt (x y : Q) : np.Qltb x y = true <-> x < y.
Proof.
  unfold np.Qltb. rewrite negb_true_iff.
  destruct (Qle_bool y x) eqn:E.
  - apply Qle_bool_iff in E. split; [discriminate | intro; lra].
  - split; [intros _ | reflexivity].
    apply Qnot_le_lt. intro H. apply Qle_bool_iff in H. congruence.
Qed.

Lemma Qltb_ge (x y : Q) : np.Qltb x y = false <-> y <= x.
Proof.
  unfold np.Qltb. rewrite negb_false_iff. apply Qle_bool_iff.
Qed.

Lemma clip1_clamp (x lo hi : Q) :
  lo <= hi -> np.clip1 x lo hi == Spec.clamp x lo hi.
Proof.
  intro Hb. unfold np.clip1, Spec.clamp.
  destruct (Q.max_spec x lo) as [[H1 E1] | [H1 E1]];
    destruct (Q.min_spec (Qmax x lo) hi) as [[H2 E2] | [H2 E2]];
    rewrite E2; rewrite E1 in *;
    destruct (Qlt_le_dec x lo); destruct (Qlt_le_dec hi x); lra.
Qed.

Lemma clamp_bounds (x lo hi : Q) :
  lo <= hi -> lo <= Spec.clamp x lo hi <= hi.
Proof.
  intro Hb. unfold Spec.clamp.
  destruct (Qlt_le_dec x lo); destruct (Qlt_le_dec hi x); lra.
Qed.

Lemma clamp_le (x y lo hi : Q) :
  lo <= hi -> x <= y -> Spec.clamp x lo hi <= Spec.clamp y lo hi.
Proof.
  intros Hb Hxy. unfold Spec.clamp.
  destruct (Qlt_le_dec x lo); destruct (Qlt_le_dec hi x);
    destruct (Qlt_le_dec y lo); destruct (Qlt_le_dec hi y); lra.
Qed.

Lemma clip1_bounds (x lo hi : Q) :
  lo <= hi -> lo <= np.clip1 x lo hi <= hi.
Proof.
  intro Hb. rewrite (clip1_clamp x lo hi Hb). apply clamp_bounds, Hb.
Qed.

Lemma clip1_le (x y lo hi : Q) :
  lo <= hi -> x <= y -> np.clip1 x lo hi <= np.clip1 y lo hi.
Proof.
  intros Hb Hxy. rewrite !clip1_clamp by exact Hb. apply clamp_le; assumption.
Qed.

#[export] Instance clamp_Proper :
  Proper (Qeq ==> Qeq ==> Qeq ==> Qeq) Spec.clamp.
Proof.
  intros x x' Hx lo lo' Hlo hi hi' Hhi. unfold Spec.clamp.
  destruct (Qlt_le_dec x lo); destruct (Qlt_le_dec hi x);
    destruct (Qlt_le_dec x' lo'); destruct (Qlt_le_dec hi' x'); lra.
Qed.

(** Arrays that are views of one list of pixels. *)
Section PixelViews.

Context {P : Type}.

Lemma elementwise_map {A B C : Type} (f : A -> B -> result C)
      (a : P -> A) (b : P -> B) (g : P -> C) (ps : list P) :
  (forall p, In p ps -> f (a p) (b p) = Ok (g p)) ->
  np.elementwise f (map a ps) (map b ps) = Ok (map g ps).
Proof.
  induction ps as [| p ps IH]; intro Hf; simpl.
  - reflexivity.
  - rewrite (Hf p (or_introl eq_refl)). simpl.
    rewrite IH by (intros q Hq; apply Hf; right; exact Hq).
    reflexivity.
Qed.

Lemma where_map {A : Type} (c : P -> bool) (k : A) (a : P -> A)
      (ps : list P) :
  np.where_ (map c ps) k (map a ps)
  = Ok (map (fun p => if c p then k else a p) ps).
Proof.
  induction ps as [| p ps IH]; simpl.
  - reflexivity.
  - rewrite IH. reflexivity.
Qed.

Lemma setitem_mask_map {A : Type} (a : P -> A) (c : P -> bool) (v : A)
      (ps : list P) :
  np.setitem_mask (map a ps) (map c ps) v
  = Ok (map (fun p => if c p then v else a p) ps).
Proof.
  induction ps as [| p ps IH]; simpl.
  - reflexivity.
  - rewrite IH. reflexivity.
Qed.

Lemma getitem_mask_map {A : Type} (a : P -> A) (c : P -> bool)
      (ps : list P) :
  np.getitem_mask (map a ps) (map c ps) = Ok (map a (filter c ps)).
Proof.
  induction ps as [| p ps IH]; simpl.
  - reflexivity.
  - rewrite IH. simpl. destruct (c p); reflexivity.
Qed.

Lemma add_map (a b : P -> Q) (ps : list P) :
  np.add (map a ps) (map b ps) = Ok (map (fun p => a p + b p) ps).
Proof. apply elementwise_map. reflexivity. Qed.

Lemma subtract_map (a b : P -> Q) (ps : list P) :
  np.subtract (map a ps) (map b ps) = Ok (map (fun p => a p - b p) ps).
Proof. apply elementwise_map. reflexivity. Qed.

Lemma logical_and_map (a b : P -> bool) (ps : list P) :
  np.logical_and (map a ps) (map b ps) = Ok (map (fun p => a p && b p) ps).
Proof. apply elementwise_map. reflexivity. Qed.

Lemma logical_or_map (a b : P -> bool) (ps : list P) :
  np.logical_or (map a ps) (map b ps) = Ok (map (fun p => a p || b p) ps).
Proof. apply elementwise_map. reflexivity. Qed.

Lemma true_divide_map (a b : P -> Q) (ps : list P) :
  (forall p, In p ps -> ~ b p == 0) ->
  np.true_divide (map a ps) (map b ps) = Ok (map (fun p => a p / b p) ps).
Proof.
  intro Hb. apply elementwise_map. intros p Hp. unfold np.divide.
  destruct (Qeq_bool (b p) 0) eqn:E; [| reflexivity].
  apply Qeq_bool_iff in E. destruct (Hb p Hp E).
Qed.

Lemma same_raster_map (f g : P -> Q) (ps : list P) :
  (forall p, f p == g p) -> Spec.same_raster (map f ps) (map g ps).
Proof.
  intro H. induction ps; simpl; constructor; auto.
Qed.

End PixelViews.

Lemma combine_fst {A B : Type} (xs : list A) (ys : list B) :
  length ys = length xs -> map fst (combine xs ys) = xs.
Proof.
  revert ys. induction xs as [| x xs IH]; intros [| y ys] H; simpl in *;
    try discriminate; [reflexivity |].
  f_equal. apply IH. congruence.
Qed.

Lemma combine_snd {A B : Type} (xs : list A) (ys : list B) :
  length ys = length xs -> map snd (combine xs ys) = ys.
Proof.
  revert ys. induction xs as [| x xs IH]; intros [| y ys] H; simpl in *;
    try discriminate; [reflexivity |].
  f_equal. apply IH. congruence.
Qed.

(** ** The spectral indices *)

Lemma guard_nonzero (d : Q) : ~ guard d == 0.
Proof.
  unfold guard. destruct (Qeq_bool d 0) eqn:E.
  - intro H. vm_compute in H. discriminate.
  - apply Qeq_bool_neq, E.
Qed.

Lemma guard_spec (d : Q) : guard d == Spec.denominator_or_epsilon d.
Proof.
  unfold guard, Spec.denominator_or_epsilon, Spec.epsilon.
  destruct (Qeq_bool d 0) eqn:E; destruct (Qeq_dec d 0) as [H | H];
    try reflexivity.
  - apply Qeq_bool_iff in E. contradiction.
  - apply Qeq_bool_neq in E. contradiction.
Qed.

Ltac run_arrays :=
  repeat first
    [ rewrite add_map | rewrite subtract_map | rewrite where_map
    | rewrite logical_and_map | rewrite logical_or_map
    | rewrite setitem_mask_map | rewrite getitem_mask_map
    | rewrite map_map | progress cbn [bind] ].

Section IndexViews.

Context {P : Type}.

Lemma compute_ndvi_view (n r : P -> Q) (ps : list P) :
  SatelliteProcessor.compute_ndvi (map n ps) (map r ps)
  = Ok (map (fun p => np.clip1 ((n p - r p) / guard (n p + r p))
                               (-1.0) 1.0) ps).
Proof.
  unfold SatelliteProcessor.compute_ndvi, SatelliteProcessor.is_zero, np.clip.
  run_arrays.
  rewrite true_divide_map by (intros; apply guard_nonzero).
  run_arrays. reflexivity.
Qed.

Lemma compute_ndwi_view (n g : P -> Q) (ps : list P) :
  SatelliteProcessor.compute_ndwi (map n ps) (map g ps)
  = Ok (map (fun p => np.clip1 ((g p - n p) / guard (g p + n p))
                               (-1.0) 1.0) ps).
Proof.
  unfold SatelliteProcessor.compute_ndwi, SatelliteProcessor.is_zero, np.clip.
  run_arrays.
  rewrite true_divide_map by (intros; apply guard_nonzero).
  run_arrays. reflexivity.
Qed.

Lemma compute_savi_view (n r : P -> Q) (ps : list P) (L : option Q) :
  SatelliteProcessor.compute_savi (map n ps) (map r ps) L
  = Ok (map (fun p =>
               np.clip1 ((n p - r p) / guard (n p + r p + savi_L L)
                         * (1 + savi_L L)) (-1.0) 1.0) ps).
Proof.
  unfold SatelliteProcessor.compute_savi, SatelliteProcessor.is_zero, np.clip.
  fold (savi_L L). cbv zeta.
  run_arrays.
  rewrite true_divide_map by (intros; apply guard_nonzero).
  run_arrays. reflexivity.
Qed.

Lemma compute_evi_view (n r b : P -> Q) (ps : list P) :
  SatelliteProcessor.compute_evi (map n ps) (map r ps) (map b ps)
  = Ok (map (fun p =>
               np.clip1
                 (SatelliteProcessor.EVI_G * (n p - r p)
                  / guard (n p + SatelliteProcessor.EVI_C1 * r p
                           - SatelliteProcessor.EVI_C2 * b p
                           + SatelliteProcessor.EVI_L))
                 (-1.0) 1.0) ps).
Proof.
  unfold SatelliteProcessor.compute_evi, SatelliteProcessor.is_zero, np.clip.
  cbv zeta. run_arrays.
  rewrite true_divide_map by (intros; apply guard_nonzero).
  run_arrays. reflexivity.
Qed.

End IndexViews.

Lemma index_value_spec (num den : Q) :
  np.clip1 (num / guard den) (-1.0) 1.0
  == Spec.clamp (num / Spec.denominator_or_epsilon den) (-1) 1.
Proof.
  rewrite clip1_clamp by lra.
  apply clamp_Proper; [| lra | lra].
  rewrite (guard_spec den). reflexivity.
Qed.

Lemma combine3_views (xs ys zs : list Q) :
  length ys = length xs -> length zs = length xs ->
  map fst (combine xs (combine ys zs)) = xs
  /\ map (fun p => fst (snd p)) (combine xs (combine ys zs)) = ys
  /\ map (fun p => snd (snd p)) (combine xs (combine ys zs)) = zs.
Proof.
  intros Hy Hz.
  assert (Hc : length (combine ys zs) = length xs).
  { rewrite length_combine. lia. }
  split; [apply combine_fst, Hc |].
  split.
  - rewrite <- (map_map snd fst). rewrite combine_snd by exact Hc.
    apply combine_fst. congruence.
  - rewrite <- (map_map snd snd). rewrite combine_snd by exact Hc.
    apply combine_snd. congruence.
Qed.

Lemma Forall_map_all {P : Type} (R : Q -> Prop) (f : P -> Q) (ps : list P) :
  (forall p, R (f p)) -> Forall R (map f ps).
Proof.
  intro H. induction ps; simpl; constructor; auto.
Qed.

(** C1.  On band rasters of one shape, [compute_ndvi], [compute_ndwi],
    [compute_savi] (with [L] defaulting to 0.5) and [compute_evi] return
    without a fault, and what they return is, pixel by pixel, the value of
    the specification's formula: the quotient with a zero denominator
    replaced by the positive epsilon [1e-10], clamped to [-1, 1].  Every
    output value lies in [-1, 1]. *)
Theorem indices_are_the_clamped_formulas
        (nir red green blue : list Q) (L : option Q) :
  length red = length nir ->
  length green = length nir ->
  length blue = length nir ->
  exists ndvi ndwi savi evi,
    SatelliteProcessor.compute_ndvi nir red = Ok ndvi
    /\ SatelliteProcessor.compute_ndwi nir green = Ok ndwi
    /\ SatelliteProcessor.compute_savi nir red L = Ok savi
    /\ SatelliteProcessor.compute_evi nir red blue = Ok evi
    /\ Spec.same_raster ndvi (Spec.pixelwise2 Spec.NDVI nir red)
    /\ Spec.same_raster ndwi
         (Spec.pixelwise2 (fun n g => Spec.NDWI g n) nir green)
    /\ Spec.same_raster savi
         (Spec.pixelwise2
            (Spec.SAVI (match L with Some l => l | None => 0.5 end)) nir red)
    /\ Spec.same_raster evi (Spec.pixelwise3 Spec.EVI nir red blue)
    /\ Forall Spec.in_index_range (ndvi ++ ndwi ++ savi ++ evi)
    /\ 0 < Spec.epsilon.
Proof.
  intros Hr Hg Hb.
  pose proof (compute_ndvi_view fst snd (combine nir red)) as Hndvi.
  pose proof (compute_ndwi_view fst snd (combine nir green)) as Hndwi.
  pose proof (compute_savi_view fst snd (combine nir red) L) as Hsavi.
  pose proof (compute_evi_view fst (fun p => fst (snd p))
                               (fun p => snd (snd p))
                               (combine nir (combine red blue))) as Hevi.
  destruct (combine3_views nir red blue Hr Hb) as (E1 & E2 & E3).
  rewrite E1, E2, E3 in Hevi.
  rewrite (combine_fst nir red Hr), (combine_snd nir red Hr) in Hndvi, Hsavi.
  rewrite (combine_fst nir green Hg), (combine_snd nir green Hg) in Hndwi.
  do 4 eexists.
  split; [exact Hndvi |]. split; [exact Hndwi |].
  split; [exact Hsavi |]. split; [exact Hevi |].
  split; [| split; [| split; [| split; [| split]]]].
  - apply same_raster_map. intro p. unfold Spec.NDVI.
    apply index_value_spec.
  - apply same_raster_map. intro p. unfold Spec.NDWI.
    apply index_value_spec.
  - apply same_raster_map. intro p. unfold Spec.SAVI.
    rewrite clip1_clamp by lra.
    apply clamp_Proper; [| lra | lra].
    rewrite guard_spec. destruct L; reflexivity.
  - apply same_raster_map. intro p. unfold Spec.EVI.
    apply index_value_spec.
  - rewrite !Forall_app.
    repeat split; apply Forall_map_all; intro p;
      match goal with
      | |- Spec.in_index_range (np.clip1 ?x _ _) =>
          pose proof (clip1_bounds x (-1.0) 1.0 ltac:(lra));
          unfold Spec.in_index_range; lra
      end.
  - reflexivity.
Qed.

(** ** The health zones *)

Lemma divide_ok (x y : Q) : ~ y == 0 -> np.divide x y = Ok (x / y).
Proof.
  intro Hy. unfold np.divide. destruct (Qeq_bool y 0) eqn:E; [| reflexivity].
  apply Qeq_bool_iff in E. contradiction.
Qed.

Lemma lt_Qltb (x y : Q) : Spec.lt x y = np.Qltb x y.
Proof.
  unfold Spec.lt. destruct (Qlt_le_dec x y) as [H | H].
  - symmetry. apply Qltb_lt, H.
  - symmetry. apply Qltb_ge, H.
Qed.

Lemma lt_true (x y : Q) : Spec.lt x y = true <-> x < y.
Proof. rewrite lt_Qltb. apply Qltb_lt. Qed.

Lemma lt_false (x y : Q) : Spec.lt x y = false <-> ~ x < y.
Proof.
  rewrite lt_Qltb, Qltb_ge. split; intro H; lra.
Qed.

Lemma size_pixels_nonzero {P : Type} (ps : list P) :
  ps <> [] -> ~ inject_Z (Z.of_nat (length ps)) == 0.
Proof.
  intros Hne H. destruct ps as [| p ps]; [congruence |].
  unfold Qeq in H. simpl in H. lia.
Qed.

(** The zone of a pixel determines which of the four rules holds for it. *)
Lemma rule_iff_zone_of (z : Spec.Zone) (v w : Q) :
  Spec.rule z v w <-> Spec.zone_of v w = z.
Proof.
  unfold Spec.zone_of.
  destruct (Spec.lt v 0.2) eqn:A; destruct (Spec.lt w (-0.2)) eqn:B;
    destruct (Spec.lt v 0.4) eqn:C; destruct (Spec.lt w 0) eqn:D;
    destruct (Spec.lt v 0.6) eqn:E;
    rewrite ?lt_true, ?lt_false in *; simpl;
    destruct z; simpl; split; intro H;
    try discriminate; try reflexivity; try tauto; try lra.
Qed.

Section ZoneViews.

Context {P : Type}.

Variables v w : P -> Q.

Local Abbreviation zone := (zone_view v w).

Lemma classify_view (ps : list P) :
  ps <> [] ->
  SatelliteProcessor.classify_health_zones (map v ps) (map w ps)
  = let zones := map zone ps in
    let percent k :=
      inject_Z (np.count_equal zones k) / inject_Z (Z.of_nat (length ps))
      * 100 in
    Ok (zones,
        {| SatelliteProcessor.critical_percent := percent 0%Z;
           SatelliteProcessor.stressed_percent := percent 1%Z;
           SatelliteProcessor.moderate_percent := percent 2%Z;
           SatelliteProcessor.healthy_percent := percent 3%Z |}).
Proof.
  intro Hne.
  unfold SatelliteProcessor.classify_health_zones, np.less, np.logical_not,
    np.zeros_like.
  cbv zeta. run_arrays.
  match goal with
  | |- context [map ?F ps] =>
      rewrite (map_ext F zone)
  end.
  - unfold SatelliteProcessor.zone_percent, np.size.
    rewrite length_map.
    rewrite !divide_ok by (apply size_pixels_nonzero, Hne).
    reflexivity.
  - intro p. unfold zone_view, Spec.zone_of. rewrite !lt_Qltb.
    destruct (np.Qltb (v p) 0.2); destruct (np.Qltb (w p) (-0.2));
      destruct (np.Qltb (v p) 0.4); destruct (np.Qltb (w p) 0);
      destruct (np.Qltb (v p) 0.6); reflexivity.
Qed.

Lemma count_equal_zone_view (z : Spec.Zone) (ps : list P) :
  np.count_equal (map zone ps) (Spec.zone_code z)
  = Z.of_nat (Spec.zone_pixels z (map v ps) (map w ps)).
Proof.
  unfold np.count_equal, Spec.zone_pixels. f_equal.
  induction ps as [| p ps IH]; simpl; [reflexivity |].
  unfold Spec.Zone_eqb at 1. fold (zone p).
  destruct (zone p =? Spec.zone_code z)%Z; simpl; rewrite IH;
    reflexivity.
Qed.

Lemma zone_counts_cover (ps : list P) :
  (np.count_equal (map zone ps) 0 + np.count_equal (map zone ps) 1
   + np.count_equal (map zone ps) 2
   + np.count_equal (map zone ps) 3)%Z
  = Z.of_nat (length ps).
Proof.
  unfold np.count_equal.
  induction ps as [| p ps IH]; [reflexivity |].
  cbn [map filter].
  assert (Hz : In (zone p) [0; 1; 2; 3]%Z).
  { unfold zone_view.
    destruct (Spec.zone_of (v p) (w p)); simpl; tauto. }
  remember (zone p) as z eqn:Ez. clear Ez.
  destruct Hz as [<- | [<- | [<- | [<- | []]]]];
    cbn [Z.eqb Pos.eqb length]; lia.
Qed.

End ZoneViews.

Lemma pixelwise2_view {A : Type} (f : Q -> Q -> A) (xs ys : list Q) :
  Spec.pixelwise2 f xs ys = map (fun p => f (fst p) (snd p)) (combine xs ys).
Proof. reflexivity. Qed.

(** C2.  On NDVI and NDWI rasters of one shape, the zone map of
    [classify_health_zones] holds at every pixel the code of the zone the
    priority order assigns: critical (0) if NDVI < 0.2 or NDWI < -0.2, else
    stressed (1) if NDVI < 0.4 or NDWI < 0, else moderate (2) if NDVI < 0.6,
    else healthy (3).  The first matching rule wins, and a pixel satisfies
    the rule of exactly one zone, the one it is assigned. *)
Theorem zones_follow_the_priority_order (ndvi ndwi : list Q) :
  length ndwi = length ndvi ->
  ndvi <> [] ->
  (exists stats,
     SatelliteProcessor.classify_health_zones ndvi ndwi
     = Ok (Spec.pixelwise2
             (fun v w => Spec.zone_code (Spec.zone_of v w)) ndvi ndwi,
           stats))
  /\ (forall z v w, Spec.rule z v w <-> Spec.zone_of v w = z).
Proof.
  intros Hlen Hne. split; [| apply rule_iff_zone_of].
  assert (Hps : combine ndvi ndwi <> []).
  { destruct ndvi; [congruence |]. destruct ndwi; discriminate. }
  pose proof (classify_view fst snd (combine ndvi ndwi) Hps) as H.
  rewrite (combine_fst ndvi ndwi Hlen), (combine_snd ndvi ndwi Hlen) in H.
  rewrite H. cbv zeta. eexists. reflexivity.
Qed.

(** C8.  On a non-empty pair of NDVI and NDWI rasters of one shape, the
    four zone percentages of [classify_health_zones] add up to 100. *)
Theorem zone_percentages_sum_to_100 (ndvi ndwi : list Q) :
  length ndwi = length ndvi ->
  ndvi <> [] ->
  exists zones stats,
    SatelliteProcessor.classify_health_zones ndvi ndwi = Ok (zones, stats)
    /\ SatelliteProcessor.critical_percent stats
       + SatelliteProcessor.stressed_percent stats
       + SatelliteProcessor.moderate_percent stats
       + SatelliteProcessor.healthy_percent stats == 100.
Proof.
  intros Hlen Hne.
  assert (Hps : combine ndvi ndwi <> []).
  { destruct ndvi; [congruence |]. destruct ndwi; discriminate. }
  pose proof (classify_view fst snd (combine ndvi ndwi) Hps) as H.
  rewrite (combine_fst ndvi ndwi Hlen), (combine_snd ndvi ndwi Hlen) in H.
  rewrite H. cbv zeta. do 2 eexists. split; [reflexivity |].
  cbn [SatelliteProcessor.critical_percent SatelliteProcessor.stressed_percent
       SatelliteProcessor.moderate_percent SatelliteProcessor.healthy_percent].
  pose proof (zone_counts_cover fst snd (combine ndvi ndwi)) as Hsum.
  pose proof (size_pixels_nonzero (combine ndvi ndwi) Hps) as Hnz.
  set (n := Z.of_nat (length (combine ndvi ndwi))) in *.
  rewrite <- Hsum. rewrite !inject_Z_plus.
  rewrite <- Hsum, !inject_Z_plus in Hnz.
  field. exact Hnz.
Qed.

(** ** Rounding *)

Lemma round_half_even_range (y : Q) :
  py.round_half_even y = Qfloor y
  \/ (py.round_half_even y = (Qfloor y + 1)%Z
      /\ 0.5 <= y - inject_Z (Qfloor y)).
Proof.
  unfold py.round_half_even.
  destruct (Qcompare_spec (y - inject_Z (Qfloor y)) 0.5) as [H | H | H].
  - destruct (Z.even (Qfloor y)); [left; reflexivity |].
    right. split; [reflexivity | lra].
  - left. reflexivity.
  - right. split; [reflexivity | lra].
Qed.

Lemma round_half_even_comp (x y : Q) :
  x == y -> py.round_half_even x = py.round_half_even y.
Proof.
  intro H. unfold py.round_half_even.
  rewrite (Qfloor_comp x y H).
  assert (Hc : (x - inject_Z (Qfloor y) ?= 0.5)
               = (y - inject_Z (Qfloor y) ?= 0.5)).
  { apply Qcompare_comp; [rewrite H |]; reflexivity. }
  rewrite Hc. reflexivity.
Qed.

(** Rounding to the nearest integer is monotone. *)
Lemma round_half_even_le (x y : Q) :
  x <= y -> (py.round_half_even x <= py.round_half_even y)%Z.
Proof.
  intro Hxy.
  pose proof (Qfloor_resp_le x y Hxy) as Hf.
  pose proof (Qfloor_le x) as Hx1. pose proof (Qlt_floor x) as Hx2.
  pose proof (Qfloor_le y) as Hy1. pose proof (Qlt_floor y) as Hy2.
  destruct (Z.eq_dec (Qfloor x) (Qfloor y)) as [E | N].
  - unfold py.round_half_even. rewrite E.
    destruct (Qcompare_spec (x - inject_Z (Qfloor y)) 0.5) as [A | A | A];
      destruct (Qcompare_spec (y - inject_Z (Qfloor y)) 0.5) as [B | B | B];
      try lra; destruct (Z.even (Qfloor y)); lia.
  - assert (Hlt : (Qfloor x + 1 <= Qfloor y)%Z) by lia.
    destruct (round_half_even_range x) as [-> | [-> _]];
      destruct (round_half_even_range y) as [-> | [-> _]]; lia.
Qed.

Lemma round_scale_pos (ndigits : nat) :
  0 < inject_Z (10 ^ Z.of_nat ndigits).
Proof.
  replace 0 with (inject_Z 0) by reflexivity. rewrite <- Zlt_Qlt.
  apply Z.pow_pos_nonneg; lia.
Qed.

Lemma round_le (x y : Q) (ndigits : nat) :
  x <= y -> py.round x ndigits <= py.round y ndigits.
Proof.
  intro Hxy. unfold py.round.
  pose proof (round_scale_pos ndigits) as Hs.
  set (s := inject_Z (10 ^ Z.of_nat ndigits)) in *.
  apply Qmult_le_compat_r; [| apply Qlt_le_weak, Qinv_lt_0_compat, Hs].
  rewrite <- Zle_Qle. apply round_half_even_le.
  apply Qmult_le_compat_r; [exact Hxy | lra].
Qed.

#[export] Instance round_Proper : Proper (Qeq ==> eq ==> Qeq) py.round.
Proof.
  intros x y Hxy n m <-. unfold py.round.
  rewrite (round_half_even_comp (x * inject_Z (10 ^ Z.of_nat n))
                                (y * inject_Z (10 ^ Z.of_nat n)))
    by (rewrite Hxy; reflexivity).
  reflexivity.
Qed.

(** ** The health score *)

Lemma div_le (x y c : Q) : 0 < c -> x <= y -> x / c <= y / c.
Proof.
  intros Hc Hxy. unfold Qdiv.
  apply Qmult_le_compat_r; [exact Hxy |].
  apply Qlt_le_weak, Qinv_lt_0_compat, Hc.
Qed.

Lemma health_score_spec (indices : SatelliteProcessor.VegetationIndices) :
  SatelliteProcessor.compute_health_score indices
  == Spec.health_score (SatelliteProcessor.ndvi_mean indices)
                       (SatelliteProcessor.ndwi_mean indices).
Proof.
  unfold SatelliteProcessor.compute_health_score, Spec.health_score.
  cbv zeta. rewrite !clip1_clamp by lra. reflexivity.
Qed.

Lemma health_score_le (a b c d : Q) :
  a <= b -> c <= d -> Spec.health_score a c <= Spec.health_score b d.
Proof.
  intros Hab Hcd. unfold Spec.health_score. cbv zeta.
  apply round_le.
  assert (H1 : Spec.clamp ((a - 0.2) / 0.6 * 100) 0 100
               <= Spec.clamp ((b - 0.2) / 0.6 * 100) 0 100).
  { apply clamp_le; [lra |].
    apply Qmult_le_compat_r; [apply div_le; lra | lra]. }
  assert (H2 : Spec.clamp ((c + 0.2) / 0.6 * 100) 0 100
               <= Spec.clamp ((d + 0.2) / 0.6 * 100) 0 100).
  { apply clamp_le; [lra |].
    apply Qmult_le_compat_r; [apply div_le; lra | lra]. }
  lra.
Qed.

(** C9.  [compute_health_score] is
    round(0.7 * clamp((ndvi_mean - 0.2) / 0.6 * 100, 0, 100)
          + 0.3 * clamp((ndwi_mean + 0.2) / 0.6 * 100, 0, 100), 1),
    and it does not decrease when [ndvi_mean] grows with [ndwi_mean] fixed,
    nor when [ndwi_mean] grows with [ndvi_mean] fixed. *)
Theorem health_score_formula_and_monotonicity
        (i j : SatelliteProcessor.VegetationIndices) :
  SatelliteProcessor.compute_health_score i
  == Spec.health_score (SatelliteProcessor.ndvi_mean i)
                       (SatelliteProcessor.ndwi_mean i)
  /\ (SatelliteProcessor.ndvi_mean i <= SatelliteProcessor.ndvi_mean j ->
      SatelliteProcessor.ndwi_mean i == SatelliteProcessor.ndwi_mean j ->
      SatelliteProcessor.compute_health_score i
      <= SatelliteProcessor.compute_health_score j)
  /\ (SatelliteProcessor.ndwi_mean i <= SatelliteProcessor.ndwi_mean j ->
      SatelliteProcessor.ndvi_mean i == SatelliteProcessor.ndvi_mean j ->
      SatelliteProcessor.compute_health_score i
      <= SatelliteProcessor.compute_health_score j).
Proof.
  split; [apply health_score_spec |].
  rewrite !health_score_spec.
  split; intros Hle Heq; apply health_score_le; lra.
Qed.

(** ** The time-series encoder *)

Lemma sum_from (xs : list Q) (acc : Q) :
  fold_left Qplus xs acc == acc + Spec.total xs.
Proof.
  revert acc. induction xs as [| x xs IH]; intro acc; simpl.
  - lra.
  - rewrite IH. lra.
Qed.

Lemma sum_total (xs : list Q) : np.sum xs == Spec.total xs.
Proof. unfold np.sum. rewrite sum_from. lra. Qed.

Lemma mean_spec (xs : list Q) :
  xs <> [] -> exists m, np.mean xs = Ok m /\ m == Spec.mean xs.
Proof.
  intro Hne. unfold np.mean, np.size.
  rewrite divide_ok by (apply size_pixels_nonzero, Hne).
  eexists. split; [reflexivity |].
  unfold Spec.mean. rewrite sum_total. reflexivity.
Qed.

#[export] Instance total_Proper : Proper (Forall2 Qeq ==> Qeq) Spec.total.
Proof.
  intros xs ys H. induction H as [| x y xs ys Hxy _ IH]; simpl.
  - reflexivity.
  - rewrite Hxy, IH. reflexivity.
Qed.

Lemma mean_same (xs ys : list Q) :
  Forall2 Qeq xs ys -> Spec.mean xs == Spec.mean ys.
Proof.
  intro H. unfold Spec.mean.
  rewrite (total_Proper xs ys H), (Forall2_length H). reflexivity.
Qed.

Lemma std_spec (sqrt : Q -> Q) (xs : list Q) :
  xs <> [] ->
  exists v, np.std sqrt xs = Ok (sqrt v) /\ v == Spec.variance xs.
Proof.
  intro Hne. unfold np.std.
  destruct (mean_spec xs Hne) as (m & -> & Hm). cbn [bind].
  destruct (mean_spec (map (fun x => (x - m) * (x - m)) xs)) as (v & -> & Hv).
  { destruct xs; [congruence | discriminate]. }
  cbn [bind]. exists v. split; [reflexivity |].
  rewrite Hv. unfold Spec.variance. apply mean_same.
  apply (same_raster_map (fun x => (x - m) * (x - m))).
  intro x. rewrite Hm. reflexivity.
Qed.

Lemma Qmax_cases (x y : Q) : Qmax x y = x \/ Qmax x y = y.
Proof.
  unfold Qmax, GenericMinMax.gmax. destruct (x ?= y); auto.
Qed.

Lemma Qmin_cases (x y : Q) : Qmin x y = x \/ Qmin x y = y.
Proof.
  unfold Qmin, GenericMinMax.gmin. destruct (x ?= y); auto.
Qed.

Lemma fold_max_is_max (xs : list Q) (x : Q) :
  Spec.is_max (fold_left Qmax xs x) (x :: xs).
Proof.
  revert x. induction xs as [| y xs IH]; intro x.
  - cbn [fold_left]. split; [left; reflexivity |].
    constructor; [lra | constructor].
  - cbn [fold_left]. destruct (IH (Qmax x y)) as [Hin Hall].
    inversion Hall as [| ? ? Hhd Htl]; subst.
    pose proof (Q.le_max_l x y). pose proof (Q.le_max_r x y).
    split.
    + destruct Hin as [Hin | Hin]; [| right; right; exact Hin].
      rewrite <- Hin. destruct (Qmax_cases x y) as [-> | ->];
        [left | right; left]; reflexivity.
    + constructor; [lra |]. constructor; [lra | exact Htl].
Qed.

Lemma fold_min_is_min (xs : list Q) (x : Q) :
  Spec.is_min (fold_left Qmin xs x) (x :: xs).
Proof.
  revert x. induction xs as [| y xs IH]; intro x.
  - cbn [fold_left]. split; [left; reflexivity |].
    constructor; [lra | constructor].
  - cbn [fold_left]. destruct (IH (Qmin x y)) as [Hin Hall].
    inversion Hall as [| ? ? Hhd Htl]; subst.
    pose proof (Q.le_min_l x y). pose proof (Q.le_min_r x y).
    split.
    + destruct Hin as [Hin | Hin]; [| right; right; exact Hin].
      rewrite <- Hin. destruct (Qmin_cases x y) as [-> | ->];
        [left | right; left]; reflexivity.
    + constructor; [lra |]. constructor; [lra | exact Htl].
Qed.

Lemma max_spec (xs : list Q) :
  xs <> [] -> exists m, np.max xs = Ok m /\ Spec.is_max m xs.
Proof.
  destruct xs as [| x xs]; [congruence | intros _].
  eexists. split; [reflexivity | apply fold_max_is_max].
Qed.

Lemma min_spec (xs : list Q) :
  xs <> [] -> exists m, np.min xs = Ok m /\ Spec.is_min m xs.
Proof.
  destruct xs as [| x xs]; [congruence | intros _].
  eexists. split; [reflexivity | apply fold_min_is_min].
Qed.

Lemma diff_cons (x : Q) (xs : list Q) :
  np.diff (x :: xs) = map (fun p => snd p - fst p) (combine (x :: xs) xs).
Proof.
  revert x. induction xs as [| y xs IH]; intro x; [reflexivity |].
  change (np.diff (x :: y :: xs)) with ((y - x) :: np.diff (y :: xs)).
  rewrite (IH y). reflexivity.
Qed.

Lemma diff_differences (xs : list Q) : np.diff xs = Spec.differences xs.
Proof.
  destruct xs as [| x xs]; [reflexivity | apply diff_cons].
Qed.

Lemma last_default (x a b : Q) (xs : list Q) :
  List.last (x :: xs) a = List.last (x :: xs) b.
Proof.
  revert x. induction xs as [| y xs IH]; intro x; [reflexivity |].
  change (List.last (y :: xs) a = List.last (y :: xs) b). apply IH.
Qed.

Lemma last_spec (xs : list Q) :
  xs <> [] -> np.last xs = Ok (List.last xs 0).
Proof.
  destruct xs as [| x xs]; [congruence | intros _].
  unfold np.last. f_equal.
  destruct xs as [| y xs]; [reflexivity |].
  change (List.last (x :: y :: xs) 0) with (List.last (y :: xs) 0).
  apply last_default.
Qed.

(** C6.  The encoder returns the all-zero vector of eight elements for a
    series of fewer than three readings; for three readings or more it
    returns, in this order, the mean, the standard deviation (the square
    root of the mean squared deviation), the maximum, the minimum, last
    minus first, the last value, the mean of the consecutive differences
    and the largest consecutive difference.  For the series 0.4, 0.5, 0.6
    the mean is 0.5, the trend 0.2 and the last value 0.6. *)
Theorem encode_summarises_the_series (sqrt : Q -> Q) (series : list Q) :
  ((length series < 3)%nat ->
   LSTMTimeSeriesEncoder.encode sqrt series = Ok (repeat 0 8))
  /\ ((3 <= length series)%nat ->
      exists mean variance peak trough avg_change max_change,
        LSTMTimeSeriesEncoder.encode sqrt series
        = Ok [mean; sqrt variance; peak; trough;
              List.last series 0 - hd 0 series; List.last series 0;
              avg_change; max_change]
        /\ mean == Spec.mean series
        /\ variance == Spec.variance series
        /\ Spec.is_max peak series
        /\ Spec.is_min trough series
        /\ avg_change == Spec.mean (Spec.differences series)
        /\ Spec.is_max max_change (Spec.differences series))
  /\ (exists mean std peak trough trend final avg_change max_change,
        LSTMTimeSeriesEncoder.encode sqrt [0.4; 0.5; 0.6]
        = Ok [mean; std; peak; trough; trend; final; avg_change; max_change]
        /\ mean == 0.5 /\ trend == 0.2 /\ final == 0.6).
Proof.
  split; [| split].
  - intro Hlen. unfold LSTMTimeSeriesEncoder.encode. cbv zeta.
    apply Nat.ltb_lt in Hlen. rewrite Hlen. reflexivity.
  - intro Hlen. unfold LSTMTimeSeriesEncoder.encode. cbv zeta.
    assert (Hge : (length series <? 3)%nat = false)
      by (apply Nat.ltb_ge; exact Hlen).
    rewrite Hge.
    assert (Hne : series <> [])
      by (destruct series; [simpl in Hlen; lia | discriminate]).
    assert (Hd : np.diff series <> []).
    { destruct series as [| x [| y xs]]; simpl in Hlen; try lia. discriminate. }
    destruct (mean_spec series Hne) as (m & -> & Hm).
    destruct (std_spec sqrt series Hne) as (v & -> & Hv).
    destruct (max_spec series Hne) as (mx & -> & Hmx).
    destruct (min_spec series Hne) as (mn & -> & Hmn).
    rewrite (last_spec series Hne).
    destruct (mean_spec (np.diff series) Hd) as (ac & -> & Hac).
    destruct (max_spec (np.diff series) Hd) as (mc & -> & Hmc).
    rewrite diff_differences in Hac, Hmc.
    destruct series as [| x xs]; [congruence |].
    cbn [bind np.first hd].
    exists m, v, mx, mn, ac, mc.
    split; [reflexivity |]. repeat (split; [assumption |]). assumption.
  - do 8 eexists. split; [vm_compute; reflexivity |].
    repeat split; reflexivity.
Qed.

(** ** The index statistics of [process_image] *)

Lemma any_filter {P : Type} (c : P -> bool) (ps : list P) :
  np.any (map c ps) = match filter c ps with [] => false | _ :: _ => true end.
Proof.
  induction ps as [| p ps IH]; [reflexivity |].
  unfold np.any in *. cbn [map existsb filter].
  destruct (c p); [reflexivity | exact IH].
Qed.

Section StatisticViews.

Context {P : Type}.

Variables (x : P -> Q) (c : P -> bool).

Lemma masked_mean_view (ps : list P) :
  exists s,
    SatelliteProcessor.masked_stat np.mean (map x ps) (map c ps) = Ok s
    /\ Spec.is_statistic Spec.is_mean s (map x (filter c ps)).
Proof.
  unfold SatelliteProcessor.masked_stat.
  rewrite any_filter, getitem_mask_map.
  destruct (filter c ps) as [| q qs] eqn:E.
  - exists 0.0. split; reflexivity.
  - cbn [bind]. destruct (mean_spec (map x (q :: qs))) as (s & Hs & Hm);
      [discriminate |].
    exists s. split; [exact Hs | exact Hm].
Qed.

Lemma masked_std_view (sqrt : Q -> Q) (ps : list P) :
  exists s,
    SatelliteProcessor.masked_stat (np.std sqrt) (map x ps) (map c ps) = Ok s
    /\ Spec.is_statistic (Spec.is_std sqrt) s (map x (filter c ps)).
Proof.
  unfold SatelliteProcessor.masked_stat.
  rewrite any_filter, getitem_mask_map.
  destruct (filter c ps) as [| q qs] eqn:E.
  - exists 0.0. split; reflexivity.
  - cbn [bind]. destruct (std_spec sqrt (map x (q :: qs))) as (v & Hs & Hv);
      [discriminate |].
    exists (sqrt v). split; [exact Hs |].
    exists v. split; [reflexivity | exact Hv].
Qed.

End StatisticViews.

Lemma valid_values_view {P : Type} (m : P -> bool) (v x : P -> Q)
      (ps : list P) :
  Spec.valid_values (map m ps) (map v ps) (map x ps)
  = map x (filter (fun p => Spec.valid_pixel (m p) (v p)) ps).
Proof.
  induction ps as [| p ps IH]; [reflexivity |].
  cbn [map Spec.valid_values filter]. rewrite IH.
  destruct (Spec.valid_pixel (m p) (v p)); reflexivity.
Qed.

Lemma compute_evi_total {P : Type} (n r : P -> Q) (ps : list P)
      (b : list Q) :
  length b = length ps ->
  exists e,
    SatelliteProcessor.compute_evi (map n ps) (map r ps) b = Ok e.
Proof.
  intro Hb.
  assert (En : map n ps = map (fun q => n (fst q)) (combine ps b))
    by (rewrite <- (map_map fst n), (combine_fst ps b Hb); reflexivity).
  assert (Er : map r ps = map (fun q => r (fst q)) (combine ps b))
    by (rewrite <- (map_map fst r), (combine_fst ps b Hb); reflexivity).
  pose proof (compute_evi_view (fun q => n (fst q)) (fun q => r (fst q))
                               snd (combine ps b)) as H.
  rewrite <- En, <- Er, (combine_snd ps b Hb) in H.
  eexists. exact H.
Qed.

Section ProcessImageView.

Context {P : Type}.

Variables (sqrt : Q -> Q) (m : P -> bool) (n r g : P -> Q).

Local Abbreviation v := (fun p => pixel_ndvi (n p) (r p)).
Local Abbreviation w := (fun p => pixel_ndwi (n p) (g p)).
Local Abbreviation s := (fun p => pixel_savi (n p) (r p)).

Lemma process_image_view (image : SatelliteProcessor.SatelliteImage)
      (ps : list P) :
  mask_of image = map m ps ->
  SatelliteProcessor.nir image = map n ps ->
  SatelliteProcessor.red image = map r ps ->
  SatelliteProcessor.green image = map g ps ->
  match SatelliteProcessor.blue image with
  | Some b => length b = length ps
  | None => True
  end ->
  exists indices,
    SatelliteProcessor.process_image sqrt image = Ok indices
    /\ SatelliteProcessor.ndvi indices = map v ps
    /\ SatelliteProcessor.ndwi indices = map w ps
    /\ SatelliteProcessor.savi indices = map s ps
    /\ let valid := filter (fun p => Spec.valid_pixel (m p) (v p)) ps in
       Spec.is_statistic Spec.is_mean
         (SatelliteProcessor.ndvi_mean indices) (map v valid)
       /\ Spec.is_statistic (Spec.is_std sqrt)
            (SatelliteProcessor.ndvi_std indices) (map v valid)
       /\ Spec.is_statistic Spec.is_mean
            (SatelliteProcessor.ndwi_mean indices) (map w valid)
       /\ Spec.is_statistic (Spec.is_std sqrt)
            (SatelliteProcessor.ndwi_std indices) (map w valid)
       /\ Spec.is_statistic Spec.is_mean
            (SatelliteProcessor.savi_mean indices) (map s valid).
Proof.
  intros Hm Hn Hr Hg Hb.
  unfold SatelliteProcessor.process_image. fold (mask_of image).
  rewrite Hm, Hn, Hr, Hg.
  rewrite compute_ndvi_view, compute_ndwi_view, compute_savi_view.
  cbn [bind].
  change (fun p => np.clip1 ((n p - r p) / guard (n p + r p)) (-1.0) 1.0)
    with v.
  change (fun p => np.clip1 ((g p - n p) / guard (g p + n p)) (-1.0) 1.0)
    with w.
  change (fun p => np.clip1 ((n p - r p) / guard (n p + r p + savi_L None)
                             * (1 + savi_L None)) (-1.0) 1.0)
    with s.
  assert (Hevi : exists e,
             match SatelliteProcessor.blue image with
             | Some b =>
                 e0 <- SatelliteProcessor.compute_evi (map n ps) (map r ps) b ;;
                 Ok (Some e0)
             | None => Ok None
             end = Ok e).
  { destruct (SatelliteProcessor.blue image) as [b |].
    - destruct (compute_evi_total n r ps b Hb) as (e & ->).
      eexists. reflexivity.
    - eexists. reflexivity. }
  destruct Hevi as (e & ->). cbn [bind].
  unfold np.greater, np.less. run_arrays.
  rewrite (map_ext (fun p => m p && np.Qltb (-1) (v p) && np.Qltb (v p) 1)
                   (fun p => Spec.valid_pixel (m p) (v p)))
    by (intro p; unfold Spec.valid_pixel; rewrite !lt_Qltb; reflexivity).
  set (c := fun p => Spec.valid_pixel (m p) (v p)).
  destruct (masked_mean_view v c ps) as (s1 & -> & H1). cbn [bind].
  destruct (masked_std_view v c sqrt ps) as (s2 & -> & H2). cbn [bind].
  destruct (masked_mean_view w c ps) as (s3 & -> & H3). cbn [bind].
  destruct (masked_std_view w c sqrt ps) as (s4 & -> & H4). cbn [bind].
  destruct (masked_mean_view s c ps) as (s5 & -> & H5). cbn [bind].
  eexists. split; [reflexivity |].
  cbn. repeat (split; [first [reflexivity | assumption] |]). assumption.
Qed.

End ProcessImageView.

Lemma zone_percent_share (z : Spec.Zone) (ndvi ndwi : list Q) :
  length ndwi = length ndvi ->
  inject_Z (np.count_equal (map (zone_view fst snd) (combine ndvi ndwi))
                           (Spec.zone_code z))
  / inject_Z (Z.of_nat (length (combine ndvi ndwi))) * 100
  == Spec.zone_share z ndvi ndwi.
Proof.
  intro Hlen. rewrite count_equal_zone_view.
  rewrite (combine_fst ndvi ndwi Hlen), (combine_snd ndvi ndwi Hlen).
  unfold Spec.zone_share.
  replace (length (combine ndvi ndwi)) with (length ndvi)
    by (rewrite length_combine; lia).
  reflexivity.
Qed.

Lemma well_shaped_views (image : SatelliteProcessor.SatelliteImage) :
  well_shaped image ->
  let ps := combine (mask_of image)
                    (combine (SatelliteProcessor.nir image)
                             (combine (SatelliteProcessor.red image)
                                      (SatelliteProcessor.green image))) in
  mask_of image = map fst ps
  /\ SatelliteProcessor.nir image = map (fun p => fst (snd p)) ps
  /\ SatelliteProcessor.red image = map (fun p => fst (snd (snd p))) ps
  /\ SatelliteProcessor.green image = map (fun p => snd (snd (snd p))) ps
  /\ length ps = length (SatelliteProcessor.nir image).
Proof.
  intros (Hr & Hg & _ & Hm) ps.
  assert (Hmask : length (mask_of image)
                  = length (SatelliteProcessor.nir image)).
  { unfold mask_of. destruct (SatelliteProcessor.cloud_mask image).
    - exact Hm.
    - unfold np.ones_like. rewrite length_map. exact Hr. }
  destruct (combine3_views (SatelliteProcessor.nir image)
                           (SatelliteProcessor.red image)
                           (SatelliteProcessor.green image) Hr Hg)
    as (E1 & E2 & E3).
  set (qs := combine (SatelliteProcessor.nir image)
                     (combine (SatelliteProcessor.red image)
                              (SatelliteProcessor.green image))) in *.
  assert (Hq : length qs = length (mask_of image)).
  { rewrite Hmask, <- E1. symmetry. apply length_map. }
  subst ps. repeat split.
  - symmetry. apply combine_fst, Hq.
  - rewrite <- (map_map snd fst), (combine_snd _ _ Hq). symmetry. exact E1.
  - rewrite <- (map_map snd (fun q => fst (snd q))), (combine_snd _ _ Hq).
    symmetry. exact E2.
  - rewrite <- (map_map snd (fun q => snd (snd q))), (combine_snd _ _ Hq).
    symmetry. exact E3.
  - rewrite length_combine, Hq, Hmask. lia.
Qed.

(** What the index computations return on bands of one shape, against the
    specification's formulas. *)
Lemma index_rasters_of_bands (nir red green ndvi ndwi savi : list Q) :
  length red = length nir ->
  length green = length nir ->
  SatelliteProcessor.compute_ndvi nir red = Ok ndvi ->
  SatelliteProcessor.compute_ndwi nir green = Ok ndwi ->
  SatelliteProcessor.compute_savi nir red None = Ok savi ->
  Spec.same_raster ndvi (Spec.pixelwise2 Spec.NDVI nir red)
  /\ Spec.same_raster ndwi
       (Spec.pixelwise2 (fun n g => Spec.NDWI g n) nir green)
  /\ Spec.same_raster savi (Spec.pixelwise2 (Spec.SAVI 0.5) nir red).
Proof.
  intros Hr Hg Hndvi Hndwi Hsavi.
  pose proof (compute_ndvi_view fst snd (combine nir red)) as Vndvi.
  pose proof (compute_ndwi_view fst snd (combine nir green)) as Vndwi.
  pose proof (compute_savi_view fst snd (combine nir red) None) as Vsavi.
  rewrite (combine_fst nir red Hr), (combine_snd nir red Hr) in Vndvi, Vsavi.
  rewrite (combine_fst nir green Hg), (combine_snd nir green Hg) in Vndwi.
  rewrite Hndvi in Vndvi. rewrite Hndwi in Vndwi. rewrite Hsavi in Vsavi.
  injection Vndvi as ->. injection Vndwi as ->. injection Vsavi as ->.
  split; [| split].
  - apply same_raster_map. intro p. unfold Spec.NDVI.
    apply index_value_spec.
  - apply same_raster_map. intro p. unfold Spec.NDWI.
    apply index_value_spec.
  - apply same_raster_map. intro p. unfold Spec.SAVI.
    rewrite clip1_clamp by lra.
    apply clamp_Proper; [| lra | lra].
    rewrite guard_spec. reflexivity.
Qed.

(** C10.  [classify_health_zones] takes the NDVI and NDWI rasters and no
    cloud mask: each zone percentage is the number of pixels of the whole
    raster that fall in the zone, over the number of pixels of the raster,
    times 100.  [process_image] returns the rasters that [compute_ndvi],
    [compute_ndwi] and [compute_savi] give on the bands of the image, which
    are the specification's index formulas at every pixel of the image, the
    masked ones included.  Its statistics are the mean and the standard
    deviation of these rasters over the pixels that the mask of the image
    keeps and whose NDVI lies strictly inside (-1, 1), and each of them is
    0.0 when no such pixel remains. *)
Theorem zone_percentages_cover_every_pixel
        (sqrt : Q -> Q) (image : SatelliteProcessor.SatelliteImage)
        (ndvi ndwi : list Q) :
  length ndwi = length ndvi ->
  ndvi <> [] ->
  well_shaped image ->
  (exists zones stats,
     SatelliteProcessor.classify_health_zones ndvi ndwi = Ok (zones, stats)
     /\ SatelliteProcessor.critical_percent stats
        == Spec.zone_share Spec.critical ndvi ndwi
     /\ SatelliteProcessor.stressed_percent stats
        == Spec.zone_share Spec.stressed ndvi ndwi
     /\ SatelliteProcessor.moderate_percent stats
        == Spec.zone_share Spec.moderate ndvi ndwi
     /\ SatelliteProcessor.healthy_percent stats
        == Spec.zone_share Spec.healthy ndvi ndwi)
  /\ (exists indices,
        SatelliteProcessor.process_image sqrt image = Ok indices
        /\ SatelliteProcessor.compute_ndvi (SatelliteProcessor.nir image)
                                           (SatelliteProcessor.red image)
           = Ok (SatelliteProcessor.ndvi indices)
        /\ SatelliteProcessor.compute_ndwi (SatelliteProcessor.nir image)
                                           (SatelliteProcessor.green image)
           = Ok (SatelliteProcessor.ndwi indices)
        /\ SatelliteProcessor.compute_savi (SatelliteProcessor.nir image)
                                           (SatelliteProcessor.red image)
                                           None
           = Ok (SatelliteProcessor.savi indices)
        /\ Spec.same_raster
             (SatelliteProcessor.ndvi indices)
             (Spec.pixelwise2 Spec.NDVI (SatelliteProcessor.nir image)
                              (SatelliteProcessor.red image))
        /\ Spec.same_raster
             (SatelliteProcessor.ndwi indices)
             (Spec.pixelwise2 (fun n g => Spec.NDWI g n)
                              (SatelliteProcessor.nir image)
                              (SatelliteProcessor.green image))
        /\ Spec.same_raster
             (SatelliteProcessor.savi indices)
             (Spec.pixelwise2 (Spec.SAVI 0.5) (SatelliteProcessor.nir image)
                              (SatelliteProcessor.red image))
        /\ length (SatelliteProcessor.ndvi indices)
           = length (SatelliteProcessor.nir image)
        /\ length (SatelliteProcessor.ndwi indices)
           = length (SatelliteProcessor.nir image)
        /\ let valid :=
             Spec.valid_values (mask_of image)
                               (SatelliteProcessor.ndvi indices) in
           Spec.is_statistic Spec.is_mean
             (SatelliteProcessor.ndvi_mean indices)
             (valid (SatelliteProcessor.ndvi indices))
           /\ Spec.is_statistic (Spec.is_std sqrt)
                (SatelliteProcessor.ndvi_std indices)
                (valid (SatelliteProcessor.ndvi indices))
           /\ Spec.is_statistic Spec.is_mean
                (SatelliteProcessor.ndwi_mean indices)
                (valid (SatelliteProcessor.ndwi indices))
           /\ Spec.is_statistic (Spec.is_std sqrt)
                (SatelliteProcessor.ndwi_std indices)
                (valid (SatelliteProcessor.ndwi indices))
           /\ Spec.is_statistic Spec.is_mean
                (SatelliteProcessor.savi_mean indices)
                (valid (SatelliteProcessor.savi indices))).
Proof.
  intros Hlen Hne Hshape. split.
  - assert (Hps : combine ndvi ndwi <> []).
    { destruct ndvi; [congruence |]. destruct ndwi; discriminate. }
    pose proof (classify_view fst snd (combine ndvi ndwi) Hps) as H.
    rewrite (combine_fst ndvi ndwi Hlen), (combine_snd ndvi ndwi Hlen) in H.
    rewrite H. cbv zeta. do 2 eexists. split; [reflexivity |].
    cbn [SatelliteProcessor.critical_percent
         SatelliteProcessor.stressed_percent
         SatelliteProcessor.moderate_percent
         SatelliteProcessor.healthy_percent].
    repeat split.
    + apply (zone_percent_share Spec.critical ndvi ndwi Hlen).
    + apply (zone_percent_share Spec.stressed ndvi ndwi Hlen).
    + apply (zone_percent_share Spec.moderate ndvi ndwi Hlen).
    + apply (zone_percent_share Spec.healthy ndvi ndwi Hlen).
  - destruct (well_shaped_views image Hshape) as (Em & En & Er & Eg & Hl).
    set (ps := combine (mask_of image) _) in *.
    destruct (process_image_view sqrt fst (fun p => fst (snd p))
                (fun p => fst (snd (snd p))) (fun p => snd (snd (snd p)))
                image ps Em En Er Eg)
      as (indices & Hrun & Hv & Hw & Hs & Hstats).
    { destruct Hshape as (_ & _ & Hb & _).
      destruct (SatelliteProcessor.blue image); [| exact I].
      rewrite Hl. exact Hb. }
    assert (Cv : SatelliteProcessor.compute_ndvi
                   (SatelliteProcessor.nir image)
                   (SatelliteProcessor.red image)
                 = Ok (SatelliteProcessor.ndvi indices)).
    { rewrite Hv. rewrite En at 1. rewrite Er at 1.
      apply compute_ndvi_view. }
    assert (Cw : SatelliteProcessor.compute_ndwi
                   (SatelliteProcessor.nir image)
                   (SatelliteProcessor.green image)
                 = Ok (SatelliteProcessor.ndwi indices)).
    { rewrite Hw. rewrite En at 1. rewrite Eg at 1.
      apply compute_ndwi_view. }
    assert (Cs : SatelliteProcessor.compute_savi
                   (SatelliteProcessor.nir image)
                   (SatelliteProcessor.red image) None
                 = Ok (SatelliteProcessor.savi indices)).
    { rewrite Hs. rewrite En at 1. rewrite Er at 1.
      apply compute_savi_view. }
    destruct Hshape as (Hr & Hg & _).
    destruct (index_rasters_of_bands _ _ _ _ _ _ Hr Hg Cv Cw Cs)
      as (Sv & Sw & Ss).
    exists indices. split; [exact Hrun |].
    split; [exact Cv |]. split; [exact Cw |]. split; [exact Cs |].
    split; [exact Sv |]. split; [exact Sw |]. split; [exact Ss |].
    split; [rewrite Hv, length_map; exact Hl |].
    split; [rewrite Hw, length_map; exact Hl |].
    cbv zeta in *. rewrite Hv, Hw, Hs. rewrite Em at 1 2 3 4 5.
    rewrite !valid_values_view. exact Hstats.
Qed.

(** ** The yield forecast *)

Lemma CropType_eqb_eq (a b : CropType) : CropType_eqb a b = true <-> a = b.
Proof.
  destruct a, b; simpl; split; intro H; try discriminate; reflexivity.
Qed.

(** A lookup fails exactly on an absent key, and then with [KeyError]. *)
Lemma getitem_absent (d : list (CropType * CropStats.t)) (k : CropType) :
  ~ In k (map fst d) <-> py.getitem CropType_eqb d k = Raise KeyError.
Proof.
  induction d as [| [k' s] d IH]; simpl.
  - split; [reflexivity | tauto].
  - destruct (CropType_eqb k' k) eqn:E.
    + apply CropType_eqb_eq in E. split; [tauto | discriminate].
    + assert (k' <> k) by (intro H; apply CropType_eqb_eq in H; congruence).
      rewrite <- IH. tauto.
Qed.

Lemma getitem_present (d : list (CropType * CropStats.t)) (k : CropType) :
  In k (map fst d) <-> exists s, py.getitem CropType_eqb d k = Ok s.
Proof.
  induction d as [| [k' s] d IH]; simpl.
  - split; [tauto | intros (s & H); discriminate].
  - destruct (CropType_eqb k' k) eqn:E.
    + apply CropType_eqb_eq in E. split; [eauto | tauto].
    + assert (k' <> k) by (intro H; apply CropType_eqb_eq in H; congruence).
      rewrite <- IH. tauto.
Qed.

(** Every crop type has its entry in [PAKISTAN_YIELDS]; the yields of the
    entry are positive, ordered, and written with at most two decimals. *)
Lemma PAKISTAN_YIELDS_complete (crop : CropType) :
  exists stats,
    py.getitem CropType_eqb PAKISTAN_YIELDS crop = Ok stats
    /\ 0 < CropStats.min stats
    /\ CropStats.min stats < CropStats.optimal stats
    /\ py.round (CropStats.min stats) 2 == CropStats.min stats
    /\ py.round (CropStats.optimal stats) 2 == CropStats.optimal stats.
Proof.
  destruct crop; eexists; (split; [reflexivity |]);
    cbn [CropStats.min CropStats.optimal];
    repeat split; try lra; vm_compute; reflexivity.
Qed.

Lemma irrigation_factor_spec (farm : FarmFeatures.t) :
  py.get String.eqb XGBoostYieldModel.irrigation_factors
         (FarmFeatures.irrigation_type farm) 0.8
  = Spec.irrigation_factor farm.
Proof.
  unfold Spec.irrigation_factor, py.get, XGBoostYieldModel.irrigation_factors.
  cbv zeta. cbn [py.getitem].
  rewrite (String.eqb_sym "canal"), (String.eqb_sym "tubewell"),
    (String.eqb_sym "rainfed").
  destruct (String.eqb (FarmFeatures.irrigation_type farm) "canal");
    [reflexivity |].
  destruct (String.eqb (FarmFeatures.irrigation_type farm) "tubewell");
    [reflexivity |].
  destruct (String.eqb (FarmFeatures.irrigation_type farm) "rainfed");
    reflexivity.
Qed.

Section Forecast.

Variable yields : list (CropType * CropStats.t).

(** What [XGBoostYieldModel.predict] returns when the crop has an entry:
    the noisy estimate, and the generator one draw further. *)
Lemma xgb_predict_spec (farm : FarmFeatures.t) (w : World)
      (stats : CropStats.t) :
  py.getitem CropType_eqb yields (FarmFeatures.crop_type farm) = Ok stats ->
  CropStats.min stats <= CropStats.optimal stats ->
  exists v,
    XGBoostYieldModel.predict yields farm w = (Ok v, advance w)
    /\ v == Spec.noisy_estimate stats farm (drawn_noise w).
Proof.
  intros Hget Hle.
  unfold XGBoostYieldModel.predict, bindM, lift, ret, np.random_normal.
  rewrite Hget. cbv zeta. eexists. split; [reflexivity |].
  rewrite irrigation_factor_spec.
  rewrite (clip1_clamp _ _ _ Hle).
  unfold Spec.noisy_estimate, Spec.combined, Spec.ndvi_factor,
    Spec.water_factor, drawn_noise.
  rewrite !(clip1_clamp _ 0 1) by lra.
  reflexivity.
Qed.

Lemma xgb_predict_absent (farm : FarmFeatures.t) (w : World) :
  py.getitem CropType_eqb yields (FarmFeatures.crop_type farm)
  = Raise KeyError ->
  XGBoostYieldModel.predict yields farm w = (Raise KeyError, w).
Proof.
  intro Hget. unfold XGBoostYieldModel.predict, bindM, lift.
  rewrite Hget. reflexivity.
Qed.

(** [YieldPredictor.predict], given the point estimate [v]. *)
Lemma predictor_view (farm : FarmFeatures.t) (w w' : World)
      (stats : CropStats.t) (v : Q) :
  py.getitem CropType_eqb yields (FarmFeatures.crop_type farm) = Ok stats ->
  XGBoostYieldModel.predict yields farm w = (Ok v, w') ->
  ~ CropStats.optimal stats - CropStats.min stats == 0 ->
  exists forecast,
    YieldPredictor.predict yields farm w = (Ok forecast, w')
    /\ YieldPrediction.predicted_yield_tons_per_hectare forecast
       = py.round v 2
    /\ YieldPrediction.confidence_interval forecast
       = (py.round (v - 1.96 * (0.15 * v)) 2,
          py.round (v + 1.96 * (0.15 * v)) 2).
Proof.
  intros Hget Hx Hnz.
  unfold YieldPredictor.predict, bindM, lift, ret.
  rewrite Hx, Hget. rewrite divide_ok by exact Hnz.
  eexists. split; [reflexivity |]. split; reflexivity.
Qed.

End Forecast.

Lemma noisy_estimate_without_noise (stats : CropStats.t)
      (farm : FarmFeatures.t) (noise : Q) :
  noise == 0 ->
  Spec.noisy_estimate stats farm noise == Spec.point_estimate stats farm.
Proof.
  intro H. unfold Spec.noisy_estimate, Spec.point_estimate.
  apply clamp_Proper; try reflexivity. rewrite H. ring.
Qed.

(** C3, as the code has it.  For every farm, whose crop type always has its
    entry in the reference table, the point estimate is
    (min_yield + combined * (optimal_yield - min_yield)) * (1 + noise)
    clamped to [min_yield, optimal_yield], where noise is a draw from
    normal(0, 0.05) of the global generator and where combined, ndvi_factor,
    water_factor and irrigation_factor are as the specification gives them;
    the generator moves one draw on.  When the draw is zero this is the
    specification's estimate. *)
Theorem point_estimate_carries_noise (farm : FarmFeatures.t) (w : World) :
  exists stats v,
    py.getitem CropType_eqb PAKISTAN_YIELDS (FarmFeatures.crop_type farm)
    = Ok stats
    /\ XGBoostYieldModel.predict PAKISTAN_YIELDS farm w = (Ok v, advance w)
    /\ drawn_noise w = 0 + 0.05 * gauss w (cursor w)
    /\ v == Spec.noisy_estimate stats farm (drawn_noise w)
    /\ (drawn_noise w == 0 -> v == Spec.point_estimate stats farm).
Proof.
  destruct (PAKISTAN_YIELDS_complete (FarmFeatures.crop_type farm))
    as (stats & Hget & Hpos & Hlt & _).
  destruct (xgb_predict_spec PAKISTAN_YIELDS farm w stats Hget)
    as (v & Hrun & Hv); [lra |].
  exists stats, v. repeat split; try assumption.
  intro H0. rewrite Hv. apply noisy_estimate_without_noise, H0.
Qed.

(** C3 fails as stated: with a draw of one standard deviation the estimate
    of the sample wheat farm is 3.78, the specification's formula gives
    3.6. *)
Lemma point_estimate_counterexample :
  exists stats v w',
    py.getitem CropType_eqb PAKISTAN_YIELDS
               (FarmFeatures.crop_type (Sample.wheat_farm 2)) = Ok stats
    /\ XGBoostYieldModel.predict PAKISTAN_YIELDS (Sample.wheat_farm 2)
                                 Sample.alternating = (Ok v, w')
    /\ v == 3.78
    /\ Spec.point_estimate stats (Sample.wheat_farm 2) == 3.6
    /\ ~ v == Spec.point_estimate stats (Sample.wheat_farm 2).
Proof.
  do 3 eexists. split; [reflexivity |].
  split; [vm_compute; reflexivity |].
  split; [vm_compute; reflexivity |].
  split; [vm_compute; reflexivity |].
  intro H. vm_compute in H. discriminate.
Qed.

(** Two worlds whose generators give the same deviates from their cursors
    on, on the same day. *)
Lemma same_draws_advance (w1 w2 : World) :
  (forall k, gauss w1 (cursor w1 + k) = gauss w2 (cursor w2 + k)) ->
  forall k,
    gauss (advance w1) (cursor (advance w1) + k)
    = gauss (advance w2) (cursor (advance w2) + k).
Proof.
  intros H k. cbn [advance gauss cursor].
  replace (S (cursor w1) + k)%nat with (cursor w1 + S k)%nat by lia.
  replace (S (cursor w2) + k)%nat with (cursor w2 + S k)%nat by lia.
  apply H.
Qed.

Lemma timeseries_loop_agree (current_yield : Q) (days : list Z)
      (w1 w2 : World) :
  (forall k, gauss w1 (cursor w1 + k) = gauss w2 (cursor w2 + k)) ->
  today w1 = today w2 ->
  fst (YieldPredictor.timeseries_loop current_yield days w1)
  = fst (YieldPredictor.timeseries_loop current_yield days w2).
Proof.
  revert w1 w2. induction days as [| day days IH]; intros w1 w2 Hg Ht.
  - reflexivity.
  - cbn [YieldPredictor.timeseries_loop].
    unfold bindM, np.random_normal, datetime_now, ret.
    fold (advance w1). fold (advance w2).
    cbn [today advance].
    pose proof (IH (advance w1) (advance w2) (same_draws_advance w1 w2 Hg) Ht)
      as Hrec.
    pose proof (Hg 0%nat) as H0. rewrite !Nat.add_0_r in H0.
    rewrite H0, Ht.
    destruct (YieldPredictor.timeseries_loop current_yield days (advance w1))
      as [r1 w1'].
    destruct (YieldPredictor.timeseries_loop current_yield days (advance w2))
      as [r2 w2'].
    cbn [fst] in Hrec. subst r2. destruct r1; reflexivity.
Qed.

(** C4, as the code has it.  [XGBoostYieldModel.predict] and
    [YieldPredictor.predict] are functions of their argument and of the
    next deviate of numpy's global generator: two invocations on the same
    input whose draws are the same return the same result, whatever else
    differs in the world; a successful point prediction leaves the
    generator one draw further, a failed one leaves it as it was.
    [predict_timeseries] is a function of its arguments, of the deviates it
    draws and of the day it reads from the clock. *)
Theorem prediction_is_a_function_of_input_and_draw
        (yields : list (CropType * CropStats.t)) (farm : FarmFeatures.t)
        (w1 w2 : World) :
  gauss w1 (cursor w1) = gauss w2 (cursor w2) ->
  fst (XGBoostYieldModel.predict yields farm w1)
  = fst (XGBoostYieldModel.predict yields farm w2)
  /\ fst (YieldPredictor.predict yields farm w1)
     = fst (YieldPredictor.predict yields farm w2)
  /\ snd (XGBoostYieldModel.predict yields farm w1)
     = match fst (XGBoostYieldModel.predict yields farm w1) with
       | Ok _ => advance w1
       | Raise _ => w1
       end
  /\ (forall days_ahead,
        (forall k, gauss w1 (cursor w1 + k) = gauss w2 (cursor w2 + k)) ->
        today w1 = today w2 ->
        fst (YieldPredictor.predict_timeseries yields farm days_ahead w1)
        = fst (YieldPredictor.predict_timeseries yields farm days_ahead w2)).
Proof.
  intro Hdraw.
  split; [| split; [| split]].
  - unfold XGBoostYieldModel.predict, bindM, lift, ret, np.random_normal.
    destruct (py.getitem CropType_eqb yields (FarmFeatures.crop_type farm));
      cbv zeta; cbn [fst]; [rewrite Hdraw |]; reflexivity.
  - unfold YieldPredictor.predict, XGBoostYieldModel.predict, bindM, lift,
      ret, np.random_normal.
    destruct (py.getitem CropType_eqb yields (FarmFeatures.crop_type farm));
      cbv zeta; cbn [fst]; [| reflexivity].
    rewrite Hdraw.
    match goal with
    | |- context [np.divide ?a ?b] => destruct (np.divide a b)
    end; reflexivity.
  - unfold XGBoostYieldModel.predict, bindM, lift, ret, np.random_normal.
    destruct (py.getitem CropType_eqb yields (FarmFeatures.crop_type farm));
      reflexivity.
  - intros days_ahead Hg Ht.
    unfold YieldPredictor.predict_timeseries, XGBoostYieldModel.predict,
      bindM, lift, ret, np.random_normal.
    destruct (py.getitem CropType_eqb yields (FarmFeatures.crop_type farm));
      cbv zeta; [| reflexivity].
    rewrite Hdraw. fold (advance w1). fold (advance w2).
    apply timeseries_loop_agree;
      [apply same_draws_advance, Hg | exact Ht].
Qed.

(** C4 fails as stated: two invocations in a row on the same farm return
    3.78 and then 3.42. *)
Lemma repeated_prediction_counterexample :
  exists v1 v2 w1 w2 f1 f2 w3 w4,
    XGBoostYieldModel.predict PAKISTAN_YIELDS (Sample.wheat_farm 2)
                              Sample.alternating = (Ok v1, w1)
    /\ XGBoostYieldModel.predict PAKISTAN_YIELDS (Sample.wheat_farm 2) w1
       = (Ok v2, w2)
    /\ ~ v1 == v2
    /\ YieldPredictor.predict PAKISTAN_YIELDS (Sample.wheat_farm 2)
                              Sample.alternating = (Ok f1, w3)
    /\ YieldPredictor.predict PAKISTAN_YIELDS (Sample.wheat_farm 2) w3
       = (Ok f2, w4)
    /\ ~ YieldPrediction.predicted_yield_tons_per_hectare f1
         == YieldPrediction.predicted_yield_tons_per_hectare f2.
Proof.
  do 8 eexists.
  split; [vm_compute; reflexivity |]. split; [vm_compute; reflexivity |].
  split; [intro H; vm_compute in H; discriminate |].
  split; [vm_compute; reflexivity |]. split; [vm_compute; reflexivity |].
  intro H. vm_compute in H. discriminate.
Qed.

(** C5, as the code has it.  A yield prediction fails exactly when the crop
    type has no entry in the reference yield table, and then with the
    [KeyError] of the lookup; every crop type has an entry in
    [PAKISTAN_YIELDS], so no farm fails against it.  The area is not
    looked at: the result is the same for every [area_hectares]. *)
Theorem prediction_fails_only_on_an_absent_crop
        (yields : list (CropType * CropStats.t)) (farm : FarmFeatures.t)
        (w : World) (area : Q) :
  (~ In (FarmFeatures.crop_type farm) (map fst yields) ->
   fst (XGBoostYieldModel.predict yields farm w) = Raise KeyError
   /\ fst (YieldPredictor.predict yields farm w) = Raise KeyError)
  /\ (In (FarmFeatures.crop_type farm) (map fst yields) ->
      exists v, fst (XGBoostYieldModel.predict yields farm w) = Ok v)
  /\ (exists forecast,
        fst (YieldPredictor.predict PAKISTAN_YIELDS farm w) = Ok forecast)
  /\ fst (XGBoostYieldModel.predict yields (with_area farm area) w)
     = fst (XGBoostYieldModel.predict yields farm w)
  /\ fst (YieldPredictor.predict yields (with_area farm area) w)
     = fst (YieldPredictor.predict yields farm w).
Proof.
  split; [| split; [| split; [| split]]].
  - intro Habs. apply getitem_absent in Habs.
    pose proof (xgb_predict_absent yields farm w Habs) as Hx.
    unfold YieldPredictor.predict, bindM. rewrite Hx. split; reflexivity.
  - intro Hin. apply getitem_present in Hin. destruct Hin as (stats & Hget).
    unfold XGBoostYieldModel.predict, bindM, lift, ret, np.random_normal.
    rewrite Hget. eexists. reflexivity.
  - destruct (PAKISTAN_YIELDS_complete (FarmFeatures.crop_type farm))
      as (stats & Hget & Hpos & Hlt & _).
    destruct (xgb_predict_spec PAKISTAN_YIELDS farm w stats Hget)
      as (v & Hrun & _); [lra |].
    destruct (predictor_view PAKISTAN_YIELDS farm w (advance w) stats v
                             Hget Hrun) as (forecast & Hf & _); [lra |].
    exists forecast. rewrite Hf. reflexivity.
  - reflexivity.
  - reflexivity.
Qed.

(** C5 fails as stated: a farm of area -2 hectares gets its forecast. *)
Lemma nonpositive_area_counterexample :
  FarmFeatures.area_hectares (Sample.wheat_farm (-2)) <= 0
  /\ (exists v w',
        XGBoostYieldModel.predict PAKISTAN_YIELDS (Sample.wheat_farm (-2))
                                  Sample.alternating = (Ok v, w'))
  /\ (exists forecast w',
        YieldPredictor.predict PAKISTAN_YIELDS (Sample.wheat_farm (-2))
                               Sample.alternating = (Ok forecast, w')).
Proof.
  split; [vm_compute; discriminate |].
  split; do 2 eexists; vm_compute; reflexivity.
Qed.

(** C7.  For every farm, whose crop type always has its entry in the
    reference table, the point estimate and the forecast's
    [predicted_yield_tons_per_hectare] lie in [min_yield, optimal_yield]
    of the crop, and the confidence interval, [predicted -/+ 1.96 * (0.15 *
    predicted)] taken on the point estimate and rounded like it to two
    decimals, has its low end at or below the predicted yield and its high
    end at or above it. *)
Theorem forecast_within_bounds (farm : FarmFeatures.t) (w : World) :
  exists stats p forecast,
    py.getitem CropType_eqb PAKISTAN_YIELDS (FarmFeatures.crop_type farm)
    = Ok stats
    /\ XGBoostYieldModel.predict PAKISTAN_YIELDS farm w = (Ok p, advance w)
    /\ YieldPredictor.predict PAKISTAN_YIELDS farm w
       = (Ok forecast, advance w)
    /\ CropStats.min stats <= p <= CropStats.optimal stats
    /\ YieldPrediction.predicted_yield_tons_per_hectare forecast
       = py.round p 2
    /\ YieldPrediction.confidence_interval forecast
       = (py.round (p - 1.96 * (0.15 * p)) 2,
          py.round (p + 1.96 * (0.15 * p)) 2)
    /\ CropStats.min stats
       <= YieldPrediction.predicted_yield_tons_per_hectare forecast
       <= CropStats.optimal stats
    /\ fst (YieldPrediction.confidence_interval forecast)
       <= YieldPrediction.predicted_yield_tons_per_hectare forecast
       <= snd (YieldPrediction.confidence_interval forecast).
Proof.
  destruct (PAKISTAN_YIELDS_complete (FarmFeatures.crop_type farm))
    as (stats & Hget & Hpos & Hlt & Hrmin & Hropt).
  destruct (xgb_predict_spec PAKISTAN_YIELDS farm w stats Hget)
    as (p & Hrun & Hp); [lra |].
  destruct (predictor_view PAKISTAN_YIELDS farm w (advance w) stats p
                           Hget Hrun) as (forecast & Hf & Hpred & Hci);
    [lra |].
  assert (Hb : CropStats.min stats <= p <= CropStats.optimal stats).
  { rewrite Hp. apply clamp_bounds. lra. }
  exists stats, p, forecast.
  split; [exact Hget |]. split; [exact Hrun |]. split; [exact Hf |].
  split; [exact Hb |]. split; [exact Hpred |]. split; [exact Hci |].
  rewrite Hpred, Hci. cbn [fst snd].
  pose proof (round_le (CropStats.min stats) p 2 (proj1 Hb)) as H1.
  pose proof (round_le p (CropStats.optimal stats) 2 (proj2 Hb)) as H2.
  rewrite Hrmin in H1. rewrite Hropt in H2.
  split; [split; assumption |].
  split; apply round_le; lra.
Qed.

(** ** The theorems at sample inputs *)

Lemma indices_are_the_clamped_formulas_witness :
  length Sample.red_band = length Sample.nir_band
  /\ length Sample.green_band = length Sample.nir_band
  /\ length Sample.blue_band = length Sample.nir_band
  /\ exists ndvi ndwi savi evi,
       SatelliteProcessor.compute_ndvi Sample.nir_band Sample.red_band
       = Ok ndvi
       /\ SatelliteProcessor.compute_ndwi Sample.nir_band Sample.green_band
          = Ok ndwi
       /\ SatelliteProcessor.compute_savi Sample.nir_band Sample.red_band None
          = Ok savi
       /\ SatelliteProcessor.compute_evi Sample.nir_band Sample.red_band
                                         Sample.blue_band = Ok evi
       /\ Forall Spec.in_index_range (ndvi ++ ndwi ++ savi ++ evi).
Proof.
  split; [reflexivity |]. split; [reflexivity |]. split; [reflexivity |].
  destruct (indices_are_the_clamped_formulas
              Sample.nir_band Sample.red_band Sample.green_band
              Sample.blue_band None eq_refl eq_refl eq_refl)
    as (ndvi & ndwi & savi & evi & H1 & H2 & H3 & H4 & _ & _ & _ & _ & H5 & _).
  exists ndvi, ndwi, savi, evi. repeat split; assumption.
Defined.

Lemma zones_follow_the_priority_order_witness :
  length Sample.ndwi_raster = length Sample.ndvi_raster
  /\ Sample.ndvi_raster <> []
  /\ exists stats,
       SatelliteProcessor.classify_health_zones Sample.ndvi_raster
                                                Sample.ndwi_raster
       = Ok ([2; 0; 3; 1]%Z, stats).
Proof.
  split; [reflexivity |]. split; [discriminate |].
  exact (proj1 (zones_follow_the_priority_order
                  Sample.ndvi_raster Sample.ndwi_raster eq_refl
                  ltac:(discriminate))).
Defined.

Lemma zone_percentages_sum_to_100_witness :
  length Sample.ndwi_raster = length Sample.ndvi_raster
  /\ Sample.ndvi_raster <> []
  /\ exists zones stats,
       SatelliteProcessor.classify_health_zones Sample.ndvi_raster
                                                Sample.ndwi_raster
       = Ok (zones, stats)
       /\ SatelliteProcessor.critical_percent stats
          + SatelliteProcessor.stressed_percent stats
          + SatelliteProcessor.moderate_percent stats
          + SatelliteProcessor.healthy_percent stats == 100.
Proof.
  split; [reflexivity |]. split; [discriminate |].
  exact (zone_percentages_sum_to_100
           Sample.ndvi_raster Sample.ndwi_raster eq_refl
           ltac:(discriminate)).
Defined.

Lemma health_score_formula_and_monotonicity_witness :
  SatelliteProcessor.ndvi_mean (Sample.indices_with 0.3 0.1)
  <= SatelliteProcessor.ndvi_mean (Sample.indices_with 0.5 0.1)
  /\ SatelliteProcessor.ndwi_mean (Sample.indices_with 0.3 0.1)
     == SatelliteProcessor.ndwi_mean (Sample.indices_with 0.5 0.1)
  /\ SatelliteProcessor.compute_health_score (Sample.indices_with 0.3 0.1)
     <= SatelliteProcessor.compute_health_score (Sample.indices_with 0.5 0.1).
Proof.
  assert (H1 : SatelliteProcessor.ndvi_mean (Sample.indices_with 0.3 0.1)
               <= SatelliteProcessor.ndvi_mean (Sample.indices_with 0.5 0.1))
    by (vm_compute; discriminate).
  assert (H2 : SatelliteProcessor.ndwi_mean (Sample.indices_with 0.3 0.1)
               == SatelliteProcessor.ndwi_mean (Sample.indices_with 0.5 0.1))
    by reflexivity.
  split; [exact H1 |]. split; [exact H2 |].
  exact (proj1 (proj2 (health_score_formula_and_monotonicity
                         (Sample.indices_with 0.3 0.1)
                         (Sample.indices_with 0.5 0.1))) H1 H2).
Defined.

Lemma encode_summarises_the_series_witness :
  (length Sample.short_series < 3)%nat
  /\ LSTMTimeSeriesEncoder.encode (fun x => x) Sample.short_series
     = Ok (repeat 0 8)
  /\ (3 <= length Sample.series)%nat
  /\ exists mean variance peak trough avg_change max_change,
       LSTMTimeSeriesEncoder.encode (fun x => x) Sample.series
       = Ok [mean; variance; peak; trough; 0.5 - 0.4; 0.5; avg_change;
             max_change]
       /\ mean == 0.5.
Proof.
  assert (H1 : (length Sample.short_series < 3)%nat) by (simpl; lia).
  assert (H2 : (3 <= length Sample.series)%nat) by (simpl; lia).
  split; [exact H1 |].
  split;
    [exact (proj1 (encode_summarises_the_series
                     (fun x => x) Sample.short_series) H1) |].
  split; [exact H2 |].
  destruct (proj1 (proj2 (encode_summarises_the_series
                            (fun x => x) Sample.series)) H2)
    as (m & v & mx & mn & ac & mc & Hrun & Hm & _).
  exists m, v, mx, mn, ac, mc. split; [exact Hrun |].
  rewrite Hm. vm_compute. reflexivity.
Defined.

Lemma zone_percentages_cover_every_pixel_witness :
  length Sample.ndwi_raster = length Sample.ndvi_raster
  /\ Sample.ndvi_raster <> []
  /\ well_shaped Sample.scene
  /\ (exists zones stats,
        SatelliteProcessor.classify_health_zones Sample.ndvi_raster
                                                 Sample.ndwi_raster
        = Ok (zones, stats)
        /\ SatelliteProcessor.critical_percent stats
           == Spec.zone_share Spec.critical Sample.ndvi_raster
                              Sample.ndwi_raster)
  /\ (exists indices,
        SatelliteProcessor.process_image (fun x => x) Sample.scene
        = Ok indices
        /\ length (SatelliteProcessor.ndvi indices) = 3%nat
        /\ Spec.same_raster (SatelliteProcessor.ndvi indices)
                            [7 # 13; 5 # 7; 1 # 5]
        /\ SatelliteProcessor.ndvi_mean indices == 24 # 65).
Proof.
  assert (Hs : well_shaped Sample.scene) by (repeat split; reflexivity).
  split; [reflexivity |]. split; [discriminate |]. split; [exact Hs |].
  destruct (zone_percentages_cover_every_pixel
              (fun x => x) Sample.scene Sample.ndvi_raster Sample.ndwi_raster
              eq_refl ltac:(discriminate) Hs)
    as ((zones & stats & Hz & Hc & _)
        & (indices & Hrun & Cv & _ & _ & _ & _ & _ & Hl & _ & Hmean & _)).
  split.
  - exists zones, stats. split; assumption.
  - exists indices. split; [exact Hrun |]. split; [exact Hl |].
    destruct indices as [ndvi0 ndwi0 savi0 evi0 m0 s0 wm0 ws0 sm0].
    cbn [SatelliteProcessor.ndvi SatelliteProcessor.ndvi_mean] in *.
    vm_compute in Cv. injection Cv as <-.
    split.
    + repeat constructor.
    + match type of Hmean with
      | Spec.is_statistic _ _ ?xs =>
          let v := eval vm_compute in xs in change xs with v in Hmean
      end.
      cbn [Spec.is_statistic] in Hmean. unfold Spec.is_mean in Hmean.
      rewrite Hmean. vm_compute. reflexivity.
Defined.

Lemma point_estimate_carries_noise_witness :
  drawn_noise (Sample.steady 0 0) == 0.05
  /\ exists stats v,
       py.getitem CropType_eqb PAKISTAN_YIELDS
                  (FarmFeatures.crop_type (Sample.wheat_farm 2)) = Ok stats
       /\ XGBoostYieldModel.predict PAKISTAN_YIELDS (Sample.wheat_farm 2)
                                    (Sample.steady 0 0)
          = (Ok v, advance (Sample.steady 0 0))
       /\ v == Spec.noisy_estimate stats (Sample.wheat_farm 2)
                                   (drawn_noise (Sample.steady 0 0)).
Proof.
  split; [vm_compute; reflexivity |].
  destruct (point_estimate_carries_noise (Sample.wheat_farm 2)
                                         (Sample.steady 0 0))
    as (stats & v & Hget & Hrun & _ & Hv & _).
  exists stats, v. repeat split; assumption.
Defined.

Lemma prediction_is_a_function_of_input_and_draw_witness :
  gauss (Sample.steady 0 0) (cursor (Sample.steady 0 0))
  = gauss (Sample.steady 5 40) (cursor (Sample.steady 5 40))
  /\ fst (YieldPredictor.predict PAKISTAN_YIELDS (Sample.wheat_farm 2)
                                 (Sample.steady 0 0))
     = fst (YieldPredictor.predict PAKISTAN_YIELDS (Sample.wheat_farm 2)
                                   (Sample.steady 5 40)).
Proof.
  split; [reflexivity |].
  exact (proj1 (proj2 (prediction_is_a_function_of_input_and_draw
                         PAKISTAN_YIELDS (Sample.wheat_farm 2)
                         (Sample.steady 0 0) (Sample.steady 5 40) eq_refl))).
Defined.

Lemma prediction_fails_only_on_an_absent_crop_witness :
  ~ In (FarmFeatures.crop_type (Sample.wheat_farm 2))
       (map fst (tl PAKISTAN_YIELDS))
  /\ fst (YieldPredictor.predict (tl PAKISTAN_YIELDS) (Sample.wheat_farm 2)
                                 Sample.alternating) = Raise KeyError
  /\ In (FarmFeatures.crop_type (Sample.wheat_farm 2))
        (map fst PAKISTAN_YIELDS)
  /\ exists v,
       fst (XGBoostYieldModel.predict PAKISTAN_YIELDS (Sample.wheat_farm 2)
                                      Sample.alternating) = Ok v.
Proof.
  assert (H1 : ~ In (FarmFeatures.crop_type (Sample.wheat_farm 2))
                    (map fst (tl PAKISTAN_YIELDS))).
  { simpl. intros [H | [H | [H | [H | []]]]]; discriminate. }
  assert (H2 : In (FarmFeatures.crop_type (Sample.wheat_farm 2))
                  (map fst PAKISTAN_YIELDS)) by (simpl; left; reflexivity).
  split; [exact H1 |].
  split;
    [exact (proj2 (proj1 (prediction_fails_only_on_an_absent_crop
                            (tl PAKISTAN_YIELDS) (Sample.wheat_farm 2)
                            Sample.alternating 0) H1)) |].
  split; [exact H2 |].
  exact (proj1 (proj2 (prediction_fails_only_on_an_absent_crop
                         PAKISTAN_YIELDS (Sample.wheat_farm 2)
                         Sample.alternating 0)) H2).
Defined.

(** * Further properties of the code *)

(** ** Pixelwise reasoning *)

Lemma pixelwise2_flip {A : Type} (f : Q -> Q -> A) (xs ys : list Q) :
  Spec.pixelwise2 f ys xs = Spec.pixelwise2 (fun x y => f y x) xs ys.
Proof.
  unfold Spec.pixelwise2. revert ys.
  induction xs as [| x xs IH]; intros [| y ys]; simpl; try reflexivity.
  f_equal. apply IH.
Qed.

Lemma pixelwise2_Forall2 {A B : Type} (R : A -> B -> Prop)
      (f : Q -> Q -> A) (g : Q -> Q -> B) (xs ys : list Q) :
  (forall x y, In (x, y) (combine xs ys) -> R (f x y) (g x y)) ->
  Forall2 R (Spec.pixelwise2 f xs ys) (Spec.pixelwise2 g xs ys).
Proof.
  unfold Spec.pixelwise2. intro H.
  induction (combine xs ys) as [| [x y] ps IH]; simpl; constructor.
  - apply H. left. reflexivity.
  - apply IH. intros x' y' Hin. apply H. right. exact Hin.
Qed.

Lemma pixelwise2_length {A : Type} (f : Q -> Q -> A) (xs ys : list Q) :
  length ys = length xs -> length (Spec.pixelwise2 f xs ys) = length xs.
Proof.
  intro H. unfold Spec.pixelwise2. rewrite length_map, length_combine. lia.
Qed.

Lemma compute_ndvi_pixels (nir red : list Q) :
  length red = length nir ->
  SatelliteProcessor.compute_ndvi nir red
  = Ok (Spec.pixelwise2 pixel_ndvi nir red).
Proof.
  intro H. pose proof (compute_ndvi_view fst snd (combine nir red)) as E.
  rewrite (combine_fst nir red H), (combine_snd nir red H) in E. exact E.
Qed.

Lemma compute_ndwi_pixels (nir green : list Q) :
  length green = length nir ->
  SatelliteProcessor.compute_ndwi nir green
  = Ok (Spec.pixelwise2 pixel_ndwi nir green).
Proof.
  intro H. pose proof (compute_ndwi_view fst snd (combine nir green)) as E.
  rewrite (combine_fst nir green H), (combine_snd nir green H) in E. exact E.
Qed.

Lemma compute_savi_pixels (nir red : list Q) (L : option Q) :
  length red = length nir ->
  SatelliteProcessor.compute_savi nir red L
  = Ok (Spec.pixelwise2
          (fun n r => np.clip1 ((n - r) / guard (n + r + savi_L L)
                                * (1 + savi_L L)) (-1.0) 1.0) nir red).
Proof.
  intro H. pose proof (compute_savi_view fst snd (combine nir red) L) as E.
  rewrite (combine_fst nir red H), (combine_snd nir red H) in E. exact E.
Qed.

Lemma guard_comp (d d' : Q) : d == d' -> guard d == guard d'.
Proof.
  intro H. unfold guard.
  destruct (Qeq_bool d 0) eqn:E; destruct (Qeq_bool d' 0) eqn:E';
    try reflexivity; try exact H.
  - apply Qeq_bool_iff in E. apply Qeq_bool_neq in E'. lra.
  - apply Qeq_bool_iff in E'. apply Qeq_bool_neq in E. lra.
Qed.

Lemma guard_of_nonzero (d : Q) : ~ d == 0 -> guard d = d.
Proof.
  intro H. unfold guard. destruct (Qeq_bool d 0) eqn:E; [| reflexivity].
  apply Qeq_bool_iff in E. contradiction.
Qed.

Lemma guard_of_zero (d : Q) : d == 0 -> guard d = 1e-10.
Proof.
  intro H. unfold guard. apply Qeq_bool_iff in H. rewrite H. reflexivity.
Qed.

Lemma clamp_id (x lo hi : Q) : lo <= x <= hi -> Spec.clamp x lo hi == x.
Proof.
  intros [H1 H2]. unfold Spec.clamp.
  destruct (Qlt_le_dec x lo); destruct (Qlt_le_dec hi x); lra.
Qed.

Lemma clip_index_id (x : Q) : -1 <= x <= 1 -> np.clip1 x (-1.0) 1.0 == x.
Proof.
  intro H. rewrite clip1_clamp by lra. apply clamp_id. lra.
Qed.

Lemma clip_index_opp (x y : Q) :
  y == - x -> np.clip1 y (-1.0) 1.0 == - np.clip1 x (-1.0) 1.0.
Proof.
  intro H. rewrite !clip1_clamp by lra. unfold Spec.clamp.
  destruct (Qlt_le_dec y (-1.0)); destruct (Qlt_le_dec 1.0 y);
    destruct (Qlt_le_dec x (-1.0)); destruct (Qlt_le_dec 1.0 x); lra.
Qed.

Lemma clip_index_comp (x y : Q) :
  x == y -> np.clip1 x (-1.0) 1.0 == np.clip1 y (-1.0) 1.0.
Proof.
  intro H. rewrite !clip1_clamp by lra. rewrite H. reflexivity.
Qed.

(** ** The indices under a swap of bands, and without soil adjustment *)

(** X1.  Swapping the two bands of [compute_ndvi] negates the index at
    every pixel. *)
Theorem ndvi_of_swapped_bands_is_negated (nir red : list Q) :
  length red = length nir ->
  exists ndvi swapped,
    SatelliteProcessor.compute_ndvi nir red = Ok ndvi
    /\ SatelliteProcessor.compute_ndvi red nir = Ok swapped
    /\ Forall2 (fun s v => s == - v) swapped ndvi.
Proof.
  intro H.
  rewrite (compute_ndvi_pixels nir red H).
  rewrite (compute_ndvi_pixels red nir (eq_sym H)).
  do 2 eexists. split; [reflexivity |]. split; [reflexivity |].
  rewrite pixelwise2_flip. apply pixelwise2_Forall2.
  intros n r _. unfold pixel_ndvi. apply clip_index_opp.
  assert (Hg : guard (r + n) == guard (n + r)) by (apply guard_comp; ring).
  rewrite Hg. field. apply guard_nonzero.
Qed.

(** X2.  With the soil adjustment [L] set to 0, [compute_savi] is
    [compute_ndvi]. *)
Theorem savi_without_adjustment_is_ndvi (nir red : list Q) :
  length red = length nir ->
  exists savi ndvi,
    SatelliteProcessor.compute_savi nir red (Some 0) = Ok savi
    /\ SatelliteProcessor.compute_ndvi nir red = Ok ndvi
    /\ Spec.same_raster savi ndvi.
Proof.
  intro H.
  rewrite (compute_savi_pixels nir red (Some 0) H).
  rewrite (compute_ndvi_pixels nir red H).
  do 2 eexists. split; [reflexivity |]. split; [reflexivity |].
  apply pixelwise2_Forall2. intros n r _.
  unfold pixel_ndvi, savi_L. apply clip_index_comp.
  assert (Hg : guard (n + r + 0) == guard (n + r)) by (apply guard_comp; ring).
  rewrite Hg. field. apply guard_nonzero.
Qed.

(** ** The indices on reflectances *)

Lemma zero_numerator_over_guard (num den : Q) :
  num == 0 -> num / guard den == 0.
Proof.
  intro H. unfold Qdiv. rewrite H. ring.
Qed.

Lemma pixel_ndvi_of_reflectances (n r : Q) :
  0 <= n -> 0 <= r ->
  pixel_ndvi n r == if Qeq_dec (n + r) 0 then 0 else (n - r) / (n + r).
Proof.
  intros Hn Hr. unfold pixel_ndvi.
  destruct (Qeq_dec (n + r) 0) as [Hz | Hnz].
  - rewrite (clip_index_comp _ 0)
      by (apply zero_numerator_over_guard; lra).
    apply clip_index_id. lra.
  - rewrite (guard_of_nonzero _ Hnz). apply clip_index_id.
    assert (Hpos : 0 < n + r) by lra.
    split.
    + apply Qle_shift_div_l; [exact Hpos | lra].
    + apply Qle_shift_div_r; [exact Hpos | lra].
Qed.

Lemma pixel_ndwi_is_ndvi (n g : Q) : pixel_ndwi n g = pixel_ndvi g n.
Proof. reflexivity. Qed.

Lemma Forall_combine_l {A B : Type} (P : A -> Prop) (xs : list A)
      (ys : list B) (x : A) (y : B) :
  Forall P xs -> In (x, y) (combine xs ys) -> P x.
Proof.
  intros HP Hin. rewrite Forall_forall in HP.
  apply HP. exact (in_combine_l xs ys x y Hin).
Qed.

Lemma Forall_combine_r {A B : Type} (P : B -> Prop) (xs : list A)
      (ys : list B) (x : A) (y : B) :
  Forall P ys -> In (x, y) (combine xs ys) -> P y.
Proof.
  intros HP Hin. rewrite Forall_forall in HP.
  apply HP. exact (in_combine_r xs ys x y Hin).
Qed.

(** X3.  On bands without negative values the clamping of [compute_ndvi]
    and [compute_ndwi] changes nothing: the index is the plain quotient
    wherever the two bands are not both zero, and 0 where they are. *)
Theorem ndvi_and_ndwi_of_reflectances (nir red green : list Q) :
  length red = length nir ->
  length green = length nir ->
  Forall (Qle 0) nir -> Forall (Qle 0) red -> Forall (Qle 0) green ->
  exists ndvi ndwi,
    SatelliteProcessor.compute_ndvi nir red = Ok ndvi
    /\ SatelliteProcessor.compute_ndwi nir green = Ok ndwi
    /\ Spec.same_raster ndvi
         (Spec.pixelwise2
            (fun n r => if Qeq_dec (n + r) 0 then 0 else (n - r) / (n + r))
            nir red)
    /\ Spec.same_raster ndwi
         (Spec.pixelwise2
            (fun n g => if Qeq_dec (g + n) 0 then 0 else (g - n) / (g + n))
            nir green).
Proof.
  intros Hr Hg Pn Pr Pg.
  rewrite (compute_ndvi_pixels nir red Hr).
  rewrite (compute_ndwi_pixels nir green Hg).
  do 2 eexists. split; [reflexivity |]. split; [reflexivity |].
  split; apply pixelwise2_Forall2; intros x y Hin.
  - apply pixel_ndvi_of_reflectances.
    + exact (Forall_combine_l _ _ _ _ _ Pn Hin).
    + exact (Forall_combine_r _ _ _ _ _ Pr Hin).
  - rewrite pixel_ndwi_is_ndvi. apply pixel_ndvi_of_reflectances.
    + exact (Forall_combine_r _ _ _ _ _ Pg Hin).
    + exact (Forall_combine_l _ _ _ _ _ Pn Hin).
Qed.

Lemma pixel_savi_of_reflectances (n r : Q) :
  in_unit_interval n -> in_unit_interval r ->
  pixel_savi n r == (n - r) / (n + r + 0.5) * 1.5.
Proof.
  intros [Hn0 Hn1] [Hr0 Hr1]. unfold pixel_savi, savi_L.
  change SatelliteProcessor.SAVI_L with 0.5.
  assert (Hpos : 0 < n + r + 0.5) by lra.
  rewrite (guard_of_nonzero (n + r + 0.5)) by lra.
  assert (Hq : - (2 # 3) <= (n - r) / (n + r + 0.5) <= 2 # 3).
  { split.
    - apply Qle_shift_div_l; [exact Hpos | lra].
    - apply Qle_shift_div_r; [exact Hpos | lra]. }
  set (q := (n - r) / (n + r + 0.5)) in *.
  rewrite clip_index_id by lra. lra.
Qed.

(** X4.  On reflectances, that is values in [0, 1], [compute_savi] with its
    default soil adjustment never meets a zero denominator and is never
    clamped: it is 1.5 * (NIR - Red) / (NIR + Red + 0.5) at every pixel. *)
Theorem savi_of_reflectances (nir red : list Q) :
  length red = length nir ->
  Forall in_unit_interval nir -> Forall in_unit_interval red ->
  exists savi,
    SatelliteProcessor.compute_savi nir red None = Ok savi
    /\ Spec.same_raster savi
         (Spec.pixelwise2 (fun n r => (n - r) / (n + r + 0.5) * 1.5) nir red).
Proof.
  intros Hr Pn Pr.
  rewrite (compute_savi_pixels nir red None Hr).
  eexists. split; [reflexivity |].
  apply pixelwise2_Forall2. intros x y Hin.
  apply pixel_savi_of_reflectances.
  - exact (Forall_combine_l _ _ _ _ _ Pn Hin).
  - exact (Forall_combine_r _ _ _ _ _ Pr Hin).
Qed.

(** ** The range of the health score *)

Lemma clamp_above (x lo hi : Q) :
  lo <= hi -> hi <= x -> Spec.clamp x lo hi == hi.
Proof.
  intros Hb Hx. unfold Spec.clamp.
  destruct (Qlt_le_dec x lo); destruct (Qlt_le_dec hi x); lra.
Qed.

Lemma clamp_below (x lo hi : Q) :
  lo <= hi -> x <= lo -> Spec.clamp x lo hi == lo.
Proof.
  intros Hb Hx. unfold Spec.clamp.
  destruct (Qlt_le_dec x lo); destruct (Qlt_le_dec hi x); lra.
Qed.

Lemma normalised_above (m lo : Q) :
  lo + 0.6 <= m -> 100 <= (m - lo) / 0.6 * 100.
Proof.
  intro H. assert (1 <= (m - lo) / 0.6)
    by (apply Qle_shift_div_l; lra).
  lra.
Qed.

Lemma normalised_below (m lo : Q) :
  m <= lo -> (m - lo) / 0.6 * 100 <= 0.
Proof.
  intro H. assert ((m - lo) / 0.6 <= 0)
    by (apply Qle_shift_div_r; lra).
  lra.
Qed.

(** X5.  The health score lies in [0, 100]; it is 100 once the mean NDVI
    reaches 0.8 and the mean NDWI 0.4, and 0 when the mean NDVI is at most
    0.2 and the mean NDWI at most -0.2. *)
Theorem health_score_range_and_saturation
        (indices : SatelliteProcessor.VegetationIndices) :
  0 <= SatelliteProcessor.compute_health_score indices <= 100
  /\ (0.8 <= SatelliteProcessor.ndvi_mean indices ->
      0.4 <= SatelliteProcessor.ndwi_mean indices ->
      SatelliteProcessor.compute_health_score indices == 100)
  /\ (SatelliteProcessor.ndvi_mean indices <= 0.2 ->
      SatelliteProcessor.ndwi_mean indices <= -0.2 ->
      SatelliteProcessor.compute_health_score indices == 0).
Proof.
  rewrite health_score_spec. unfold Spec.health_score. cbv zeta.
  set (a := SatelliteProcessor.ndvi_mean indices).
  set (b := SatelliteProcessor.ndwi_mean indices).
  pose proof (clamp_bounds ((a - 0.2) / 0.6 * 100) 0 100 ltac:(lra)) as Ha.
  pose proof (clamp_bounds ((b + 0.2) / 0.6 * 100) 0 100 ltac:(lra)) as Hb.
  assert (R0 : py.round 0 1 == 0) by (vm_compute; reflexivity).
  assert (R100 : py.round 100 1 == 100) by (vm_compute; reflexivity).
  set (x := 0.7 * Spec.clamp ((a - 0.2) / 0.6 * 100) 0 100
            + 0.3 * Spec.clamp ((b + 0.2) / 0.6 * 100) 0 100).
  split; [| split].
  - pose proof (round_le 0 x 1 ltac:(unfold x; lra)) as L.
    pose proof (round_le x 100 1 ltac:(unfold x; lra)) as U.
    rewrite R0 in L. rewrite R100 in U. split; assumption.
  - intros Hn Hw.
    assert (Hx : x == 100).
    { unfold x.
      rewrite (clamp_above ((a - 0.2) / 0.6 * 100) 0 100)
        by (try apply normalised_above; lra).
      pose proof (normalised_above b (-0.2) ltac:(lra)) as H.
      assert (E : b - -0.2 == b + 0.2) by ring. rewrite E in H.
      rewrite (clamp_above ((b + 0.2) / 0.6 * 100) 0 100)
        by (lra || exact H).
      lra. }
    rewrite (round_Proper x 100 Hx 1%nat 1%nat eq_refl). exact R100.
  - intros Hn Hw.
    assert (Hx : x == 0).
    { unfold x.
      rewrite (clamp_below ((a - 0.2) / 0.6 * 100) 0 100)
        by (try apply normalised_below; lra).
      pose proof (normalised_below b (-0.2) ltac:(lra)) as H.
      assert (E : b - -0.2 == b + 0.2) by ring. rewrite E in H.
      rewrite (clamp_below ((b + 0.2) / 0.6 * 100) 0 100)
        by (lra || exact H).
      lra. }
    rewrite (round_Proper x 0 Hx 1%nat 1%nat eq_refl). exact R0.
Qed.

(** ** The zone map and its percentages *)

Lemma classify_zones (ndvi ndwi : list Q) :
  length ndwi = length ndvi ->
  ndvi <> [] ->
  exists stats,
    SatelliteProcessor.classify_health_zones ndvi ndwi
    = Ok (Spec.pixelwise2 (fun v w => Spec.zone_code (Spec.zone_of v w))
                          ndvi ndwi, stats)
    /\ (forall k,
          In k [0; 1; 2; 3]%Z ->
          let share :=
            inject_Z
              (np.count_equal
                 (Spec.pixelwise2
                    (fun v w => Spec.zone_code (Spec.zone_of v w)) ndvi ndwi)
                 k)
            / inject_Z (Z.of_nat (length ndvi)) * 100 in
          match k with
          | 0%Z => SatelliteProcessor.critical_percent stats = share
          | 1%Z => SatelliteProcessor.stressed_percent stats = share
          | 2%Z => SatelliteProcessor.moderate_percent stats = share
          | _ => SatelliteProcessor.healthy_percent stats = share
          end).
Proof.
  intros Hlen Hne.
  assert (Hps : combine ndvi ndwi <> []).
  { destruct ndvi; [congruence |]. destruct ndwi; discriminate. }
  pose proof (classify_view fst snd (combine ndvi ndwi) Hps) as H.
  rewrite (combine_fst ndvi ndwi Hlen), (combine_snd ndvi ndwi Hlen) in H.
  rewrite H. cbv zeta. eexists. split; [reflexivity |].
  assert (Hl : length (combine ndvi ndwi) = length ndvi)
    by (rewrite length_combine; lia).
  rewrite Hl.
  intros k [<- | [<- | [<- | [<- | []]]]]; reflexivity.
Qed.

Lemma zone_of_le (v w v' w' : Q) :
  v <= v' -> w <= w' ->
  (Spec.zone_code (Spec.zone_of v w)
   <= Spec.zone_code (Spec.zone_of v' w'))%Z.
Proof.
  intros Hv Hw. unfold Spec.zone_of.
  destruct (Spec.lt v 0.2) eqn:A; destruct (Spec.lt w (-0.2)) eqn:B;
    destruct (Spec.lt v 0.4) eqn:C; destruct (Spec.lt w 0) eqn:D;
    destruct (Spec.lt v 0.6) eqn:E;
    destruct (Spec.lt v' 0.2) eqn:A'; destruct (Spec.lt w' (-0.2)) eqn:B';
    destruct (Spec.lt v' 0.4) eqn:C'; destruct (Spec.lt w' 0) eqn:D';
    destruct (Spec.lt v' 0.6) eqn:E';
    cbn [orb Spec.zone_code]; try lia;
    rewrite ?lt_true, ?lt_false in *; lra.
Qed.

(** X6.  Health zones are monotone: when neither NDVI nor NDWI decreases at
    any pixel, no pixel moves to a worse zone. *)
Theorem zones_do_not_worsen_when_indices_grow
        (ndvi ndwi ndvi' ndwi' : list Q) :
  length ndwi = length ndvi ->
  ndvi <> [] ->
  raster_le ndvi ndvi' ->
  raster_le ndwi ndwi' ->
  exists zones stats zones' stats',
    SatelliteProcessor.classify_health_zones ndvi ndwi = Ok (zones, stats)
    /\ SatelliteProcessor.classify_health_zones ndvi' ndwi'
       = Ok (zones', stats')
    /\ Forall2 Z.le zones zones'.
Proof.
  intros Hlen Hne Hv Hw.
  assert (Hlen' : length ndwi' = length ndvi').
  { rewrite <- (Forall2_length Hv), <- (Forall2_length Hw). exact Hlen. }
  assert (Hne' : ndvi' <> []).
  { destruct Hv; [congruence | discriminate]. }
  destruct (classify_zones ndvi ndwi Hlen Hne) as (stats & -> & _).
  destruct (classify_zones ndvi' ndwi' Hlen' Hne') as (stats' & -> & _).
  do 4 eexists. split; [reflexivity |]. split; [reflexivity |].
  clear - Hv Hw. unfold Spec.pixelwise2.
  revert ndwi ndwi' Hw.
  induction Hv as [| v v' vs vs' Hvv _ IH]; intros ndwi ndwi' Hw.
  - constructor.
  - destruct Hw as [| w w' ws ws' Hww Hws]; simpl; constructor.
    + apply zone_of_le; assumption.
    + apply IH, Hws.
Qed.

Lemma count_equal_bounds (zs : list Z) (k : Z) :
  (0 <= np.count_equal zs k <= Z.of_nat (length zs))%Z.
Proof.
  unfold np.count_equal. pose proof (filter_length_le (fun z => Z.eqb z k) zs).
  lia.
Qed.

Lemma share_bounds (count n : Z) :
  (0 <= count <= n)%Z -> (0 < n)%Z ->
  0 <= inject_Z count / inject_Z n * 100 <= 100.
Proof.
  intros [H0 H1] Hn.
  assert (Qn : 0 < inject_Z n).
  { replace 0 with (inject_Z 0) by reflexivity. rewrite <- Zlt_Qlt. exact Hn. }
  assert (Q0 : 0 <= inject_Z count).
  { replace 0 with (inject_Z 0) by reflexivity. rewrite <- Zle_Qle. exact H0. }
  assert (Q1 : inject_Z count <= inject_Z n) by (rewrite <- Zle_Qle; exact H1).
  assert (Hq : 0 <= inject_Z count / inject_Z n <= 1).
  { split.
    - apply Qle_shift_div_l; [exact Qn | lra].
    - apply Qle_shift_div_r; [exact Qn | lra]. }
  set (q := inject_Z count / inject_Z n) in *. lra.
Qed.

(** X7.  Each of the four zone percentages lies in [0, 100]. *)
Theorem zone_percentages_in_range (ndvi ndwi : list Q) :
  length ndwi = length ndvi ->
  ndvi <> [] ->
  exists zones stats,
    SatelliteProcessor.classify_health_zones ndvi ndwi = Ok (zones, stats)
    /\ 0 <= SatelliteProcessor.critical_percent stats <= 100
    /\ 0 <= SatelliteProcessor.stressed_percent stats <= 100
    /\ 0 <= SatelliteProcessor.moderate_percent stats <= 100
    /\ 0 <= SatelliteProcessor.healthy_percent stats <= 100.
Proof.
  intros Hlen Hne.
  destruct (classify_zones ndvi ndwi Hlen Hne) as (stats & Hrun & Hshare).
  exists (Spec.pixelwise2 (fun v w => Spec.zone_code (Spec.zone_of v w))
                          ndvi ndwi), stats.
  split; [exact Hrun |].
  assert (Hn : (0 < Z.of_nat (length ndvi))%Z).
  { destruct ndvi; [congruence | simpl; lia]. }
  assert (Hb : forall k,
             0 <= inject_Z
                    (np.count_equal
                       (Spec.pixelwise2
                          (fun v w => Spec.zone_code (Spec.zone_of v w))
                          ndvi ndwi) k)
                  / inject_Z (Z.of_nat (length ndvi)) * 100 <= 100).
  { intro k. apply share_bounds; [| exact Hn].
    pose proof (count_equal_bounds
                  (Spec.pixelwise2
                     (fun v w => Spec.zone_code (Spec.zone_of v w))
                     ndvi ndwi) k) as Hc.
    rewrite (pixelwise2_length _ ndvi ndwi Hlen) in Hc. exact Hc. }
  pose proof (Hshare 0%Z ltac:(simpl; tauto)) as H0.
  pose proof (Hshare 1%Z ltac:(simpl; tauto)) as H1.
  pose proof (Hshare 2%Z ltac:(simpl; tauto)) as H2.
  pose proof (Hshare 3%Z ltac:(simpl; tauto)) as H3.
  cbv zeta in H0, H1, H2, H3. cbn iota in H0, H1, H2, H3.
  rewrite H0, H1, H2, H3. repeat split; apply Hb.
Qed.

(** ** The statistics and rasters of [process_image] *)

Lemma inject_length_cons {A : Type} (x : A) (xs : list A) :
  inject_Z (Z.of_nat (length (x :: xs)))
  == inject_Z (Z.of_nat (length xs)) + 1.
Proof.
  cbn [length]. rewrite Nat2Z.inj_succ. unfold Z.succ.
  rewrite inject_Z_plus. reflexivity.
Qed.

Lemma total_bounds (lo hi : Q) (xs : list Q) :
  Forall (fun x => lo <= x <= hi) xs ->
  inject_Z (Z.of_nat (length xs)) * lo <= Spec.total xs
  <= inject_Z (Z.of_nat (length xs)) * hi.
Proof.
  induction 1 as [| x xs [Hlo Hhi] _ IH].
  - change (inject_Z (Z.of_nat (length (@nil Q)))) with 0.
    change (Spec.total []) with 0. lra.
  - rewrite inject_length_cons. cbn [Spec.total fold_right].
    fold (Spec.total xs). lra.
Qed.

Lemma total_bounds_strict (lo hi : Q) (xs : list Q) :
  xs <> [] ->
  Forall (fun x => lo < x < hi) xs ->
  inject_Z (Z.of_nat (length xs)) * lo < Spec.total xs
  < inject_Z (Z.of_nat (length xs)) * hi.
Proof.
  intros Hne H. induction H as [| x xs [Hlo Hhi] Hxs IH]; [congruence |].
  rewrite inject_length_cons. cbn [Spec.total fold_right].
  fold (Spec.total xs).
  destruct xs as [| y ys].
  - change (inject_Z (Z.of_nat (length (@nil Q)))) with 0.
    change (Spec.total []) with 0. lra.
  - assert (Hy : y :: ys <> []) by discriminate.
    specialize (IH Hy). lra.
Qed.

Lemma length_pos {A : Type} (xs : list A) :
  xs <> [] -> 0 < inject_Z (Z.of_nat (length xs)).
Proof.
  intro H. destruct xs; [congruence |].
  replace 0 with (inject_Z 0) by reflexivity. rewrite <- Zlt_Qlt.
  simpl. lia.
Qed.

Lemma mean_bounds (lo hi : Q) (xs : list Q) :
  xs <> [] ->
  Forall (fun x => lo <= x <= hi) xs ->
  lo <= Spec.mean xs <= hi.
Proof.
  intros Hne H. pose proof (total_bounds lo hi xs H) as [H1 H2].
  pose proof (length_pos xs Hne) as Hn. unfold Spec.mean. split.
  - apply Qle_shift_div_l; [exact Hn | lra].
  - apply Qle_shift_div_r; [exact Hn | lra].
Qed.

Lemma mean_bounds_strict (lo hi : Q) (xs : list Q) :
  xs <> [] ->
  Forall (fun x => lo < x < hi) xs ->
  lo < Spec.mean xs < hi.
Proof.
  intros Hne H. pose proof (total_bounds_strict lo hi xs Hne H) as [H1 H2].
  pose proof (length_pos xs Hne) as Hn. unfold Spec.mean. split.
  - apply Qlt_shift_div_l; [exact Hn | lra].
  - apply Qlt_shift_div_r; [exact Hn | lra].
Qed.

Lemma statistic_mean_bounds (s : Q) (xs : list Q) :
  Spec.is_statistic Spec.is_mean s xs ->
  Forall (fun x => -1 <= x <= 1) xs ->
  -1 <= s <= 1.
Proof.
  intros Hs Hx. destruct xs as [| x xs]; simpl in Hs.
  - subst s. split; vm_compute; discriminate.
  - unfold Spec.is_mean in Hs. rewrite Hs.
    apply mean_bounds; [discriminate | exact Hx].
Qed.

Lemma statistic_mean_bounds_strict (s : Q) (xs : list Q) :
  Spec.is_statistic Spec.is_mean s xs ->
  Forall (fun x => -1 < x < 1) xs ->
  -1 < s < 1.
Proof.
  intros Hs Hx. destruct xs as [| x xs]; simpl in Hs.
  - subst s. split; vm_compute; reflexivity.
  - unfold Spec.is_mean in Hs. rewrite Hs.
    apply mean_bounds_strict; [discriminate | exact Hx].
Qed.

Lemma Forall_map_filter {P : Type} (R : Q -> Prop) (f : P -> Q)
      (c : P -> bool) (ps : list P) :
  (forall p, c p = true -> R (f p)) -> Forall R (map f (filter c ps)).
Proof.
  intro H. induction ps as [| p ps IH]; simpl; [constructor |].
  destruct (c p) eqn:E; [| exact IH].
  simpl. constructor; [apply H, E | exact IH].
Qed.

Lemma valid_pixel_strict (kept : bool) (v : Q) :
  Spec.valid_pixel kept v = true -> kept = true /\ -1 < v < 1.
Proof.
  unfold Spec.valid_pixel. rewrite !andb_true_iff, !lt_true. tauto.
Qed.

(** X8.  The mean statistics of [process_image] stay within the range of
    the indices: the mean NDVI lies strictly between -1 and 1, the mean NDWI
    and the mean SAVI in [-1, 1], whatever the bands and the mask. *)
Theorem index_means_within_range
        (sqrt : Q -> Q) (image : SatelliteProcessor.SatelliteImage) :
  well_shaped image ->
  exists indices,
    SatelliteProcessor.process_image sqrt image = Ok indices
    /\ -1 < SatelliteProcessor.ndvi_mean indices < 1
    /\ -1 <= SatelliteProcessor.ndwi_mean indices <= 1
    /\ -1 <= SatelliteProcessor.savi_mean indices <= 1.
Proof.
  intro Hshape.
  destruct (well_shaped_views image Hshape) as (Em & En & Er & Eg & Hl).
  set (ps := combine (mask_of image) _) in *.
  destruct (process_image_view sqrt fst (fun p => fst (snd p))
              (fun p => fst (snd (snd p))) (fun p => snd (snd (snd p)))
              image ps Em En Er Eg)
    as (indices & Hrun & _ & _ & _ & Hstats).
  { destruct Hshape as (_ & _ & Hb & _).
    destruct (SatelliteProcessor.blue image); [| exact I].
    rewrite Hl. exact Hb. }
  cbv zeta in Hstats. destruct Hstats as (H1 & _ & H3 & _ & H5).
  exists indices. split; [exact Hrun |].
  split; [| split].
  - apply (statistic_mean_bounds_strict _ _ H1).
    apply Forall_map_filter. intros p Hp.
    apply valid_pixel_strict in Hp. tauto.
  - apply (statistic_mean_bounds _ _ H3).
    apply Forall_map_filter. intros p _.
    pose proof (clip1_bounds
                  ((snd (snd (snd p)) - fst (snd p))
                   / guard (snd (snd (snd p)) + fst (snd p)))
                  (-1.0) 1.0 ltac:(lra)) as Hc.
    unfold pixel_ndwi. lra.
  - apply (statistic_mean_bounds _ _ H5).
    apply Forall_map_filter. intros p _.
    unfold pixel_savi.
    match goal with
    | |- _ <= np.clip1 ?x _ _ <= _ =>
        pose proof (clip1_bounds x (-1.0) 1.0 ltac:(lra)) as Hc
    end.
    lra.
Qed.

Ltac step_bind H :=
  match type of H with
  | bind ?m _ = Ok _ =>
      let E := fresh "E" in
      destruct m eqn:E; cbn [bind] in H; [| discriminate H]
  end.

(** The rasters a successful [process_image] returns are those of the four
    index computations on the bands. *)
Lemma process_image_rasters (sqrt : Q -> Q)
      (image : SatelliteProcessor.SatelliteImage)
      (indices : SatelliteProcessor.VegetationIndices) :
  SatelliteProcessor.process_image sqrt image = Ok indices ->
  SatelliteProcessor.compute_ndvi (SatelliteProcessor.nir image)
                                  (SatelliteProcessor.red image)
  = Ok (SatelliteProcessor.ndvi indices)
  /\ SatelliteProcessor.compute_ndwi (SatelliteProcessor.nir image)
                                     (SatelliteProcessor.green image)
     = Ok (SatelliteProcessor.ndwi indices)
  /\ SatelliteProcessor.compute_savi (SatelliteProcessor.nir image)
                                     (SatelliteProcessor.red image) None
     = Ok (SatelliteProcessor.savi indices)
  /\ match SatelliteProcessor.blue image with
     | Some b =>
         exists e,
           SatelliteProcessor.compute_evi (SatelliteProcessor.nir image)
                                          (SatelliteProcessor.red image) b
           = Ok e
           /\ SatelliteProcessor.evi indices = Some e
     | None => SatelliteProcessor.evi indices = None
     end.
Proof.
  unfold SatelliteProcessor.process_image. intro H.
  do 4 step_bind H. do 7 step_bind H.
  injection H as <-. cbn.
  repeat split.
  destruct (SatelliteProcessor.blue image) as [b |].
  - step_bind E2. injection E2 as <-. eexists. split; reflexivity.
  - injection E2 as <-. reflexivity.
Qed.

Lemma well_shaped_with_mask (image : SatelliteProcessor.SatelliteImage)
      (m : list bool) :
  well_shaped image ->
  length m = length (SatelliteProcessor.nir image) ->
  well_shaped (with_mask image (Some m)).
Proof.
  intros (Hr & Hg & Hb & _) Hm. unfold well_shaped, with_mask. cbn.
  repeat split; assumption.
Qed.

Lemma process_image_total (sqrt : Q -> Q)
      (image : SatelliteProcessor.SatelliteImage) :
  well_shaped image ->
  exists indices, SatelliteProcessor.process_image sqrt image = Ok indices.
Proof.
  intro Hshape.
  destruct (well_shaped_views image Hshape) as (Em & En & Er & Eg & Hl).
  set (ps := combine (mask_of image) _) in *.
  destruct (process_image_view sqrt fst (fun p => fst (snd p))
              (fun p => fst (snd (snd p))) (fun p => snd (snd (snd p)))
              image ps Em En Er Eg)
    as (indices & Hrun & _).
  { destruct Hshape as (_ & _ & Hb & _).
    destruct (SatelliteProcessor.blue image); [| exact I].
    rewrite Hl. exact Hb. }
  exists indices. exact Hrun.
Qed.

(** X9.  The cloud mask has no influence on the index rasters: with any
    mask of the right shape in place of the image's own, [process_image]
    returns the same NDVI, NDWI, SAVI and EVI rasters.  Only the statistics
    look at the mask. *)
Theorem index_rasters_ignore_the_mask
        (sqrt : Q -> Q) (image : SatelliteProcessor.SatelliteImage)
        (m : list bool) :
  well_shaped image ->
  length m = length (SatelliteProcessor.nir image) ->
  exists indices indices',
    SatelliteProcessor.process_image sqrt image = Ok indices
    /\ SatelliteProcessor.process_image sqrt (with_mask image (Some m))
       = Ok indices'
    /\ SatelliteProcessor.ndvi indices' = SatelliteProcessor.ndvi indices
    /\ SatelliteProcessor.ndwi indices' = SatelliteProcessor.ndwi indices
    /\ SatelliteProcessor.savi indices' = SatelliteProcessor.savi indices
    /\ SatelliteProcessor.evi indices' = SatelliteProcessor.evi indices.
Proof.
  intros Hshape Hm.
  destruct (process_image_total sqrt image Hshape) as (i1 & H1).
  destruct (process_image_total
              sqrt _ (well_shaped_with_mask image m Hshape Hm))
    as (i2 & H2).
  exists i1, i2. split; [exact H1 |]. split; [exact H2 |].
  destruct (process_image_rasters sqrt _ _ H1) as (A1 & B1 & C1 & D1).
  destruct (process_image_rasters sqrt _ _ H2) as (A2 & B2 & C2 & D2).
  cbn [with_mask SatelliteProcessor.nir SatelliteProcessor.red
       SatelliteProcessor.green SatelliteProcessor.blue] in A2, B2, C2, D2.
  rewrite A1 in A2. rewrite B1 in B2. rewrite C1 in C2.
  injection A2 as A2. injection B2 as B2. injection C2 as C2.
  repeat split; try (symmetry; assumption).
  destruct (SatelliteProcessor.blue image) as [b |].
  - destruct D1 as (e1 & X1 & Y1). destruct D2 as (e2 & X2 & Y2).
    rewrite X1 in X2. injection X2 as <-. congruence.
  - congruence.
Qed.

Lemma filter_none {P : Type} (c : P -> bool) (ps : list P) :
  (forall p, In p ps -> c p = false) -> filter c ps = [].
Proof.
  intro H. induction ps as [| p ps IH]; [reflexivity |].
  simpl. rewrite (H p (or_introl eq_refl)).
  apply IH. intros q Hq. apply H. right. exact Hq.
Qed.

Lemma score_of_zero_means (indices : SatelliteProcessor.VegetationIndices) :
  SatelliteProcessor.ndvi_mean indices = 0.0 ->
  SatelliteProcessor.ndwi_mean indices = 0.0 ->
  SatelliteProcessor.compute_health_score indices == 10.
Proof.
  intros H1 H2. unfold SatelliteProcessor.compute_health_score.
  rewrite H1, H2. vm_compute. reflexivity.
Qed.

(** X10.  For an image whose mask is False at every pixel no pixel counts:
    the five statistics of [process_image] are 0.0, and the health score
    computed from them is 10.0, not 0. *)
Theorem fully_masked_image_scores_ten
        (sqrt : Q -> Q) (image : SatelliteProcessor.SatelliteImage)
        (m : list bool) :
  well_shaped image ->
  SatelliteProcessor.cloud_mask image = Some m ->
  Forall (fun kept => kept = false) m ->
  exists indices,
    SatelliteProcessor.process_image sqrt image = Ok indices
    /\ SatelliteProcessor.ndvi_mean indices = 0.0
    /\ SatelliteProcessor.ndvi_std indices = 0.0
    /\ SatelliteProcessor.ndwi_mean indices = 0.0
    /\ SatelliteProcessor.ndwi_std indices = 0.0
    /\ SatelliteProcessor.savi_mean indices = 0.0
    /\ SatelliteProcessor.compute_health_score indices == 10.
Proof.
  intros Hshape Hmask Hall.
  destruct (well_shaped_views image Hshape) as (Em & En & Er & Eg & Hl).
  set (ps := combine (mask_of image) _) in *.
  destruct (process_image_view sqrt fst (fun p => fst (snd p))
              (fun p => fst (snd (snd p))) (fun p => snd (snd (snd p)))
              image ps Em En Er Eg)
    as (indices & Hrun & _ & _ & _ & Hstats).
  { destruct Hshape as (_ & _ & Hb & _).
    destruct (SatelliteProcessor.blue image); [| exact I].
    rewrite Hl. exact Hb. }
  cbv zeta in Hstats.
  assert (Hnone : filter
                    (fun p : bool * (Q * (Q * Q)) =>
                       Spec.valid_pixel
                         (fst p)
                         (pixel_ndvi (fst (snd p)) (fst (snd (snd p))))) ps
                  = []).
  { apply filter_none. intros p Hp.
    assert (Hf : fst p = false).
    { assert (Hin : In (fst p) (map fst ps)) by (apply in_map, Hp).
      rewrite <- Em in Hin. unfold mask_of in Hin. rewrite Hmask in Hin.
      rewrite Forall_forall in Hall. apply Hall, Hin. }
    unfold Spec.valid_pixel. rewrite Hf. reflexivity. }
  rewrite Hnone in Hstats. cbn [map Spec.is_statistic] in Hstats.
  destruct Hstats as (H1 & H2 & H3 & H4 & H5).
  exists indices. split; [exact Hrun |].
  repeat (split; [assumption |]).
  apply score_of_zero_means; assumption.
Qed.

(** X11.  The pipeline composes: on a non-empty image whose bands and mask
    have one shape, [process_image] succeeds, [classify_health_zones]
    succeeds on its NDVI and NDWI rasters, and the zone map has one code
    between 0 and 3 for every pixel of the image. *)
Theorem processed_image_can_be_classified
        (sqrt : Q -> Q) (image : SatelliteProcessor.SatelliteImage) :
  well_shaped image ->
  SatelliteProcessor.nir image <> [] ->
  exists indices zones stats,
    SatelliteProcessor.process_image sqrt image = Ok indices
    /\ SatelliteProcessor.classify_health_zones
         (SatelliteProcessor.ndvi indices) (SatelliteProcessor.ndwi indices)
       = Ok (zones, stats)
    /\ length zones = length (SatelliteProcessor.nir image)
    /\ Forall (fun z => (0 <= z <= 3)%Z) zones.
Proof.
  intros Hshape Hne.
  destruct (process_image_total sqrt image Hshape) as (indices & Hrun).
  destruct (process_image_rasters sqrt _ _ Hrun) as (A & B & _).
  destruct Hshape as (Hr & Hg & _).
  rewrite (compute_ndvi_pixels _ _ Hr) in A. injection A as A.
  rewrite (compute_ndwi_pixels _ _ Hg) in B. injection B as B.
  assert (Lv : length (SatelliteProcessor.ndvi indices)
               = length (SatelliteProcessor.nir image))
    by (rewrite <- A; apply pixelwise2_length, Hr).
  assert (Lw : length (SatelliteProcessor.ndwi indices)
               = length (SatelliteProcessor.nir image))
    by (rewrite <- B; apply pixelwise2_length, Hg).
  destruct (classify_zones (SatelliteProcessor.ndvi indices)
                           (SatelliteProcessor.ndwi indices))
    as (stats & Hz & _).
  { congruence. }
  { intro E. rewrite E in Lv. destruct (SatelliteProcessor.nir image);
      [congruence | discriminate]. }
  exists indices. do 2 eexists. split; [exact Hrun |]. split; [exact Hz |].
  split.
  - rewrite pixelwise2_length by congruence. exact Lv.
  - unfold Spec.pixelwise2. apply Forall_forall. intros z Hin.
    apply in_map_iff in Hin. destruct Hin as (p & <- & _).
    destruct (Spec.zone_of (fst p) (snd p)); simpl; lia.
Qed.

(** ** The summary of the encoder and the feature vector *)

Lemma encode_of_long_series (sqrt : Q -> Q) (series : list Q) :
  (3 <= length series)%nat ->
  exists mean variance peak trough avg_change max_change,
    LSTMTimeSeriesEncoder.encode sqrt series
    = Ok [mean; sqrt variance; peak; trough;
          List.last series 0 - hd 0 series; List.last series 0;
          avg_change; max_change]
    /\ mean == Spec.mean series
    /\ Spec.is_max peak series
    /\ Spec.is_min trough series
    /\ avg_change == Spec.mean (np.diff series)
    /\ Spec.is_max max_change (np.diff series).
Proof.
  intro Hlen. unfold LSTMTimeSeriesEncoder.encode. cbv zeta.
  assert (Hge : (length series <? 3)%nat = false)
    by (apply Nat.ltb_ge; exact Hlen).
  rewrite Hge.
  assert (Hne : series <> [])
    by (destruct series; [simpl in Hlen; lia | discriminate]).
  assert (Hd : np.diff series <> []).
  { destruct series as [| x [| y xs]]; simpl in Hlen; try lia. discriminate. }
  destruct (mean_spec series Hne) as (m & -> & Hm).
  destruct (std_spec sqrt series Hne) as (v & -> & Hv).
  destruct (max_spec series Hne) as (mx & -> & Hmx).
  destruct (min_spec series Hne) as (mn & -> & Hmn).
  rewrite (last_spec series Hne).
  destruct (mean_spec (np.diff series) Hd) as (ac & -> & Hac).
  destruct (max_spec (np.diff series) Hd) as (mc & -> & Hmc).
  destruct series as [| x xs]; [congruence |].
  cbn [bind np.first hd].
  exists m, v, mx, mn, ac, mc.
  split; [reflexivity |]. repeat (split; [assumption |]). assumption.
Qed.

(** The consecutive differences telescope. *)
Lemma total_diff (x : Q) (xs : list Q) :
  Spec.total (np.diff (x :: xs)) == List.last (x :: xs) 0 - x.
Proof.
  revert x. induction xs as [| y xs IH]; intro x.
  - cbn. lra.
  - change (np.diff (x :: y :: xs)) with ((y - x) :: np.diff (y :: xs)).
    change (List.last (x :: y :: xs) 0) with (List.last (y :: xs) 0).
    cbn [Spec.total fold_right]. fold (Spec.total (np.diff (y :: xs))).
    rewrite IH. lra.
Qed.

Lemma length_diff (x : Q) (xs : list Q) :
  length (np.diff (x :: xs)) = length xs.
Proof.
  revert x. induction xs as [| y xs IH]; intro x; [reflexivity |].
  change (np.diff (x :: y :: xs)) with ((y - x) :: np.diff (y :: xs)).
  cbn [length]. rewrite IH. reflexivity.
Qed.

(** X12.  For a series of three readings or more, the trend of the summary
    (last minus first) is the average change times the number of steps:
    the mean of the consecutive differences is the trend divided by
    [len - 1]. *)
Theorem trend_is_steps_times_average_change
        (sqrt : Q -> Q) (series : list Q) :
  (3 <= length series)%nat ->
  exists mean std peak trough trend final avg_change max_change,
    LSTMTimeSeriesEncoder.encode sqrt series
    = Ok [mean; std; peak; trough; trend; final; avg_change; max_change]
    /\ trend == avg_change * inject_Z (Z.of_nat (length series) - 1).
Proof.
  intro Hlen.
  destruct (encode_of_long_series sqrt series Hlen)
    as (m & v & mx & mn & ac & mc & Hrun & _ & _ & _ & Hac & _).
  do 8 eexists. split; [exact Hrun |].
  destruct series as [| x xs]; [simpl in Hlen; lia |].
  rewrite Hac. unfold Spec.mean.
  rewrite total_diff, length_diff. cbn [hd length].
  replace (Z.of_nat (S (length xs)) - 1)%Z with (Z.of_nat (length xs))
    by lia.
  field. apply size_pixels_nonzero.
  destruct xs; [simpl in Hlen; lia | discriminate].
Qed.

Lemma total_upper (hi : Q) (xs : list Q) :
  Forall (fun x => x <= hi) xs ->
  Spec.total xs <= inject_Z (Z.of_nat (length xs)) * hi.
Proof.
  induction 1 as [| x xs Hhi _ IH].
  - change (inject_Z (Z.of_nat (length (@nil Q)))) with 0.
    change (Spec.total []) with 0. lra.
  - rewrite inject_length_cons. cbn [Spec.total fold_right].
    fold (Spec.total xs). lra.
Qed.

Lemma mean_upper (hi : Q) (xs : list Q) :
  xs <> [] -> Forall (fun x => x <= hi) xs -> Spec.mean xs <= hi.
Proof.
  intros Hne H. pose proof (total_upper hi xs H).
  pose proof (length_pos xs Hne) as Hn. unfold Spec.mean.
  apply Qle_shift_div_r; [exact Hn | lra].
Qed.

Lemma last_in (x : Q) (xs : list Q) : In (List.last (x :: xs) 0) (x :: xs).
Proof.
  revert x. induction xs as [| y xs IH]; intro x.
  - left. reflexivity.
  - change (List.last (x :: y :: xs) 0) with (List.last (y :: xs) 0).
    right. apply IH.
Qed.

(** X13.  In the summary of a series of three readings or more the trough
    is at most the mean and the last value, both are at most the peak, and
    the average change is at most the largest change. *)
Theorem summary_statistics_are_ordered (sqrt : Q -> Q) (series : list Q) :
  (3 <= length series)%nat ->
  exists mean std peak trough trend final avg_change max_change,
    LSTMTimeSeriesEncoder.encode sqrt series
    = Ok [mean; std; peak; trough; trend; final; avg_change; max_change]
    /\ trough <= mean <= peak
    /\ trough <= final <= peak
    /\ avg_change <= max_change.
Proof.
  intro Hlen.
  destruct (encode_of_long_series sqrt series Hlen)
    as (m & v & mx & mn & ac & mc & Hrun & Hm & [_ Hmx] & [_ Hmn] & Hac
        & [_ Hmc]).
  do 8 eexists. split; [exact Hrun |].
  assert (Hne : series <> [])
    by (destruct series; [simpl in Hlen; lia | discriminate]).
  assert (Hd : np.diff series <> []).
  { destruct series as [| x [| y xs]]; simpl in Hlen; try lia. discriminate. }
  split; [| split].
  - rewrite Hm. apply mean_bounds; [exact Hne |].
    rewrite Forall_forall in *. intros x Hx. split; auto.
  - destruct series as [| x xs]; [congruence |].
    pose proof (last_in x xs) as Hin.
    rewrite Forall_forall in Hmx, Hmn. split; auto.
  - rewrite Hac. apply mean_upper; assumption.
Qed.

Lemma encode_length (sqrt : Q -> Q) (series : list Q) :
  exists features,
    LSTMTimeSeriesEncoder.encode sqrt series = Ok features
    /\ length features = 8%nat.
Proof.
  destruct (Nat.ltb (length series) 3) eqn:E.
  - unfold LSTMTimeSeriesEncoder.encode. cbv zeta. rewrite E.
    eexists. split; reflexivity.
  - apply Nat.ltb_ge in E.
    destruct (encode_of_long_series sqrt series E)
      as (m & v & mx & mn & ac & mc & Hrun & _).
    eexists. split; [exact Hrun | reflexivity].
Qed.

(** X14.  [prepare_features] never fails and leaves the world as it was;
    the vector it returns has one entry for each of the 23 names of
    [feature_names], whatever the length of the NDVI history. *)
Theorem feature_vector_matches_feature_names
        (sqrt : Q -> Q) (farm : FarmFeatures.t) (w : World) :
  exists features,
    XGBoostYieldModel.prepare_features sqrt farm w = (Ok features, w)
    /\ length features = length XGBoostYieldModel.feature_names
    /\ length features = 23%nat.
Proof.
  unfold XGBoostYieldModel.prepare_features, bindM, lift, ret, datetime_now.
  destruct (encode_length sqrt (FarmFeatures.ndvi_series farm))
    as (fs & -> & Hl).
  cbv zeta. eexists. split; [reflexivity |].
  rewrite !length_app, Hl. split; reflexivity.
Qed.

(** ** What the point estimate depends on *)

(** X15.  The point estimate reads the crop type, the current NDVI, the
    current NDWI and the irrigation type, and nothing else of the farm:
    two farms that agree on these four get the same estimate from the same
    world, whatever their weather, soil, fertilizer, area and NDVI
    history; if they also lie in the same province they get the same
    forecast. *)
Theorem estimate_reads_four_features
        (yields : list (CropType * CropStats.t)) (f1 f2 : FarmFeatures.t)
        (w : World) :
  same_predictors f1 f2 ->
  XGBoostYieldModel.predict yields f1 w = XGBoostYieldModel.predict yields f2 w
  /\ (FarmFeatures.province f1 = FarmFeatures.province f2 ->
      YieldPredictor.predict yields f1 w = YieldPredictor.predict yields f2 w).
Proof.
  destruct f1, f2. unfold same_predictors. cbn.
  intros (-> & -> & -> & ->). split; [reflexivity |].
  intros ->. reflexivity.
Qed.

Lemma factor_bounds (x : Q) : 0 <= Spec.clamp x 0 1 <= 1.
Proof. apply clamp_bounds. lra. Qed.

Lemma irrigation_factor_bounds (farm : FarmFeatures.t) :
  0.7 <= Spec.irrigation_factor farm <= 1.
Proof.
  unfold Spec.irrigation_factor. cbv zeta.
  destruct (String.eqb (FarmFeatures.irrigation_type farm) "canal");
    [lra |].
  destruct (String.eqb (FarmFeatures.irrigation_type farm) "tubewell");
    [lra |].
  destruct (String.eqb (FarmFeatures.irrigation_type farm) "rainfed"); lra.
Qed.

Lemma combined_nonneg (farm : FarmFeatures.t) : 0 <= Spec.combined farm.
Proof.
  unfold Spec.combined, Spec.ndvi_factor, Spec.water_factor.
  pose proof (factor_bounds ((FarmFeatures.current_ndvi farm - 0.3) / 0.4)).
  pose proof (factor_bounds ((FarmFeatures.current_ndwi farm + 0.2) / 0.5)).
  pose proof (irrigation_factor_bounds farm). lra.
Qed.

(** A larger combined factor never gives a smaller estimate, whatever the
    noise. *)
Lemma noisy_estimate_le (stats : CropStats.t) (f1 f2 : FarmFeatures.t)
      (noise : Q) :
  0 < CropStats.min stats ->
  CropStats.min stats < CropStats.optimal stats ->
  Spec.combined f1 <= Spec.combined f2 ->
  Spec.noisy_estimate stats f1 noise <= Spec.noisy_estimate stats f2 noise.
Proof.
  intros Hmin Hopt Hc. unfold Spec.noisy_estimate.
  pose proof (combined_nonneg f1) as H1.
  set (c1 := Spec.combined f1) in *. set (c2 := Spec.combined f2) in *.
  set (lo := CropStats.min stats) in *.
  set (hi := CropStats.optimal stats) in *.
  assert (Hb : lo + c1 * (hi - lo) <= lo + c2 * (hi - lo)).
  { assert (c1 * (hi - lo) <= c2 * (hi - lo))
      by (apply Qmult_le_compat_r; lra).
    lra. }
  assert (Hp : lo <= lo + c1 * (hi - lo)).
  { assert (0 <= c1 * (hi - lo)) by (apply Qmult_le_0_compat; lra). lra. }
  destruct (Qlt_le_dec (1 + noise) 0) as [Hneg | Hpos].
  - assert (N1 : (lo + c1 * (hi - lo)) * (1 + noise) <= lo).
    { assert (0 <= (lo + c1 * (hi - lo)) * - (1 + noise))
        by (apply Qmult_le_0_compat; lra).
      lra. }
    assert (N2 : (lo + c2 * (hi - lo)) * (1 + noise) <= lo).
    { assert (0 <= (lo + c2 * (hi - lo)) * - (1 + noise))
        by (apply Qmult_le_0_compat; lra).
      lra. }
    rewrite (clamp_below _ lo hi) by (lra || exact N1).
    rewrite (clamp_below _ lo hi) by (lra || exact N2).
    lra.
  - apply clamp_le; [lra |].
    apply Qmult_le_compat_r; assumption.
Qed.

Lemma estimates_compare (f1 f2 : FarmFeatures.t) (w : World) :
  FarmFeatures.crop_type f1 = FarmFeatures.crop_type f2 ->
  Spec.combined f1 <= Spec.combined f2 ->
  exists v1 v2,
    XGBoostYieldModel.predict PAKISTAN_YIELDS f1 w = (Ok v1, advance w)
    /\ XGBoostYieldModel.predict PAKISTAN_YIELDS f2 w = (Ok v2, advance w)
    /\ v1 <= v2.
Proof.
  intros Hcrop Hc.
  destruct (PAKISTAN_YIELDS_complete (FarmFeatures.crop_type f1))
    as (stats & Hget & Hpos & Hlt & _).
  assert (Hget2 : py.getitem CropType_eqb PAKISTAN_YIELDS
                             (FarmFeatures.crop_type f2) = Ok stats)
    by (rewrite <- Hcrop; exact Hget).
  destruct (xgb_predict_spec PAKISTAN_YIELDS f1 w stats Hget)
    as (v1 & R1 & E1); [lra |].
  destruct (xgb_predict_spec PAKISTAN_YIELDS f2 w stats Hget2)
    as (v2 & R2 & E2); [lra |].
  exists v1, v2. split; [exact R1 |]. split; [exact R2 |].
  rewrite E1, E2. apply noisy_estimate_le; assumption.
Qed.

(** X16.  The point estimate is monotone in the indices: of two farms with
    the same crop and irrigation, the one whose current NDVI and NDWI are
    not lower never gets the lower estimate from the same draw. *)
Theorem estimate_grows_with_the_indices (f1 f2 : FarmFeatures.t) (w : World) :
  FarmFeatures.crop_type f1 = FarmFeatures.crop_type f2 ->
  FarmFeatures.irrigation_type f1 = FarmFeatures.irrigation_type f2 ->
  FarmFeatures.current_ndvi f1 <= FarmFeatures.current_ndvi f2 ->
  FarmFeatures.current_ndwi f1 <= FarmFeatures.current_ndwi f2 ->
  exists v1 v2,
    XGBoostYieldModel.predict PAKISTAN_YIELDS f1 w = (Ok v1, advance w)
    /\ XGBoostYieldModel.predict PAKISTAN_YIELDS f2 w = (Ok v2, advance w)
    /\ v1 <= v2.
Proof.
  intros Hcrop Hirr Hv Hw. apply estimates_compare; [exact Hcrop |].
  unfold Spec.combined, Spec.ndvi_factor, Spec.water_factor,
    Spec.irrigation_factor.
  rewrite Hirr.
  assert (A : Spec.clamp ((FarmFeatures.current_ndvi f1 - 0.3) / 0.4) 0 1
              <= Spec.clamp ((FarmFeatures.current_ndvi f2 - 0.3) / 0.4) 0 1)
    by (apply clamp_le; [lra | apply div_le; lra]).
  assert (B : Spec.clamp ((FarmFeatures.current_ndwi f1 + 0.2) / 0.5) 0 1
              <= Spec.clamp ((FarmFeatures.current_ndwi f2 + 0.2) / 0.5) 0 1)
    by (apply clamp_le; [lra | apply div_le; lra]).
  lra.
Qed.

(** X17.  Irrigation ranks the estimates: with crop and indices equal, a
    rain-fed farm never gets more than a farm with any other irrigation
    type, and a canal-irrigated farm never gets less. *)
Theorem irrigation_ranks_the_estimate (f1 f2 : FarmFeatures.t) (w : World) :
  FarmFeatures.crop_type f1 = FarmFeatures.crop_type f2 ->
  FarmFeatures.current_ndvi f1 = FarmFeatures.current_ndvi f2 ->
  FarmFeatures.current_ndwi f1 = FarmFeatures.current_ndwi f2 ->
  FarmFeatures.irrigation_type f1 = "rainfed"%string
  \/ FarmFeatures.irrigation_type f2 = "canal"%string ->
  exists v1 v2,
    XGBoostYieldModel.predict PAKISTAN_YIELDS f1 w = (Ok v1, advance w)
    /\ XGBoostYieldModel.predict PAKISTAN_YIELDS f2 w = (Ok v2, advance w)
    /\ v1 <= v2.
Proof.
  intros Hcrop Hv Hw Hirr. apply estimates_compare; [exact Hcrop |].
  unfold Spec.combined, Spec.ndvi_factor, Spec.water_factor.
  rewrite Hv, Hw.
  pose proof (irrigation_factor_bounds f1) as B1.
  pose proof (irrigation_factor_bounds f2) as B2.
  assert (Hf : Spec.irrigation_factor f1 <= Spec.irrigation_factor f2).
  { destruct Hirr as [H | H].
    - assert (E : Spec.irrigation_factor f1 = 0.7)
        by (unfold Spec.irrigation_factor; rewrite H; reflexivity).
      rewrite E. lra.
    - assert (E : Spec.irrigation_factor f2 = 1.0)
        by (unfold Spec.irrigation_factor; rewrite H; reflexivity).
      rewrite E. lra. }
  lra.
Qed.

(** ** The fields of the forecast *)

Lemma predictor_fields (yields : list (CropType * CropStats.t))
      (farm : FarmFeatures.t) (w w' : World) (stats : CropStats.t) (v : Q) :
  py.getitem CropType_eqb yields (FarmFeatures.crop_type farm) = Ok stats ->
  XGBoostYieldModel.predict yields farm w = (Ok v, w') ->
  ~ CropStats.optimal stats - CropStats.min stats == 0 ->
  exists forecast,
    YieldPredictor.predict yields farm w = (Ok forecast, w')
    /\ YieldPrediction.percentile forecast
       = py.int (np.clip1 ((v - CropStats.min stats)
                           / (CropStats.optimal stats - CropStats.min stats)
                           * 100) 0 100)
    /\ YieldPrediction.key_factors forecast = YieldPredictor.key_factors farm
    /\ YieldPrediction.confidence_interval forecast
       = (py.round (v - 1.96 * (0.15 * v)) 2,
          py.round (v + 1.96 * (0.15 * v)) 2).
Proof.
  intros Hget Hx Hnz.
  unfold YieldPredictor.predict, bindM, lift, ret.
  rewrite Hx, Hget. rewrite divide_ok by exact Hnz.
  eexists. split; [reflexivity |]. repeat split; reflexivity.
Qed.

Lemma int_floor (x : Q) : 0 <= x -> py.int x = Qfloor x.
Proof.
  destruct x as [n d]. unfold Qle, py.int, Qfloor. cbn [Qnum Qden].
  intro H. apply Z.quot_div_nonneg; lia.
Qed.

(** X18.  The percentile of the forecast is the position of the point
    estimate between the crop's minimum and optimal yield, in percent,
    truncated to an integer (not rounded); it lies between 0 and 100. *)
Theorem percentile_is_the_truncated_position
        (farm : FarmFeatures.t) (w : World) :
  exists stats p forecast,
    py.getitem CropType_eqb PAKISTAN_YIELDS (FarmFeatures.crop_type farm)
    = Ok stats
    /\ XGBoostYieldModel.predict PAKISTAN_YIELDS farm w = (Ok p, advance w)
    /\ YieldPredictor.predict PAKISTAN_YIELDS farm w
       = (Ok forecast, advance w)
    /\ (0 <= YieldPrediction.percentile forecast <= 100)%Z
    /\ inject_Z (YieldPrediction.percentile forecast)
       <= (p - CropStats.min stats)
          / (CropStats.optimal stats - CropStats.min stats) * 100
       < inject_Z (YieldPrediction.percentile forecast + 1).
Proof.
  destruct (PAKISTAN_YIELDS_complete (FarmFeatures.crop_type farm))
    as (stats & Hget & Hpos & Hlt & _).
  destruct (xgb_predict_spec PAKISTAN_YIELDS farm w stats Hget)
    as (p & Hrun & Hp); [lra |].
  destruct (predictor_fields PAKISTAN_YIELDS farm w (advance w) stats p
                             Hget Hrun) as (forecast & Hf & Hperc & _);
    [lra |].
  assert (Hb : CropStats.min stats <= p <= CropStats.optimal stats).
  { rewrite Hp. apply clamp_bounds. lra. }
  exists stats, p, forecast.
  split; [exact Hget |]. split; [exact Hrun |]. split; [exact Hf |].
  set (lo := CropStats.min stats) in *.
  set (hi := CropStats.optimal stats) in *.
  assert (Hq : 0 <= (p - lo) / (hi - lo) <= 1).
  { split.
    - apply Qle_shift_div_l; lra.
    - apply Qle_shift_div_r; lra. }
  set (y := (p - lo) / (hi - lo) * 100) in *.
  assert (Hy : 0 <= y <= 100) by (unfold y; lra).
  assert (Hc : np.clip1 y 0 100 == y).
  { rewrite clip1_clamp by lra. apply clamp_id. exact Hy. }
  assert (E : YieldPrediction.percentile forecast = Qfloor y).
  { rewrite Hperc. rewrite int_floor by (rewrite Hc; lra).
    apply Qfloor_comp, Hc. }
  rewrite E. split.
  - pose proof (Qfloor_resp_le 0 y (proj1 Hy)) as L.
    pose proof (Qfloor_resp_le y 100 (proj2 Hy)) as U.
    change (Qfloor 0) with 0%Z in L. change (Qfloor 100) with 100%Z in U.
    lia.
  - split; [apply Qfloor_le | apply Qlt_floor].
Qed.

Lemma interval_low_positive (crop : CropType) :
  exists stats,
    py.getitem CropType_eqb PAKISTAN_YIELDS crop = Ok stats
    /\ 0 < py.round (CropStats.min stats
                     - 1.96 * (0.15 * CropStats.min stats)) 2.
Proof.
  destruct crop; eexists; (split; [reflexivity |]); vm_compute; reflexivity.
Qed.

(** X19.  The low end of the confidence interval is always positive. *)
Theorem interval_low_end_is_positive (farm : FarmFeatures.t) (w : World) :
  exists forecast,
    YieldPredictor.predict PAKISTAN_YIELDS farm w = (Ok forecast, advance w)
    /\ 0 < fst (YieldPrediction.confidence_interval forecast).
Proof.
  destruct (PAKISTAN_YIELDS_complete (FarmFeatures.crop_type farm))
    as (stats & Hget & Hpos & Hlt & _).
  destruct (interval_low_positive (FarmFeatures.crop_type farm))
    as (stats' & Hget' & Hlow).
  rewrite Hget in Hget'. injection Hget' as <-.
  destruct (xgb_predict_spec PAKISTAN_YIELDS farm w stats Hget)
    as (p & Hrun & Hp); [lra |].
  destruct (predictor_fields PAKISTAN_YIELDS farm w (advance w) stats p
                             Hget Hrun) as (forecast & Hf & _ & _ & Hci);
    [lra |].
  assert (Hb : CropStats.min stats <= p <= CropStats.optimal stats).
  { rewrite Hp. apply clamp_bounds. lra. }
  exists forecast. split; [exact Hf |].
  rewrite Hci. cbn [fst].
  eapply Qlt_le_trans; [exact Hlow |].
  apply round_le. lra.
Qed.

Lemma Qle_bool_false (x y : Q) : Qle_bool x y = false <-> y < x.
Proof.
  split; intro H.
  - apply Qnot_le_lt. intro L. apply Qle_bool_iff in L. congruence.
  - destruct (Qle_bool x y) eqn:E; [| reflexivity].
    apply Qle_bool_iff in E. lra.
Qed.

(** X20.  The key factors of a forecast follow the thresholds: there is a
    positive NDVI factor exactly when the current NDVI is at least 0.6, a
    negative one exactly when it is below 0.4, never both, and a water
    stress factor exactly when the current NDWI is below 0.1; there are at
    most two factors. *)
Theorem key_factors_follow_the_thresholds
        (farm : FarmFeatures.t) (w : World) :
  exists forecast,
    YieldPredictor.predict PAKISTAN_YIELDS farm w = (Ok forecast, advance w)
    /\ (length (YieldPrediction.key_factors forecast) <= 2)%nat
    /\ ((exists k, In k (YieldPrediction.key_factors forecast)
                   /\ factor k = "NDVI Index"%string /\ impact k = positive)
        <-> 0.6 <= FarmFeatures.current_ndvi farm)
    /\ ((exists k, In k (YieldPrediction.key_factors forecast)
                   /\ factor k = "NDVI Index"%string /\ impact k = negative)
        <-> FarmFeatures.current_ndvi farm < 0.4)
    /\ ((exists k, In k (YieldPrediction.key_factors forecast)
                   /\ factor k = "Water Stress"%string)
        <-> FarmFeatures.current_ndwi farm < 0.1).
Proof.
  destruct (PAKISTAN_YIELDS_complete (FarmFeatures.crop_type farm))
    as (stats & Hget & Hpos & Hlt & _).
  destruct (xgb_predict_spec PAKISTAN_YIELDS farm w stats Hget)
    as (p & Hrun & Hp); [lra |].
  destruct (predictor_fields PAKISTAN_YIELDS farm w (advance w) stats p
                             Hget Hrun) as (forecast & Hf & _ & Hk & _);
    [lra |].
  exists forecast. split; [exact Hf |]. rewrite Hk.
  unfold YieldPredictor.key_factors. cbv zeta.
  destruct (Qle_bool 0.6 (FarmFeatures.current_ndvi farm)) eqn:A;
    [apply Qle_bool_iff in A | apply Qle_bool_false in A];
    (destruct (np.Qltb (FarmFeatures.current_ndvi farm) 0.4) eqn:B;
     [apply Qltb_lt in B | apply Qltb_ge in B]);
    (destruct (np.Qltb (FarmFeatures.current_ndwi farm) 0.1) eqn:C;
     [apply Qltb_lt in C | apply Qltb_ge in C]);
    cbn [app length];
    (split; [lia |]);
    repeat split;
    try (intros (k & Hin & Hrest); cbn [In] in Hin;
         repeat (destruct Hin as [<- | Hin]);
         try contradiction; cbn in Hrest;
         match type of Hrest with
         | _ /\ _ => destruct Hrest as [? ?]
         end; try discriminate; try lra);
    try (intros (k & Hin & Hrest); cbn [In] in Hin;
         repeat (destruct Hin as [<- | Hin]);
         try contradiction; cbn in Hrest; try discriminate; try lra);
    try (intro H;
         first
           [ exfalso; lra
           | solve [eexists; split;
                    [left; reflexivity | cbn; repeat split; reflexivity]]
           | solve [eexists; split;
                    [right; left; reflexivity
                    | cbn; repeat split; reflexivity]] ]).
Qed.

(** ** The yield evolution of [predict_timeseries] *)

Lemma range_step_7 (stop d : Z) :
  In d (py.range_step stop 7) <-> (0 <= d < stop)%Z /\ (d mod 7 = 0)%Z.
Proof.
  unfold py.range_step. rewrite in_map_iff. split.
  - intros (k & <- & Hk). apply in_seq in Hk.
    pose proof (Z.mul_div_le (stop + 7 - 1) 7 ltac:(lia)) as H1.
    split.
    + assert (Z.of_nat k < (stop + 7 - 1) / 7)%Z by lia.
      set (q := ((stop + 7 - 1) / 7)%Z) in *. lia.
    + rewrite Z.mul_comm. apply Z_mod_mult.
  - intros [Hd Hm].
    pose proof (Z_div_mod_eq_full d 7) as E. rewrite Hm in E.
    assert (0 <= d / 7)%Z by (apply Z.div_pos; lia).
    assert (d / 7 < (stop + 7 - 1) / 7)%Z.
    { pose proof (Z.mul_succ_div_gt (stop + 7 - 1) 7 ltac:(lia)).
      set (q := ((stop + 7 - 1) / 7)%Z) in *.
      set (e := (d / 7)%Z) in *. lia. }
    exists (Z.to_nat (d / 7)). split; [lia |].
    apply in_seq. lia.
Qed.

Lemma timeseries_loop_run (current_yield : Q) (days : list Z) (w : World) :
  exists points w',
    YieldPredictor.timeseries_loop current_yield days w = (Ok points, w')
    /\ map days_from_now points = days
    /\ Forall (fun point =>
                 confidence point
                 = 85 - inject_Z (days_from_now point) * 0.5
                 /\ date point = (today w + days_from_now point)%Z) points
    /\ cursor w' = (cursor w + length days)%nat
    /\ gauss w' = gauss w
    /\ today w' = today w.
Proof.
  revert w. induction days as [| day days IH]; intro w.
  - exists [], w. cbn. repeat split; try constructor; lia.
  - destruct (IH (advance w))
      as (points & w' & Hrun & Hdays & Hall & Hc & Hg & Ht).
    cbn [YieldPredictor.timeseries_loop].
    unfold bindM, np.random_normal, datetime_now, ret.
    fold (advance w). rewrite Hrun.
    eexists. exists w'. split; [reflexivity |].
    split; [cbn; rewrite Hdays; reflexivity |].
    split; [| split; [| split]].
    + constructor; [split; reflexivity | exact Hall].
    + rewrite Hc. cbn. lia.
    + rewrite Hg. reflexivity.
    + rewrite Ht. reflexivity.
Qed.

Lemma predict_timeseries_run (farm : FarmFeatures.t) (days_ahead : Z)
      (w : World) :
  exists points w',
    YieldPredictor.predict_timeseries PAKISTAN_YIELDS farm days_ahead w
    = (Ok points, w')
    /\ map days_from_now points = py.range_step days_ahead 7
    /\ Forall (fun point =>
                 confidence point
                 = 85 - inject_Z (days_from_now point) * 0.5
                 /\ date point = (today w + days_from_now point)%Z) points
    /\ cursor w' = (cursor w + 1 + length points)%nat
    /\ gauss w' = gauss w
    /\ today w' = today w.
Proof.
  destruct (PAKISTAN_YIELDS_complete (FarmFeatures.crop_type farm))
    as (stats & Hget & Hpos & Hlt & _).
  destruct (xgb_predict_spec PAKISTAN_YIELDS farm w stats Hget)
    as (p & Hrun & _); [lra |].
  destruct (timeseries_loop_run p (py.range_step days_ahead 7) (advance w))
    as (points & w' & Hloop & Hdays & Hall & Hc & Hg & Ht).
  unfold YieldPredictor.predict_timeseries, bindM. rewrite Hrun, Hloop.
  exists points, w'. split; [reflexivity |]. split; [exact Hdays |].
  split; [exact Hall |].
  split; [| split; assumption].
  rewrite Hc, <- Hdays, length_map. cbn. lia.
Qed.

(** X21.  [predict_timeseries] returns one point per week: the days of its
    points are exactly the multiples of 7 from 0 up to, not including,
    [days_ahead], in increasing order; each point is dated that many days
    from today and has confidence 85 minus half a point per day. *)
Theorem timeseries_has_one_point_per_week
        (farm : FarmFeatures.t) (days_ahead : Z) (w : World) :
  exists points w',
    YieldPredictor.predict_timeseries PAKISTAN_YIELDS farm days_ahead w
    = (Ok points, w')
    /\ map days_from_now points = py.range_step days_ahead 7
    /\ (forall d,
          In d (map days_from_now points)
          <-> (0 <= d < days_ahead)%Z /\ (d mod 7 = 0)%Z)
    /\ Forall (fun point =>
                 confidence point
                 = 85 - inject_Z (days_from_now point) * 0.5
                 /\ date point = (today w + days_from_now point)%Z) points.
Proof.
  destruct (predict_timeseries_run farm days_ahead w)
    as (points & w' & Hrun & Hdays & Hall & _).
  exists points, w'. split; [exact Hrun |]. split; [exact Hdays |].
  split; [| exact Hall].
  intro d. rewrite Hdays. apply range_step_7.
Qed.

(** X22.  [predict_timeseries] takes one draw from the global generator
    for the point estimate and one for every point it returns, and changes
    nothing else of the world; a call with [days_ahead] at or below 0
    returns no point and still moves the generator by one draw. *)
Theorem timeseries_draws_once_per_point_and_once_more
        (farm : FarmFeatures.t) (days_ahead : Z) (w : World) :
  exists points w',
    YieldPredictor.predict_timeseries PAKISTAN_YIELDS farm days_ahead w
    = (Ok points, w')
    /\ length points = Z.to_nat ((days_ahead + 6) / 7)
    /\ cursor w' = (cursor w + 1 + length points)%nat
    /\ gauss w' = gauss w
    /\ today w' = today w.
Proof.
  destruct (predict_timeseries_run farm days_ahead w)
    as (points & w' & Hrun & Hdays & _ & Hc & Hg & Ht).
  exists points, w'. split; [exact Hrun |].
  split; [| repeat split; assumption].
  rewrite <- (length_map days_from_now), Hdays.
  unfold py.range_step. rewrite length_map, length_seq.
  f_equal. f_equal. lia.
Qed.

(** X23.  The confidence of the points is not bounded below: from
    [days_ahead] 176 on, the returned list holds a point whose confidence
    is negative. *)
Theorem timeseries_confidence_turns_negative
        (farm : FarmFeatures.t) (days_ahead : Z) (w : World) :
  (176 <= days_ahead)%Z ->
  exists points w' point,
    YieldPredictor.predict_timeseries PAKISTAN_YIELDS farm days_ahead w
    = (Ok points, w')
    /\ In point points
    /\ days_from_now point = 175%Z
    /\ confidence point < 0.
Proof.
  intro Hd.
  destruct (predict_timeseries_run farm days_ahead w)
    as (points & w' & Hrun & Hdays & Hall & _).
  assert (Hin : In 175%Z (map days_from_now points)).
  { rewrite Hdays. apply range_step_7. split; [lia | reflexivity]. }
  apply in_map_iff in Hin. destruct Hin as (point & Hday & Hin).
  exists points, w', point. split; [exact Hrun |]. split; [exact Hin |].
  split; [exact Hday |].
  rewrite Forall_forall in Hall. destruct (Hall point Hin) as [Hconf _].
  rewrite Hconf, Hday. vm_compute. reflexivity.
Qed.

(** ** The further properties at sample inputs *)

Ltac all_pixels :=
  repeat (constructor;
          [ first [ vm_compute; discriminate
                  | split; vm_compute; discriminate
                  | reflexivity ] | ]);
  try constructor.

Lemma ndvi_of_swapped_bands_is_negated_witness :
  length Sample.red_band = length Sample.nir_band
  /\ exists ndvi swapped,
       SatelliteProcessor.compute_ndvi Sample.nir_band Sample.red_band
       = Ok ndvi
       /\ SatelliteProcessor.compute_ndvi Sample.red_band Sample.nir_band
          = Ok swapped
       /\ Forall2 (fun s v => s == - v) swapped ndvi.
Proof.
  split; [reflexivity |].
  exact (ndvi_of_swapped_bands_is_negated
           Sample.nir_band Sample.red_band eq_refl).
Defined.

Lemma savi_without_adjustment_is_ndvi_witness :
  length Sample.red_band = length Sample.nir_band
  /\ exists savi ndvi,
       SatelliteProcessor.compute_savi Sample.nir_band Sample.red_band
                                       (Some 0) = Ok savi
       /\ SatelliteProcessor.compute_ndvi Sample.nir_band Sample.red_band
          = Ok ndvi
       /\ Spec.same_raster savi ndvi.
Proof.
  split; [reflexivity |].
  exact (savi_without_adjustment_is_ndvi
           Sample.nir_band Sample.red_band eq_refl).
Defined.

Lemma ndvi_and_ndwi_of_reflectances_witness :
  length Scenario.reflectance_red = length Scenario.reflectance_nir
  /\ length Scenario.reflectance_green = length Scenario.reflectance_nir
  /\ Forall (Qle 0) Scenario.reflectance_nir
  /\ Forall (Qle 0) Scenario.reflectance_red
  /\ Forall (Qle 0) Scenario.reflectance_green
  /\ exists ndvi ndwi,
       SatelliteProcessor.compute_ndvi Scenario.reflectance_nir
                                       Scenario.reflectance_red = Ok ndvi
       /\ SatelliteProcessor.compute_ndwi Scenario.reflectance_nir
                                          Scenario.reflectance_green
          = Ok ndwi.
Proof.
  assert (Pn : Forall (Qle 0) Scenario.reflectance_nir) by all_pixels.
  assert (Pr : Forall (Qle 0) Scenario.reflectance_red) by all_pixels.
  assert (Pg : Forall (Qle 0) Scenario.reflectance_green) by all_pixels.
  split; [reflexivity |]. split; [reflexivity |].
  split; [exact Pn |]. split; [exact Pr |]. split; [exact Pg |].
  destruct (ndvi_and_ndwi_of_reflectances
              Scenario.reflectance_nir Scenario.reflectance_red
              Scenario.reflectance_green eq_refl eq_refl Pn Pr Pg)
    as (ndvi & ndwi & H1 & H2 & _).
  exists ndvi, ndwi. split; assumption.
Defined.

Lemma savi_of_reflectances_witness :
  length Scenario.reflectance_red = length Scenario.reflectance_nir
  /\ Forall in_unit_interval Scenario.reflectance_nir
  /\ Forall in_unit_interval Scenario.reflectance_red
  /\ exists savi,
       SatelliteProcessor.compute_savi Scenario.reflectance_nir
                                       Scenario.reflectance_red None
       = Ok savi
       /\ Spec.same_raster savi
            (Spec.pixelwise2 (fun n r => (n - r) / (n + r + 0.5) * 1.5)
                             Scenario.reflectance_nir
                             Scenario.reflectance_red).
Proof.
  assert (Pn : Forall in_unit_interval Scenario.reflectance_nir)
    by all_pixels.
  assert (Pr : Forall in_unit_interval Scenario.reflectance_red)
    by all_pixels.
  split; [reflexivity |]. split; [exact Pn |]. split; [exact Pr |].
  exact (savi_of_reflectances Scenario.reflectance_nir
                              Scenario.reflectance_red eq_refl Pn Pr).
Defined.

Lemma health_score_range_and_saturation_witness :
  0.8 <= SatelliteProcessor.ndvi_mean (Sample.indices_with 0.85 0.5)
  /\ 0.4 <= SatelliteProcessor.ndwi_mean (Sample.indices_with 0.85 0.5)
  /\ SatelliteProcessor.compute_health_score (Sample.indices_with 0.85 0.5)
     == 100.
Proof.
  assert (H1 : 0.8 <= SatelliteProcessor.ndvi_mean
                        (Sample.indices_with 0.85 0.5))
    by (vm_compute; discriminate).
  assert (H2 : 0.4 <= SatelliteProcessor.ndwi_mean
                        (Sample.indices_with 0.85 0.5))
    by (vm_compute; discriminate).
  split; [exact H1 |]. split; [exact H2 |].
  exact (proj1 (proj2 (health_score_range_and_saturation
                         (Sample.indices_with 0.85 0.5))) H1 H2).
Defined.

Lemma zones_do_not_worsen_when_indices_grow_witness :
  length Sample.ndwi_raster = length Sample.ndvi_raster
  /\ Sample.ndvi_raster <> []
  /\ raster_le Sample.ndvi_raster Scenario.better_ndvi_raster
  /\ raster_le Sample.ndwi_raster Scenario.better_ndwi_raster
  /\ exists zones stats zones' stats',
       SatelliteProcessor.classify_health_zones Sample.ndvi_raster
                                                Sample.ndwi_raster
       = Ok (zones, stats)
       /\ SatelliteProcessor.classify_health_zones
            Scenario.better_ndvi_raster Scenario.better_ndwi_raster
          = Ok (zones', stats')
       /\ Forall2 Z.le zones zones'.
Proof.
  assert (Hv : raster_le Sample.ndvi_raster Scenario.better_ndvi_raster)
    by (unfold raster_le; all_pixels).
  assert (Hw : raster_le Sample.ndwi_raster Scenario.better_ndwi_raster)
    by (unfold raster_le; all_pixels).
  split; [reflexivity |]. split; [discriminate |].
  split; [exact Hv |]. split; [exact Hw |].
  exact (zones_do_not_worsen_when_indices_grow
           Sample.ndvi_raster Sample.ndwi_raster
           Scenario.better_ndvi_raster Scenario.better_ndwi_raster
           eq_refl ltac:(discriminate) Hv Hw).
Defined.

Lemma zone_percentages_in_range_witness :
  length Sample.ndwi_raster = length Sample.ndvi_raster
  /\ Sample.ndvi_raster <> []
  /\ exists zones stats,
       SatelliteProcessor.classify_health_zones Sample.ndvi_raster
                                                Sample.ndwi_raster
       = Ok (zones, stats)
       /\ 0 <= SatelliteProcessor.critical_percent stats <= 100.
Proof.
  split; [reflexivity |]. split; [discriminate |].
  destruct (zone_percentages_in_range
              Sample.ndvi_raster Sample.ndwi_raster eq_refl
              ltac:(discriminate))
    as (zones & stats & Hrun & Hc & _).
  exists zones, stats. split; assumption.
Defined.

Lemma sample_scene_well_shaped : well_shaped Sample.scene.
Proof. repeat split; reflexivity. Defined.

Lemma overcast_well_shaped : well_shaped Scenario.overcast.
Proof. repeat split; reflexivity. Defined.

Lemma index_means_within_range_witness :
  well_shaped Sample.scene
  /\ exists indices,
       SatelliteProcessor.process_image (fun x => x) Sample.scene
       = Ok indices
       /\ -1 < SatelliteProcessor.ndvi_mean indices < 1.
Proof.
  split; [exact sample_scene_well_shaped |].
  destruct (index_means_within_range (fun x => x) Sample.scene
                                     sample_scene_well_shaped)
    as (indices & Hrun & Hm & _).
  exists indices. split; assumption.
Defined.

Lemma index_rasters_ignore_the_mask_witness :
  well_shaped Sample.scene
  /\ length [false; true; false] = length (SatelliteProcessor.nir Sample.scene)
  /\ exists indices indices',
       SatelliteProcessor.process_image (fun x => x) Sample.scene
       = Ok indices
       /\ SatelliteProcessor.process_image
            (fun x => x) (with_mask Sample.scene (Some [false; true; false]))
          = Ok indices'
       /\ SatelliteProcessor.ndvi indices' = SatelliteProcessor.ndvi indices.
Proof.
  split; [exact sample_scene_well_shaped |]. split; [reflexivity |].
  destruct (index_rasters_ignore_the_mask
              (fun x => x) Sample.scene [false; true; false]
              sample_scene_well_shaped eq_refl)
    as (i1 & i2 & H1 & H2 & H3 & _).
  exists i1, i2. repeat split; assumption.
Defined.

Lemma fully_masked_image_scores_ten_witness :
  well_shaped Scenario.overcast
  /\ SatelliteProcessor.cloud_mask Scenario.overcast
     = Some [false; false; false]
  /\ Forall (fun kept => kept = false) [false; false; false]
  /\ exists indices,
       SatelliteProcessor.process_image (fun x => x) Scenario.overcast
       = Ok indices
       /\ SatelliteProcessor.compute_health_score indices == 10.
Proof.
  assert (Hall : Forall (fun kept => kept = false) [false; false; false])
    by all_pixels.
  split; [exact overcast_well_shaped |]. split; [reflexivity |].
  split; [exact Hall |].
  destruct (fully_masked_image_scores_ten
              (fun x => x) Scenario.overcast [false; false; false]
              overcast_well_shaped eq_refl Hall)
    as (indices & Hrun & _ & _ & _ & _ & _ & Hscore).
  exists indices. split; assumption.
Defined.

Lemma processed_image_can_be_classified_witness :
  well_shaped Sample.scene
  /\ SatelliteProcessor.nir Sample.scene <> []
  /\ exists indices zones stats,
       SatelliteProcessor.process_image (fun x => x) Sample.scene
       = Ok indices
       /\ SatelliteProcessor.classify_health_zones
            (SatelliteProcessor.ndvi indices)
            (SatelliteProcessor.ndwi indices)
          = Ok (zones, stats)
       /\ length zones = 3%nat.
Proof.
  split; [exact sample_scene_well_shaped |]. split; [discriminate |].
  destruct (processed_image_can_be_classified
              (fun x => x) Sample.scene sample_scene_well_shaped
              ltac:(discriminate))
    as (indices & zones & stats & H1 & H2 & H3 & _).
  exists indices, zones, stats. repeat split; assumption.
Defined.

Lemma trend_is_steps_times_average_change_witness :
  (3 <= length Sample.series)%nat
  /\ exists mean std peak trough trend final avg_change max_change,
       LSTMTimeSeriesEncoder.encode (fun x => x) Sample.series
       = Ok [mean; std; peak; trough; trend; final; avg_change; max_change]
       /\ trend == avg_change * 3.
Proof.
  assert (H : (3 <= length Sample.series)%nat) by (simpl; lia).
  split; [exact H |].
  exact (trend_is_steps_times_average_change (fun x => x) Sample.series H).
Defined.

Lemma summary_statistics_are_ordered_witness :
  (3 <= length Sample.series)%nat
  /\ exists mean std peak trough trend final avg_change max_change,
       LSTMTimeSeriesEncoder.encode (fun x => x) Sample.series
       = Ok [mean; std; peak; trough; trend; final; avg_change; max_change]
       /\ trough <= mean <= peak
       /\ trough <= final <= peak
       /\ avg_change <= max_change.
Proof.
  assert (H : (3 <= length Sample.series)%nat) by (simpl; lia).
  split; [exact H |].
  exact (summary_statistics_are_ordered (fun x => x) Sample.series H).
Defined.

Lemma estimate_reads_four_features_witness :
  same_predictors (Sample.wheat_farm 2) (Sample.wheat_farm 40)
  /\ XGBoostYieldModel.predict PAKISTAN_YIELDS (Sample.wheat_farm 2)
                               Sample.alternating
     = XGBoostYieldModel.predict PAKISTAN_YIELDS (Sample.wheat_farm 40)
                                 Sample.alternating.
Proof.
  assert (H : same_predictors (Sample.wheat_farm 2) (Sample.wheat_farm 40))
    by (repeat split; reflexivity).
  split; [exact H |].
  exact (proj1 (estimate_reads_four_features
                  PAKISTAN_YIELDS (Sample.wheat_farm 2) (Sample.wheat_farm 40)
                  Sample.alternating H)).
Defined.

Lemma estimate_grows_with_the_indices_witness :
  FarmFeatures.crop_type Scenario.rice_farm
  = FarmFeatures.crop_type Scenario.greener_rice_farm
  /\ FarmFeatures.irrigation_type Scenario.rice_farm
     = FarmFeatures.irrigation_type Scenario.greener_rice_farm
  /\ FarmFeatures.current_ndvi Scenario.rice_farm
     <= FarmFeatures.current_ndvi Scenario.greener_rice_farm
  /\ FarmFeatures.current_ndwi Scenario.rice_farm
     <= FarmFeatures.current_ndwi Scenario.greener_rice_farm
  /\ exists v1 v2,
       XGBoostYieldModel.predict PAKISTAN_YIELDS Scenario.rice_farm
                                 Sample.alternating
       = (Ok v1, advance Sample.alternating)
       /\ XGBoostYieldModel.predict PAKISTAN_YIELDS
                                    Scenario.greener_rice_farm
                                    Sample.alternating
          = (Ok v2, advance Sample.alternating)
       /\ v1 <= v2.
Proof.
  assert (Hv : FarmFeatures.current_ndvi Scenario.rice_farm
               <= FarmFeatures.current_ndvi Scenario.greener_rice_farm)
    by (vm_compute; discriminate).
  assert (Hw : FarmFeatures.current_ndwi Scenario.rice_farm
               <= FarmFeatures.current_ndwi Scenario.greener_rice_farm)
    by (vm_compute; discriminate).
  split; [reflexivity |]. split; [reflexivity |].
  split; [exact Hv |]. split; [exact Hw |].
  exact (estimate_grows_with_the_indices
           Scenario.rice_farm Scenario.greener_rice_farm Sample.alternating
           eq_refl eq_refl Hv Hw).
Defined.

Lemma irrigation_ranks_the_estimate_witness :
  FarmFeatures.crop_type Scenario.rice_farm
  = FarmFeatures.crop_type Scenario.canal_rice_farm
  /\ FarmFeatures.current_ndvi Scenario.rice_farm
     = FarmFeatures.current_ndvi Scenario.canal_rice_farm
  /\ FarmFeatures.current_ndwi Scenario.rice_farm
     = FarmFeatures.current_ndwi Scenario.canal_rice_farm
  /\ FarmFeatures.irrigation_type Scenario.rice_farm = "rainfed"%string
  /\ exists v1 v2,
       XGBoostYieldModel.predict PAKISTAN_YIELDS Scenario.rice_farm
                                 Scenario.stormy
       = (Ok v1, advance Scenario.stormy)
       /\ XGBoostYieldModel.predict PAKISTAN_YIELDS Scenario.canal_rice_farm
                                    Scenario.stormy
          = (Ok v2, advance Scenario.stormy)
       /\ v1 <= v2.
Proof.
  split; [reflexivity |]. split; [reflexivity |]. split; [reflexivity |].
  split; [reflexivity |].
  exact (irrigation_ranks_the_estimate
           Scenario.rice_farm Scenario.canal_rice_farm Scenario.stormy
           eq_refl eq_refl eq_refl (or_introl eq_refl)).
Defined.

Lemma timeseries_confidence_turns_negative_witness :
  (176 <= 180)%Z
  /\ exists points w' point,
       YieldPredictor.predict_timeseries PAKISTAN_YIELDS Scenario.rice_farm
                                         180 Scenario.stormy
       = (Ok points, w')
       /\ In point points
       /\ days_from_now point = 175%Z
       /\ confidence point < 0.
Proof.
  assert (H : (176 <= 180)%Z) by lia.
  split; [exact H |].
  exact (timeseries_confidence_turns_negative
           Scenario.rice_farm 180 Scenario.stormy H).
Defined.
